(** * spectrum-proxy: operator console and resource distribution server

    A shallow embedding of the Go sources [main.go], [history.go], the
    completer and the resource pack HTTP server, together with the
    properties of the specification that were checked against them.

    Go strings are byte sequences and are modelled by [string]; [[]byte]
    is [list byte]; Go maps are [gmap]s; [int] is [Z] where its sign
    matters and [nat] for lengths.  Effects (logging, the proxy engine,
    the file system, the process exit) are recorded as a list of events
    returned next to the result. *)

From Stdlib Require Import ZArith NArith String Ascii List Lia Bool.
From Stdlib Require Import Decimal DecimalString.
From Stdlib.Strings Require Import Byte.
From stdpp Require Import base option list gmap strings.

Import ListNotations.
Local Open Scope string_scope.
Local Open Scope list_scope.

Set Default Proof Using "Type".

(** ** Go's [strings] and [fmt] packages, as far as the sources use them *)

Module GoStrings.

(** [len(s)] *)
Definition len (s : string) : nat := String.length s.

(** [s[n:]] for [n <= len(s)] *)
Fixpoint dropBytes (n : nat) (s : string) : string :=
  match n, s with
  | O, _ => s
  | S n', String _ s' => dropBytes n' s'
  | S _, EmptyString => EmptyString
  end.

(** [strings.HasPrefix(s, prefix)] *)
Definition HasPrefix (s pre : string) : bool := String.prefix pre s.

(** [strings.TrimPrefix(s, prefix)] *)
Definition TrimPrefix (s pre : string) : string :=
  if HasPrefix s pre then dropBytes (len pre) s else s.

(** [strings.Contains(s, substr)] *)
Fixpoint Contains (s substr : string) : bool :=
  HasPrefix s substr ||
  match s with
  | EmptyString => false
  | String _ s' => Contains s' substr
  end.

(** [unicode.IsSpace], read on the UTF-8 encoding of the rune: the six
    ASCII blanks, U+0085 and U+00A0 (two bytes), and U+1680,
    U+2000..U+200A, U+2028, U+2029, U+202F, U+205F, U+3000 (three
    bytes). *)
Definition isSpace1 (a : ascii) : bool :=
  let x := N_of_ascii a in
  ((9 <=? x) && (x <=? 13) || (x =? 32))%N.

Definition isSpace2 (a b : ascii) : bool :=
  let x := N_of_ascii a in
  let y := N_of_ascii b in
  ((x =? 194) && ((y =? 133) || (y =? 160)))%N.

Definition isSpace3 (a b c : ascii) : bool :=
  let x := N_of_ascii a in
  let y := N_of_ascii b in
  let z := N_of_ascii c in
  ((x =? 225) && (y =? 154) && (z =? 128)
   || (x =? 226) && (y =? 128)
      && ((128 <=? z) && (z <=? 138) || (z =? 168) || (z =? 169) || (z =? 175))
   || (x =? 226) && (y =? 129) && (z =? 159)
   || (x =? 227) && (y =? 128) && (z =? 128))%N.

(** [strings.TrimLeftFunc(s, unicode.IsSpace)] *)
Fixpoint TrimLeftSpace (s : string) : string :=
  match s with
  | EmptyString => s
  | String a s1 =>
      if isSpace1 a then TrimLeftSpace s1
      else
        match s1 with
        | EmptyString => s
        | String b s2 =>
            if isSpace2 a b then TrimLeftSpace s2
            else
              match s2 with
              | EmptyString => s
              | String c s3 => if isSpace3 a b c then TrimLeftSpace s3 else s
              end
        end
  end.

(** The same scan on the reversed string: the last rune of the
    original is read from its last byte backwards. *)
Fixpoint trimLeftSpaceRev (r : string) : string :=
  match r with
  | EmptyString => r
  | String c r1 =>
      if isSpace1 c then trimLeftSpaceRev r1
      else
        match r1 with
        | EmptyString => r
        | String b r2 =>
            if isSpace2 b c then trimLeftSpaceRev r2
            else
              match r2 with
              | EmptyString => r
              | String a r3 => if isSpace3 a b c then trimLeftSpaceRev r3 else r
              end
        end
  end.

(** [strings.TrimRightFunc(s, unicode.IsSpace)] *)
Definition TrimRightSpace (s : string) : string :=
  String.rev (trimLeftSpaceRev (String.rev s)).

(** [strings.TrimSpace(s)] *)
Definition TrimSpace (s : string) : string :=
  TrimRightSpace (TrimLeftSpace s).

Definition flush (cur : option string) : list string :=
  match cur with
  | Some r => [String.rev r]
  | None => []
  end.

Definition push (a : ascii) (cur : option string) : option string :=
  match cur with
  | Some r => Some (String a r)
  | None => Some (String a EmptyString)
  end.

(** [strings.Fields(s)]: the maximal runs of non-blank runes.  [cur]
    is the field being read, reversed. *)
Fixpoint fields_go (cur : option string) (s : string) : list string :=
  match s with
  | EmptyString => flush cur
  | String a s1 =>
      if isSpace1 a then flush cur ++ fields_go None s1
      else
        match s1 with
        | EmptyString => fields_go (push a cur) s1
        | String b s2 =>
            if isSpace2 a b then flush cur ++ fields_go None s2
            else
              match s2 with
              | EmptyString => fields_go (push a cur) s1
              | String c s3 =>
                  if isSpace3 a b c then flush cur ++ fields_go None s3
                  else fields_go (push a cur) s1
              end
        end
  end.

Definition Fields (s : string) : list string := fields_go None s.

(** [strings.Split(s, sep)] for a separator of one byte (the sources
    only split on [" "]): never empty, one more piece than there are
    separators. *)
Fixpoint Split (s : string) (sep : ascii) : list string :=
  match s with
  | EmptyString => [EmptyString]
  | String a s' =>
      if Ascii.eqb a sep then EmptyString :: Split s' sep
      else
        match Split s' sep with
        | x :: xs => String a x :: xs
        | [] => [String a EmptyString]
        end
  end.

(** [strings.LastIndexByte(s, c) + 1], and 0 when [c] does not occur:
    the offset just after the last [c]. *)
Fixpoint afterLastIndexByte (s : string) (c : ascii) : nat :=
  match s with
  | EmptyString => 0
  | String a s' =>
      match afterLastIndexByte s' c with
      | O => if Ascii.eqb a c then 1 else 0
      | S k => S (S k)
      end
  end.

(** ASCII upper-casing, what [strings.ToUpper] does on a string
    without bytes above 0x7F. *)
Definition upperByte (a : ascii) : ascii :=
  let x := N_of_ascii a in
  if ((97 <=? x) && (x <=? 122))%N then ascii_of_N (x - 32) else a.

Fixpoint asciiUpper (s : string) : string :=
  match s with
  | EmptyString => EmptyString
  | String a s' => String (upperByte a) (asciiUpper s')
  end.


(** [utf8.DecodeRuneInString]: the first rune of [s], re-encoded (an
    invalid byte decodes to U+FFFD and has width 1), and the rest. *)
Definition runeError : string :=
  String (ascii_of_N 239) (String (ascii_of_N 191) (String (ascii_of_N 189) EmptyString)).

Definition isCont (lo hi : N) (a : ascii) : bool :=
  let x := N_of_ascii a in ((lo <=? x) && (x <=? hi))%N.

Definition decodeRune (s : string) : option (string * string) :=
  match s with
  | EmptyString => None
  | String a s1 =>
      let x := N_of_ascii a in
      let bad := Some (runeError, s1) in
      let two :=
        match s1 with
        | String b s2 =>
            if isCont 128 191 b then Some (String a (String b EmptyString), s2) else bad
        | _ => bad
        end in
      let three lo hi :=
        match s1 with
        | String b (String c s3) =>
            if isCont lo hi b && isCont 128 191 c
            then Some (String a (String b (String c EmptyString)), s3) else bad
        | _ => bad
        end in
      let four lo hi :=
        match s1 with
        | String b (String c (String d s4)) =>
            if isCont lo hi b && isCont 128 191 c && isCont 128 191 d
            then Some (String a (String b (String c (String d EmptyString))), s4) else bad
        | _ => bad
        end in
      if (x <? 128)%N then Some (String a EmptyString, s1)
      else if ((194 <=? x) && (x <=? 223))%N then two
      else if (x =? 224)%N then three 160%N 191%N
      else if ((225 <=? x) && (x <=? 236))%N then three 128%N 191%N
      else if (x =? 237)%N then three 128%N 159%N
      else if ((238 <=? x) && (x <=? 239))%N then three 128%N 191%N
      else if (x =? 240)%N then four 144%N 191%N
      else if ((241 <=? x) && (x <=? 243))%N then four 128%N 191%N
      else if (x =? 244)%N then four 128%N 143%N
      else bad
  end.

(** [string([]rune(s)[:n])] for [n] within the rune count. *)
Fixpoint takeRunes (n : nat) (s : string) : string :=
  match n with
  | O => EmptyString
  | S n' =>
      match decodeRune s with
      | None => EmptyString
      | Some (r, rest) => r +:+ takeRunes n' rest
      end
  end.

Fixpoint runeCount (fuel : nat) (s : string) : nat :=
  match fuel with
  | O => 0
  | S fuel' =>
      match decodeRune s with
      | None => 0
      | Some (_, rest) => S (runeCount fuel' rest)
      end
  end.

(** [utf8.RuneCountInString(s)]; a string has at most [len s] runes. *)
Definition RuneCountInString (s : string) : nat := runeCount (len s) s.

(** [fmt.Sprintf("%d", n)] *)
Definition itoa (n : nat) : string := NilEmpty.string_of_uint (Nat.to_uint n).

(** [fmt.Sprintf("%d", z)] for a signed integer *)
Definition itoaZ (z : Z) : string := NilEmpty.string_of_int (Z.to_int z).

(** The line feed. *)
Definition LF : string := String (ascii_of_N 10) EmptyString.

End GoStrings.

Import GoStrings.

(** ** Effects

    What the program does to the outside world is recorded as events, in
    program order.  [attrs] of a log record are the key/value pairs of
    the structured logger, values rendered as text. *)

Inductive Level := LevelDebug | LevelInfo | LevelError.

Inductive Event :=
  | EvLog (lvl : Level) (msg : string) (attrs : list (string * string))
  (* history.go *)
  | EvWriteFile (path : string) (content : string)
  (* resource pack server *)
  | EvPacksLookup (id : string)
  | EvCacheLookup (id : string)
  | EvPackRead (uuid : string)
  | EvCacheStore (id : string)
  | EvListen (addr : string) (bound : bool)
  | EvCloseReady
  | EvServe
  | EvServerClose
  | EvHttpGet (url : string)
  (* proxying engine and process *)
  | EvProxyListen (packs : list string) (required : bool)
  | EvProxyClose
  | EvTransfer (session : nat) (addr : string) (seconds : Z)
  | EvExit (code : Z).

Global Instance Level_eq_dec : EqDecision Level.
Proof. solve_decision. Defined.
Global Instance Event_eq_dec : EqDecision Event.
Proof. solve_decision. Defined.

(** The events that only write a log record. *)
Definition isLog (ev : Event) : Prop :=
  match ev with
  | EvLog _ _ _ => True
  | _ => False
  end.

(** A Go call either returns or panics. *)
Inductive Outcome (A : Type) :=
  | Returns (a : A)
  | Panics (msg : string).
Arguments Returns {A} a.
Arguments Panics {A} msg.

(** ** history.go *)

Module History.

Record HistoryFile := mkHistoryFile {
  filePath : string;
  maxSize : Z;
  history : list string
}.

(** [h.history[k:]]: panics unless [0 <= k <= len]. *)
Definition sliceFrom (l : list string) (k : Z) : Outcome (list string) :=
  if (0 <=? k)%Z && (k <=? Z.of_nat (length l))%Z
  then Returns (List.skipn (Z.to_nat k) l)
  else Panics "slice bounds out of range".

(** The bytes [Save] writes: one entry per line. *)
Fixpoint fileContent (l : list string) : string :=
  match l with
  | [] => EmptyString
  | x :: l' => x +:+ LF +:+ fileContent l'
  end.

(** [Save]: [ioerr] is the error of [os.Create] or of the final flush,
    if any; on success the file holds exactly the in-memory history. *)
Definition Save (h : HistoryFile) (ioerr : option string)
  : list Event * option string :=
  match ioerr with
  | Some e => ([], Some e)
  | None => ([EvWriteFile (filePath h) (fileContent (history h))], None)
  end.

(** [Load]: [file] is the error of [os.Open], or the lines the scanner
    yields together with the error the scanner ends with, if any. *)
Definition Load (h : HistoryFile) (file : string + list string * option string)
  : Outcome (HistoryFile * option string) :=
  match file with
  | inl e => Returns (h, Some e)
  | inr (scanned, scanErr) =>
      let lines := List.filter (fun l => negb (String.eqb l EmptyString))
                               (List.map TrimSpace scanned) in
      if (Z.of_nat (length lines) >? maxSize h)%Z then
        match sliceFrom lines (Z.of_nat (length lines) - maxSize h) with
        | Returns lines' =>
            Returns (mkHistoryFile (filePath h) (maxSize h) lines', scanErr)
        | Panics m => Panics m
        end
      else Returns (mkHistoryFile (filePath h) (maxSize h) lines, scanErr)
  end.

(** [Append]: the new store, what was written, and the error
    returned. *)
Definition Append (h : HistoryFile) (cmd : string) (ioerr : option string)
  : Outcome (HistoryFile * list Event * option string) :=
  let cmd := TrimSpace cmd in
  if String.eqb cmd EmptyString then Returns (h, [], None)
  else if match List.last (List.map Some (history h)) None with
          | Some l => String.eqb l cmd
          | None => false
          end
  then Returns (h, [], None)
  else
    let hist := history h ++ [cmd] in
    let trimmed :=
      if (Z.of_nat (length hist) >? maxSize h)%Z
      then sliceFrom hist (Z.of_nat (length hist) - maxSize h)
      else Returns hist in
    match trimmed with
    | Panics m => Panics m
    | Returns hist' =>
        let h' := mkHistoryFile (filePath h) (maxSize h) hist' in
        let '(evs, err) := Save h' ioerr in
        Returns (h', evs, err)
    end.

Definition GetHistory (h : HistoryFile) : list string := history h.

(** A run of [Append] calls, each with the I/O error it meets (the
    caller logs the error and carries on). *)
Fixpoint AppendAll (h : HistoryFile) (cmds : list (string * option string))
  : Outcome HistoryFile :=
  match cmds with
  | [] => Returns h
  | (c, io) :: rest =>
      match Append h c io with
      | Returns (h', _, _) => AppendAll h' rest
      | Panics m => Panics m
      end
  end.

(** No entry equals its immediate predecessor. *)
Fixpoint NoAdjDup (l : list string) : Prop :=
  match l with
  | x :: ((y :: _) as l') => x <> y /\ NoAdjDup l'
  | _ => True
  end.

(** The store invariant: bounded by [maxSize], no adjacent repeats. *)
Definition Inv (h : HistoryFile) : Prop :=
  (Z.of_nat (length (history h)) <= maxSize h)%Z /\ NoAdjDup (history h).

(** The last [N] entries of [l]. *)
Definition keepLast (N : Z) (l : list string) : list string :=
  List.skipn (Z.to_nat (Z.of_nat (length l) - N)) l.

Definition lastEntry (l : list string) : option string :=
  List.last (List.map Some l) None.

(** A fresh store, as [NewHistoryFile] builds it before [Load]. *)
Definition empty (path : string) (N : Z) : HistoryFile :=
  mkHistoryFile path N [].

(** A command line as the console hands it over: stripped and not
    empty. *)
Definition isCommand (c : string) : Prop :=
  TrimSpace c = c /\ c <> EmptyString.

End History.

(** ** The go-prompt library, as far as the completer uses it *)

Module Prompt.

Record Suggest := mkSuggest { Text : string; Description : string }.

(** A document is the text typed so far and the cursor, counted in
    runes from the start of the text. *)
Record Document := mkDocument { DocText : string; cursorPosition : nat }.

Definition TextBeforeCursor (d : Document) : string :=
  takeRunes (cursorPosition d) (DocText d).

Definition CurrentRuneIndex (d : Document) : Z := Z.of_nat (cursorPosition d).

(** The byte offset after the last blank before the cursor. *)
Definition FindStartOfPreviousWord (d : Document) : nat :=
  afterLastIndexByte (TextBeforeCursor d) " ".

Definition GetWordBeforeCursor (d : Document) : string :=
  dropBytes (FindStartOfPreviousWord d) (TextBeforeCursor d).

Section Filter.
(** [strings.ToUpper]: its Unicode tables stay outside the
    development. *)
Variable ToUpper : string -> string.

(** [prompt.FilterHasPrefix]: an empty [sub] keeps everything. *)
Definition FilterHasPrefix (completions : list Suggest) (sub : string)
           (ignoreCase : bool) : list Suggest :=
  if String.eqb sub EmptyString then completions
  else
    let sub' := if ignoreCase then ToUpper sub else sub in
    List.filter
      (fun c => HasPrefix (if ignoreCase then ToUpper (Text c) else Text c) sub')
      completions.
End Filter.

End Prompt.

(** ** The proxying engine, as the console sees it *)

Module Engine.

(** A connected session: its display name and what
    [TransferTimeout] to an address answers. *)
Record Session := mkSession {
  sid : nat;
  DisplayName : string;
  TransferTimeout : string -> Z -> option string
}.

End Engine.

(** ** The completer *)

Module Completer.
Import Prompt Engine.

Section WithEngine.
Variable ToUpper : string -> string.
(** [c.p.Registry().GetSessions()], read at completion time. *)
Variable sessions : list Session.
(** The global [serverMap], server name to address. *)
Variable serverMap : gmap string string.

Definition commands : list Suggest :=
  [ mkSuggest "players" "List all connected players";
    mkSuggest "transfer" "Transfer a player to another server";
    mkSuggest "info" "Show server information";
    mkSuggest "stop" "Stop the server";
    mkSuggest "exit" "Stop the server" ].

Definition completeCommand (input : string) : list Suggest :=
  FilterHasPrefix ToUpper commands input true.

Definition completePlayerNames (input : string) : list Suggest :=
  FilterHasPrefix ToUpper
    (List.map (fun s => mkSuggest (DisplayName s) "Connected player") sessions)
    input true.

(** Go ranges over the map in an unspecified order; the order of
    [map_to_list] stands for it. *)
Definition completeServerNames (input : string) : list Suggest :=
  FilterHasPrefix ToUpper
    (List.map (fun kv => mkSuggest (fst kv) "Available server")
              (map_to_list serverMap))
    input true.

Definition Complete (doc : Document) : list Suggest * Z * Z :=
  let endIndex := CurrentRuneIndex doc in
  let w := GetWordBeforeCursor doc in
  if String.eqb w EmptyString then ([], 0%Z, 0%Z)
  else
    let startIndex := (endIndex - Z.of_nat (RuneCountInString w))%Z in
    let args := Split (TextBeforeCursor doc) " " in
    if (length args <=? 1)%nat
    then (completeCommand (List.nth 0 args EmptyString), startIndex, endIndex)
    else
      let arg0 := List.nth 0 args EmptyString in
      if String.eqb arg0 "transfer" then
        if (length args =? 2)%nat
        then (completePlayerNames (List.nth 1 args EmptyString), startIndex, endIndex)
        else if (length args =? 3)%nat
        then (completeServerNames (List.nth 2 args EmptyString), startIndex, endIndex)
        else ([], 0%Z, 0%Z)
      else if String.eqb arg0 "players" then ([], 0%Z, 0%Z)
      else if String.eqb arg0 "info" then ([], 0%Z, 0%Z)
      else ([], 0%Z, 0%Z).
End WithEngine.

End Completer.

(** ** gophertunnel's resource packs *)

Inductive Result (A : Type) :=
  | Ok (a : A)
  | Err (e : string).
Arguments Ok {A} a.
Arguments Err {A} e.

Module Resource.

(** A compiled pack: identity, metadata, the archive bytes and where
    clients download them.  [readErr] is the error that reading the
    archive meets, if any. *)
Record Pack := mkPack {
  UUID : string;
  Name : string;
  Version : string;
  content : list byte;
  readErr : option string;
  contentKey : string;
  DownloadURL : string
}.

Definition Len (p : Pack) : nat := length (content p).

(** [content := make([]byte, pack.Len()); _, err := pack.ReadAt(content, 0)] *)
Definition ReadAt (p : Pack) : Result (list byte) :=
  match readErr p with
  | Some e => Err e
  | None => Ok (content p)
  end.

Definition WithContentKey (p : Pack) (key : string) : Pack :=
  mkPack (UUID p) (Name p) (Version p) (content p) (readErr p) key (DownloadURL p).

Section Net.
(** [http.Get]: a transport error, or the status and the body. *)
Variable httpGet : string -> Result (Z * list byte).
(** [resource.Read]: compiling a pack from archive bytes. *)
Variable Read : list byte -> Result Pack.

(** [resource.ReadURL]: downloads the archive at [url] and compiles
    it; the pack remembers [url]. *)
Definition ReadURL (url : string) : Result Pack :=
  match httpGet url with
  | Err e => Err ("download resource pack: " +:+ e)
  | Ok (status, body) =>
      if (status =? 200)%Z then
        match Read body with
        | Err e => Err e
        | Ok p =>
            Ok (mkPack (UUID p) (Name p) (Version p) (content p) (readErr p)
                       (contentKey p) url)
        end
      else Err "download resource pack: bad status"
  end.

(** [resource.MustReadURL]: as [ReadURL], panicking on error. *)
Definition MustReadURL (url : string) : Outcome Pack :=
  match ReadURL url with
  | Ok p => Returns p
  | Err e => Panics e
  end.
End Net.

End Resource.

(** ** The resource pack HTTP server *)

Module PackServer.
Import Resource.

(** The [ready] channel is never sent on: it is open, or closed. *)
Inductive chan := ChanOpen | ChanClosed.

(** The server: [packs] and [contentCache] by UUID, the listen
    address and the readiness channel.  ([basePath] is never read
    again and is left out, as are the logger and the [http.Server]
    handle.) *)
Record ResourcePackServer := mkServer {
  packs : gmap string Pack;
  contentCache : gmap string (list byte);
  Addr : string;
  ready : chan
}.

(** One turn of the pre-loading loop of [NewResourcePackServer]. *)
Definition cacheStep
    (st : gmap string Pack * gmap string (list byte) * list Event) (pack : Pack)
  : gmap string Pack * gmap string (list byte) * list Event :=
  let '(pm, cc, evs) := st in
  let uuid := UUID pack in
  let pm' := <[uuid := pack]> pm in
  match ReadAt pack with
  | Err e =>
      (pm', cc,
       evs ++ [EvPackRead uuid;
               EvLog LevelError "Failed to cache resource pack"
                     [("uuid", uuid); ("error", e)]])
  | Ok c =>
      (pm', <[uuid := c]> cc,
       evs ++ [EvPackRead uuid;
               EvLog LevelDebug "Cached resource pack"
                     [("uuid", uuid); ("size", itoa (length c))]])
  end.

Definition NewResourcePackServer (getwd : Result string) (ps : list Pack) (port : Z)
  : list Event * Result ResourcePackServer :=
  match getwd with
  | Err e => ([], Err e)
  | Ok _ =>
      let '(pm, cc, evs) := List.fold_left cacheStep ps (∅, ∅, []) in
      (evs, Ok (mkServer pm cc (":" +:+ itoaZ port) ChanOpen))
  end.

Definition closeReady (s : ResourcePackServer) : ResourcePackServer :=
  mkServer (packs s) (contentCache s) (Addr s) ChanClosed.

(** [Start]: [bindErr] is the error of [net.Listen], if any;
    [serveErr] the error [Serve] ends with once the server is closed.
    Closing a closed channel panics. *)
Definition Start (s : ResourcePackServer) (bindErr : option string) (serveErr : string)
  : ResourcePackServer * list Event * Outcome string :=
  let ev0 := EvLog LevelInfo "Starting resource pack HTTP server"
                   [("address", Addr s)] in
  match bindErr with
  | Some e => (s, [ev0; EvListen (Addr s) false], Returns e)
  | None =>
      match ready s with
      | ChanClosed =>
          (s, [ev0; EvListen (Addr s) true], Panics "close of closed channel")
      | ChanOpen =>
          (closeReady s,
           [ev0; EvListen (Addr s) true; EvCloseReady; EvServe],
           Returns serveErr)
      end
  end.

(** [WaitForReady] receives from [ready]: it returns at once on a
    closed channel and blocks on an open one. *)
Inductive Wait := Proceeds | Blocks.

Definition WaitForReady (s : ResourcePackServer) : Wait :=
  match ready s with
  | ChanClosed => Proceeds
  | ChanOpen => Blocks
  end.

Definition Close (s : ResourcePackServer) (closeErr : option string)
  : list Event * option string :=
  ([EvServerClose], closeErr).

Definition UpdatePacks (s : ResourcePackServer) (ps : list Pack) : ResourcePackServer :=
  mkServer (List.fold_left (fun m pack => <[UUID pack := pack]> m) ps ∅)
           (contentCache s) (Addr s) (ready s).

(** What a handler hands to the [http.ResponseWriter]. *)
Record Response := mkResponse {
  Status : Z;
  Header : gmap string string;
  Body : list byte
}.

(** [http.Error] *)
Definition httpError (msg : string) (code : Z) : Response :=
  mkResponse code
    (<["X-Content-Type-Options" := "nosniff"]>
       (<["Content-Type" := "text/plain; charset=utf-8"]> ∅))
    (list_byte_of_string (msg +:+ LF)).

(** [http.NotFound] *)
Definition NotFound : Response := httpError "404 page not found" 404.

Definition packResponse (path : string) (body : list byte) : Response :=
  mkResponse 200
    (<["Content-Length" := itoa (length body)]>
       (<["Content-Type" := "application/zip"]>
          (<["Content-Disposition" := "attachment; filename=" +:+ path +:+ ".mcpack"]> ∅)))
    body.

Definition served (path : string) (body : list byte) (writeErr : option string) : Event :=
  match writeErr with
  | Some e =>
      EvLog LevelError "Failed to write resource pack to response"
            [("uuid", path); ("error", e)]
  | None =>
      EvLog LevelDebug "Served resource pack"
            [("uuid", path); ("size", itoa (length body))]
  end.

Definition storeContent (s : ResourcePackServer) (path : string) (c : list byte)
  : ResourcePackServer :=
  mkServer (packs s) (<[path := c]> (contentCache s)) (Addr s) (ready s).

(** [handleRequest] on the request's [URL.Path]; [writeErr] is the
    error of writing the body to the connection, if any. *)
Definition handleRequest (s : ResourcePackServer) (urlPath : string)
           (writeErr : option string)
  : ResourcePackServer * list Event * Response :=
  let path := TrimPrefix urlPath "/" in
  let ev0 := EvLog LevelDebug "Received request" [("path", path)] in
  if String.eqb path EmptyString then (s, [ev0], NotFound)
  else if Contains path ".." || Contains path "/" then (s, [ev0], NotFound)
  else
    match packs s !! path with
    | None =>
        (s, [ev0; EvPacksLookup path;
             EvLog LevelDebug "Resource pack not found" [("uuid", path)]],
         NotFound)
    | Some pack =>
        match contentCache s !! path with
        | Some c =>
            (s, [ev0; EvPacksLookup path; EvCacheLookup path; served path c writeErr],
             packResponse path c)
        | None =>
            let evs := [ev0; EvPacksLookup path; EvCacheLookup path;
                        EvLog LevelDebug "Resource pack not cached, reading from pack"
                              [("uuid", path)];
                        EvPackRead path] in
            match ReadAt pack with
            | Err e =>
                (s, evs ++ [EvLog LevelError "Failed to read resource pack"
                                  [("uuid", path); ("error", e)]],
                 httpError "Internal server error" 500)
            | Ok c =>
                (storeContent s path c,
                 evs ++ [EvCacheStore path; served path c writeErr],
                 packResponse path c)
            end
        end
    end.

(** The events in which a handler touches the pack set, the content
    cache or a pack's bytes. *)
Definition consultsStore (ev : Event) : bool :=
  match ev with
  | EvPacksLookup _ | EvCacheLookup _ | EvPackRead _ | EvCacheStore _ => true
  | _ => false
  end.

(** [fmt.Sprintf("%s/%s", baseURL, pack.UUID().String())] *)
Definition cdnURL (baseURL : string) (pack : Pack) : string :=
  baseURL +:+ "/" +:+ UUID pack.

Section CDN.
Variable httpGet : string -> Result (Z * list byte).
Variable Read : list byte -> Result Pack.

(** [ModifyResourcePackForCDN]: every pack is fetched again from
    [baseURL/uuid] while the list is rebuilt. *)
Fixpoint ModifyResourcePackForCDN (ps : list Pack) (baseURL : string)
  : list Event * Outcome (list Pack) :=
  match ps with
  | [] => ([], Returns [])
  | pack :: rest =>
      let url := cdnURL baseURL pack in
      match MustReadURL httpGet Read url with
      | Panics m => ([EvHttpGet url], Panics m)
      | Returns modifiedPack =>
          let '(evs, r) := ModifyResourcePackForCDN rest baseURL in
          (EvHttpGet url :: evs,
           match r with
           | Panics m => Panics m
           | Returns out => Returns (modifiedPack :: out)
           end)
      end
  end.
End CDN.

(** *** The server and the goroutines around it

    [blocked] are the goroutines parked in [WaitForReady], [passed]
    those whose call has returned.  Closing the channel wakes every
    parked receiver. *)
Record Sys := mkSys {
  srv : ResourcePackServer;
  blocked : list nat;
  passed : list nat;
  trace : list Event
}.

Inductive Op :=
  | OpWait (g : nat)
  | OpStart (bindErr : option string) (serveErr : string)
  | OpRequest (urlPath : string) (writeErr : option string)
  | OpUpdatePacks (ps : list Pack)
  | OpClose (closeErr : option string).

Definition step (st : Sys) (op : Op) : Outcome Sys :=
  match op with
  | OpWait g =>
      match WaitForReady (srv st) with
      | Proceeds => Returns (mkSys (srv st) (blocked st) (passed st ++ [g]) (trace st))
      | Blocks => Returns (mkSys (srv st) (blocked st ++ [g]) (passed st) (trace st))
      end
  | OpStart bindErr serveErr =>
      let '(s', evs, r) := Start (srv st) bindErr serveErr in
      match r with
      | Panics m => Panics m
      | Returns _ =>
          if bool_decide (EvCloseReady ∈ evs)
          then Returns (mkSys s' [] (passed st ++ blocked st) (trace st ++ evs))
          else Returns (mkSys s' (blocked st) (passed st) (trace st ++ evs))
      end
  | OpRequest urlPath writeErr =>
      let '(s', evs, _) := handleRequest (srv st) urlPath writeErr in
      Returns (mkSys s' (blocked st) (passed st) (trace st ++ evs))
  | OpUpdatePacks ps =>
      Returns (mkSys (UpdatePacks (srv st) ps) (blocked st) (passed st) (trace st))
  | OpClose closeErr =>
      Returns (mkSys (srv st) (blocked st) (passed st)
                     (trace st ++ fst (Close (srv st) closeErr)))
  end.

Fixpoint run (st : Sys) (ops : list Op) : Outcome Sys :=
  match ops with
  | [] => Returns st
  | op :: rest =>
      match step st op with
      | Panics m => Panics m
      | Returns st' => run st' rest
      end
  end.

Definition boot (s : ResourcePackServer) : Sys := mkSys s [] [] [].

(** The goroutines that call [WaitForReady] in a run. *)
Definition waitersOf (ops : list Op) : list nat :=
  List.flat_map (fun op => match op with OpWait g => [g] | _ => [] end) ops.

(** An operation that may signal readiness: a [Start] that binds. *)
Definition binds (op : Op) : bool :=
  match op with
  | OpStart None _ => true
  | _ => false
  end.

End PackServer.

(** ** main.go *)

Module Main.
Import Engine PackServer.

Record Server := mkServerEntry { srvName : string; srvAddr : string }.

Record CdnConfig := mkCdn { Enabled : bool; Ip : string; Port : Z }.

Record ServerConfig := mkConfig {
  confName : string;
  BindAddr : string;
  DefaultServer : string;
  Servers : list Server;
  ShutdownMessage : string;
  Debug : bool;
  Cdn : CdnConfig;
  OomphEnabled : bool
}.

(** What [handleCommand] reads: the session registry, the global
    [serverMap] (name to address), the global [resourcePackServer]
    (absent, or present with the error its [Close] answers), the bind
    address of the proxy and the runtime counters [info] prints. *)
Record Console := mkConsole {
  sessions : list Session;
  serverMap : gmap string string;
  resourcePackServer : option (option string);
  proxyAddr : string;
  numGoroutine : nat;
  goVersion : string;
  totalAllocMB : string
}.

(** Whether the process is still there after a command. *)
Inductive Process := Running | Exited (code : Z).

Definition info (msg : string) : Event := EvLog LevelInfo msg [].

Definition findSession (w : Console) (playerName : string) : option Session :=
  List.find (fun s => String.eqb (DisplayName s) playerName) (sessions w).

(** The loop over [serverMap] in [transfer]: the address under
    [serverName], the empty string when there is none. *)
Definition findServer (w : Console) (serverName : string) : string :=
  default EmptyString (serverMap w !! serverName).

Definition handleCommand (command : string) (w : Console) (conf : ServerConfig)
  : list Event * Process :=
  match Fields command with
  | [] => ([], Running)
  | cmd :: args =>
      if String.eqb cmd "players" then
        match sessions w with
        | [] => ([info "No players online"], Running)
        | ss =>
            (info ("Players online (" +:+ itoa (length ss) +:+ ")")
               :: List.map (fun s => info ("- " +:+ DisplayName s)) ss,
             Running)
        end
      else if String.eqb cmd "transfer" then
        match args with
        | playerName :: serverName :: _ =>
            match findSession w playerName with
            | None => ([info ("Player '" +:+ playerName +:+ "' not found")], Running)
            | Some targetSession =>
                let serverAddr := findServer w serverName in
                if String.eqb serverAddr EmptyString
                then ([info ("Server '" +:+ serverName +:+ "' not found")], Running)
                else
                  match TransferTimeout targetSession serverAddr 10 with
                  | Some e =>
                      ([EvTransfer (sid targetSession) serverAddr 10;
                        EvLog LevelError "Failed to transfer player"
                              [("player", playerName); ("server", serverName);
                               ("error", e)]],
                       Running)
                  | None =>
                      ([EvTransfer (sid targetSession) serverAddr 10;
                        info ("Transferred " +:+ playerName +:+ " to " +:+ serverName)],
                       Running)
                  end
            end
        | _ => ([info "Usage: transfer <player> <server>"], Running)
        end
      else if String.eqb cmd "info" then
        ([info "Spectrum Proxy Information";
          info ("- Bind Address: " +:+ proxyAddr w);
          info ("- Default Server: " +:+ DefaultServer conf);
          info ("- Connected Players: " +:+ itoa (length (sessions w)));
          info "Available Servers:"]
           ++ List.map (fun kv => info ("- " +:+ snd kv +:+ " (" +:+ fst kv +:+ ")"))
                       (map_to_list (serverMap w))
           ++ [info ("Goroutines: " +:+ itoa (numGoroutine w));
               info ("Go Version: " +:+ goVersion w);
               info ("Total Allocated Memory: " +:+ totalAllocMB w +:+ " MB")],
         Running)
      else if String.eqb cmd "stop" || String.eqb cmd "end" then
        (match resourcePackServer w with
         | None => []
         | Some None => [EvServerClose]
         | Some (Some e) =>
             [EvServerClose;
              EvLog LevelError "Failed to close resource pack HTTP server"
                    [("error", e)]]
         end ++ [EvProxyClose; info "Stopped proxy"; EvExit 0],
         Exited 0)
      else
        ([info ("Unknown command: " +:+ cmd);
          info "Available commands: players, transfer, info"],
         Running)
  end.


(** The events in which the engine is asked to transfer a session. *)
Definition invokesTransfer (ev : Event) : bool :=
  match ev with
  | EvTransfer _ _ _ => true
  | _ => false
  end.

(** The events that shut something down. *)
Definition shutsDown (ev : Event) : bool :=
  match ev with
  | EvServerClose | EvProxyClose | EvExit _ => true
  | _ => false
  end.

(** The [executor] of [processCommand]: strip the line, append it to
    the history (when there is a history file), dispatch it. *)
Definition executor (line : string) (hist : option History.HistoryFile)
           (ioerr : option string) (w : Console) (conf : ServerConfig)
  : Outcome (option History.HistoryFile * list Event * Process) :=
  let line := TrimSpace line in
  if String.eqb line EmptyString then Returns (hist, [], Running)
  else
    match hist with
    | None =>
        let '(evs, p) := handleCommand line w conf in Returns (None, evs, p)
    | Some h =>
        match History.Append h line ioerr with
        | Panics m => Panics m
        | Returns (h', evs, err) =>
            let evs1 :=
              match err with
              | Some e =>
                  evs ++ [EvLog LevelError "Failed to save command to history"
                                [("error", e)]]
              | None => evs
              end in
            let '(evs2, p) := handleCommand line w conf in
            Returns (Some h', evs1 ++ evs2, p)
        end
    end.

(** The [resource_packs] directory as [parse] meets it. *)
Record Disk := mkDisk {
  getwd : Result string;
  dirMissing : bool;
  mkdirErr : option string;
  readDir : Result (list string);
  (** [resource.ReadPath] on the entry of that name *)
  readPath : string -> Result Resource.Pack;
  (** the size in bytes printed as megabytes with two decimals *)
  formatMB : nat -> string
}.

(** The loop of [parse] over the directory entries. *)
Fixpoint parseEntries (keys : gmap string string) (d : Disk)
         (entries : list string) (acc : list Resource.Pack)
  : list Event * Result (list Resource.Pack) :=
  match entries with
  | [] => ([], Ok acc)
  | entry :: rest =>
      match readPath d entry with
      | Err e => ([], Err e)
      | Ok pack0 =>
          let pack :=
            match keys !! Resource.UUID pack0 with
            | Some key => Resource.WithContentKey pack0 key
            | None => pack0
            end in
          let ev :=
            EvLog LevelDebug "Loaded pack"
                  [("name", Resource.Name pack);
                   ("size", formatMB d (Resource.Len pack));
                   ("uuid", Resource.UUID pack);
                   ("version", Resource.Version pack)] in
          let '(evs, r) := parseEntries keys d rest (acc ++ [pack]) in
          (ev :: evs, r)
      end
  end.

Definition parse (keys : gmap string string) (d : Disk)
  : list Event * Result (list Resource.Pack) :=
  match getwd d with
  | Err e => ([], Err e)
  | Ok _ =>
      match (if dirMissing d then mkdirErr d else None) with
      | Some e => ([], Err e)
      | None =>
          match readDir d with
          | Err e => ([], Err e)
          | Ok entries => parseEntries keys d entries []
          end
      end
  end.

(** Everything [main] meets outside the program while starting. *)
Record Env := mkEnv {
  readConfig : Result ServerConfig;
  disk : Disk;
  (** the error of the pack server's [net.Listen] *)
  bindErr : option string;
  httpGet : string -> Result (Z * list byte);
  resourceRead : list byte -> Result Resource.Pack;
  (** the error of [proxy.Listen] *)
  listenErr : option string
}.

(** How startup ends: a panic, a return from [main], the main
    goroutine parked in [WaitForReady], or the proxy up and running
    with its server table, lobby address, packs and pack server. *)
Inductive Startup :=
  | StartupPanics (msg : string)
  | StartupReturns
  | StartupBlocked
  | StartupRuns (servers : gmap string string) (lobby : string)
                (packs : list Resource.Pack)
                (rps : option ResourcePackServer).

(** The loop of [main] over [conf.Servers]. *)
Definition loadServer (conf : ServerConfig)
    (st : gmap string string * gmap string string * string * list Event)
    (srv : Server)
  : gmap string string * gmap string string * string * list Event :=
  let '(sm, a2n, lobby, evs) := st in
  (<[srvName srv := srvAddr srv]> sm,
   <[srvAddr srv := srvName srv]> a2n,
   (if String.eqb (srvName srv) (DefaultServer conf) then srvAddr srv else lobby),
   evs ++ [EvLog LevelInfo "Loaded server"
                 [("name", srvName srv); ("address", srvAddr srv)]]).

Definition loadServers (conf : ServerConfig)
  : gmap string string * gmap string string * string * list Event :=
  List.fold_left (loadServer conf) (Servers conf) (∅, ∅, EmptyString, []).

(** [lobbyServerAddress] after the loop. *)
Definition lobbyAddress (conf : ServerConfig) : string := (loadServers conf).1.2.

Definition loadedPack (pack : Resource.Pack) : Event :=
  EvLog LevelDebug "Loaded resource pack"
        [("name", Resource.Name pack); ("uuid", Resource.UUID pack);
         ("url", Resource.DownloadURL pack)].

(** How the resource pack server part of [main] ends. *)
Inductive CDN :=
  | CdnFailed
  | CdnBlocked
  | CdnPanics (msg : string)
  | CdnReady (packs : list Resource.Pack) (s : ResourcePackServer).

(** The resource pack server part of [main].  The goroutine running
    [Start] is followed up to the point where it returns the bind
    error or enters [Serve]; then the main goroutine waits. *)
Definition startCDN (env : Env) (conf : ServerConfig) (ps : list Resource.Pack)
  : list Event * CDN :=
  let baseURL := "http://" +:+ Ip (Cdn conf) +:+ ":" +:+ itoaZ (Port (Cdn conf)) in
  match NewResourcePackServer (getwd (disk env)) ps (Port (Cdn conf)) with
  | (evs0, Err e) =>
      (evs0 ++ [EvLog LevelError "Failed to create resource pack HTTP server"
                      [("error", e)]],
       CdnFailed)
  | (evs0, Ok s) =>
      let '(s', evs1, r) := Start s (bindErr env) "http: Server closed" in
      match WaitForReady s' with
      | Blocks =>
          (evs0 ++ evs1
             ++ match r with
                | Returns e =>
                    [EvLog LevelError "Resource pack HTTP server error" [("error", e)]]
                | Panics _ => []
                end,
           CdnBlocked)
      | Proceeds =>
          let ev2 := EvLog LevelInfo "Resource pack HTTP server is ready"
                           [("baseURL", baseURL)] in
          match ModifyResourcePackForCDN (httpGet env) (resourceRead env) ps baseURL with
          | (evs3, Panics m) => (evs0 ++ evs1 ++ [ev2] ++ evs3, CdnPanics m)
          | (evs3, Returns ps') =>
              (evs0 ++ evs1 ++ [ev2] ++ evs3 ++ List.map loadedPack ps'
                 ++ [info "Modified resource packs to use HTTP URLs"],
               CdnReady ps' s')
          end
      end
  end.

(** [main] up to the start of the console and of the accept loop.
    (The logger set-up and the anticheat constants are left out; of
    the attributes of the last record only those [main] computes
    itself are kept.) *)
Definition main (env : Env) : list Event * Startup :=
  match readConfig env with
  | Err e => ([], StartupPanics ("read config: " +:+ e))
  | Ok conf =>
      let '(sm, _, lobby, evs0) := loadServers conf in
      if String.eqb lobby EmptyString
      then (evs0 ++ [EvLog LevelError "No default server found" []], StartupReturns)
      else
        match parse ∅ (disk env) with
        | (evs1, Err e) =>
            (evs0 ++ evs1
               ++ [EvLog LevelError "failed to parse resource packs" [("err", e)]],
             StartupReturns)
        | (evs1, Ok ps) =>
            let ev2 := EvLog LevelInfo "Loaded resource packs"
                             [("count", itoa (length ps))] in
            let listen (evs : list Event) (ps' : list Resource.Pack)
                       (rps : option ResourcePackServer) :=
              let evL := EvProxyListen (List.map Resource.UUID ps')
                                       (0 <? length ps')%nat in
              match listenErr env with
              | Some _ => (evs ++ [evL], StartupReturns)
              | None =>
                  (evs ++ [evL;
                           EvLog LevelInfo "Starting spectrum proxy"
                                 [("oomph-enabled",
                                   if OomphEnabled conf then "true" else "false");
                                  ("addr", BindAddr conf)]],
                   StartupRuns sm lobby ps' rps)
              end in
            if Enabled (Cdn conf) && (0 <? length ps)%nat then
              match startCDN env conf ps with
              | (evs3, CdnFailed) => (evs0 ++ evs1 ++ [ev2] ++ evs3, StartupReturns)
              | (evs3, CdnBlocked) => (evs0 ++ evs1 ++ [ev2] ++ evs3, StartupBlocked)
              | (evs3, CdnPanics m) => (evs0 ++ evs1 ++ [ev2] ++ evs3, StartupPanics m)
              | (evs3, CdnReady ps' s) =>
                  listen (evs0 ++ evs1 ++ [ev2] ++ evs3) ps' (Some s)
              end
            else listen (evs0 ++ evs1 ++ [ev2]) ps None
        end
  end.

End Main.

(** ** Sample data *)

Module Samples.
Import Resource PackServer.

Definition texturePack : Pack :=
  mkPack "0b1e7a52-8c3d-4f60-9a11-5d2c7e4f9a01" "Textures" "1.0.0"
         [x50; x4b; x03; x04] None EmptyString EmptyString.

(** A pack whose bytes cannot be read back. *)
Definition brokenPack : Pack :=
  mkPack "7c9d2f10-44aa-4b7e-b0c5-3e8f6a1d2b02" "Sounds" "1.2.0"
         [x50; x4b] (Some "unexpected EOF") EmptyString EmptyString.

(** A server that holds [brokenPack], whose pre-loading failed. *)
Definition brokenServer : ResourcePackServer :=
  mkServer {[ UUID brokenPack := brokenPack ]} ∅ ":8080" ChanClosed.

(** A server that holds [texturePack], pre-loaded. *)
Definition cachedServer : ResourcePackServer :=
  mkServer {[ UUID texturePack := texturePack ]}
           {[ UUID texturePack := content texturePack ]} ":8080" ChanClosed.

Definition otherPack : Pack :=
  mkPack "e41a9c77-2b5d-4d0e-8f3a-9b6c1d7e5f03" "Old textures" "0.9.0"
         [x50; x4b; x05; x06] None EmptyString EmptyString.

Definition bytesEqb (a b : list byte) : bool :=
  String.eqb (string_of_list_byte a) (string_of_list_byte b).

(** Compiling the two sample archives. *)
Definition sampleRead (body : list byte) : Result Pack :=
  if bytesEqb body (content texturePack) then Ok texturePack
  else if bytesEqb body (content otherPack) then Ok otherPack
  else Err "error reading manifest".

Definition cdnBase : string := "http://cdn.example:8080".

(** A front that answers the URL of [texturePack] with the bytes the
    pack server holds for it. *)
Definition frontGet (url : string) : Result (Z * list byte) :=
  if String.eqb url (cdnURL cdnBase texturePack)
  then Ok (200%Z, content texturePack)
  else Ok (404%Z, list_byte_of_string ("404 page not found" +:+ LF)).

(** A front that answers the same URL with another archive. *)
Definition staleGet (url : string) : Result (Z * list byte) :=
  if String.eqb url (cdnURL cdnBase texturePack)
  then Ok (200%Z, content otherPack)
  else Ok (404%Z, list_byte_of_string ("404 page not found" +:+ LF)).

(** A base URL behind which nothing listens. *)
Definition downGet (url : string) : Result (Z * list byte) :=
  Err "connection refused".

(** The default configuration of [readConfig]. *)
Definition defaultConfig : Main.ServerConfig :=
  Main.mkConfig "Spectrum Proxy" "0.0.0.0:19132" "lobby"
    [Main.mkServerEntry "lobby" "127.0.0.1:19133";
     Main.mkServerEntry "island1" "127.0.0.1:19134"]
    "Proxy shutdown" false (Main.mkCdn false "0.0.0.0" 8080) false.



(** The default configuration with the CDN switched on. *)
Definition cdnConfig : Main.ServerConfig :=
  Main.mkConfig "Spectrum Proxy" "0.0.0.0:19132" "lobby"
    [Main.mkServerEntry "lobby" "127.0.0.1:19133";
     Main.mkServerEntry "island1" "127.0.0.1:19134"]
    "Proxy shutdown" false (Main.mkCdn true "cdn.example" 8080) false.

(** A pack directory with one archive. *)
Definition packDisk : Main.Disk :=
  Main.mkDisk (Ok "/srv/proxy") false None (Ok ["textures.mcpack"])
    (fun _ => Ok texturePack) (fun _ => "0.00MB").

(** Startup with the CDN on: the port is free, or taken. *)
Definition cdnEnv : Main.Env :=
  Main.mkEnv (Ok cdnConfig) packDisk None frontGet sampleRead None.

Definition busyEnv : Main.Env :=
  Main.mkEnv (Ok cdnConfig) packDisk (Some "bind: address already in use")
             frontGet sampleRead None.

Definition alice : Engine.Session := Engine.mkSession 1 "Alice" (fun _ _ => None).
Definition bob : Engine.Session :=
  Engine.mkSession 2 "Bob" (fun _ _ => Some "context deadline exceeded").

(** A console with two players, the two default servers and the pack
    server running. *)
Definition console : Main.Console :=
  Main.mkConsole [alice; bob]
    (<["island1" := "127.0.0.1:19134"]> (<["lobby" := "127.0.0.1:19133"]> ∅))
    (Some None) "0.0.0.0:19132" 12 "go1.24.3" "3.50".

End Samples.

(** ** Blank runes at the ends of a string *)

Module Blanks.

(** Whether [s] begins with the encoding of a blank rune: the test
    [TrimLeftSpace] makes before it drops one. *)
Definition startsWithSpace (s : string) : bool :=
  match s with
  | EmptyString => false
  | String a s1 =>
      isSpace1 a ||
      match s1 with
      | EmptyString => false
      | String b s2 =>
          isSpace2 a b ||
          match s2 with
          | EmptyString => false
          | String c _ => isSpace3 a b c
          end
      end
  end.

(** The same test on the reversed string, as [trimLeftSpaceRev] makes
    it. *)
Definition startsWithSpaceRev (r : string) : bool :=
  match r with
  | EmptyString => false
  | String c r1 =>
      isSpace1 c ||
      match r1 with
      | EmptyString => false
      | String b r2 =>
          isSpace2 b c ||
          match r2 with
          | EmptyString => false
          | String a _ => isSpace3 a b c
          end
      end
  end.

End Blanks.

(** ** The history file on disk *)

Module HistoryDisk.
Import History.


(** The content of the file at [path] after the writes of [evs], when
    it held [old] before. *)
Fixpoint fileAfter (path : string) (evs : list Event) (old : option string)
  : option string :=
  match evs with
  | [] => old
  | EvWriteFile p c :: rest =>
      fileAfter path rest (if String.eqb p path then Some c else old)
  | _ :: rest => fileAfter path rest old
  end.

End HistoryDisk.

(** ** Runs of requests *)

Module Serving.
Import Resource PackServer.

(** Requests handled one after the other, with their answers. *)
Fixpoint serveAll (s : ResourcePackServer) (reqs : list (string * option string))
  : ResourcePackServer * list Response :=
  match reqs with
  | [] => (s, [])
  | (urlPath, writeErr) :: rest =>
      let '(s', _, resp) := handleRequest s urlPath writeErr in
      let '(s'', resps) := serveAll s' rest in
      (s'', resp :: resps)
  end.

(** Every registered pack is one of [ps] under its own identifier, and
    every cached content was read from one of [ps] with that
    identifier. *)
Definition holdsOnly (ps : list Pack) (s : ResourcePackServer) : Prop :=
  (forall id p, packs s !! id = Some p -> In p ps /\ UUID p = id)
  /\ (forall id c, contentCache s !! id = Some c ->
        exists p, In p ps /\ UUID p = id /\ ReadAt p = Ok c).

(** The identifier a request asks for. *)
Definition requested (urlPath : string) : string := TrimPrefix urlPath "/".

(** An identifier that passes the guards of [handleRequest]. *)
Definition validId (id : string) : bool :=
  negb (String.eqb id EmptyString) && negb (Contains id ".." || Contains id "/").

(** A second release of [Samples.texturePack]: same identifier, other
    bytes. *)
Definition texturePackV2 : Pack :=
  mkPack (UUID Samples.texturePack) "Textures" "2.0.0"
         [x50; x4b; x07; x08; x09] None EmptyString EmptyString.

End Serving.

(** ** The gate along a run *)

Module Gate.
Import PackServer.

(** The two states of the gate, with [W] the goroutines that have
    called [WaitForReady] so far: not signalled, and all of them parked
    in call order; or signalled once, right after the listen on the
    server's address succeeded, and all of them through in call
    order. *)
Definition gateInv (st : Sys) (W : list nat) : Prop :=
  (ready (srv st) = ChanOpen /\ passed st = [] /\ blocked st = W
   /\ List.count_occ Event_eq_dec (trace st) EvCloseReady = 0%nat)
  \/ (ready (srv st) = ChanClosed /\ blocked st = [] /\ passed st = W
      /\ List.count_occ Event_eq_dec (trace st) EvCloseReady = 1%nat
      /\ exists pre post,
           trace st = pre ++ EvListen (Addr (srv st)) true :: EvCloseReady :: post).

End Gate.

(** ** Lines by their first field *)

Module Dispatch.

(** The first fields that shut the proxy down. *)
Definition isStop (cmd : string) : bool :=
  String.eqb cmd "stop" || String.eqb cmd "end".

End Dispatch.

(** ** Order of events *)

Module Order.

(** No event of the list is a download. *)
Definition noFetch (evs : list Event) : Prop :=
  forall url, ~ In (EvHttpGet url) evs.

(** Every download of the list comes after a successful bind and after
    the readiness signal. *)
Definition fetchesAfterReady (evs : list Event) : Prop :=
  forall pre url post,
    evs = pre ++ EvHttpGet url :: post ->
    In EvCloseReady pre /\ exists addr, In (EvListen addr true) pre.

End Order.

(** * Properties *)

(** ** The history store *)

Section HistoryFacts.
Import History.

Lemma lastEntry_snoc l c : lastEntry (l ++ [c]) = Some c.
Proof.
  unfold lastEntry. rewrite List.map_app. simpl. apply List.last_last.
Qed.

Lemma lastEntry_cons x y l : lastEntry (x :: y :: l) = lastEntry (y :: l).
Proof. reflexivity. Qed.

Lemma NoAdjDup_tail x l : NoAdjDup (x :: l) -> NoAdjDup l.
Proof. destruct l; simpl; tauto. Qed.

Lemma NoAdjDup_skipn k l : NoAdjDup l -> NoAdjDup (List.skipn k l).
Proof.
  revert l. induction k as [|k IH]; intros l Hl; [exact Hl|].
  destruct l as [|x l]; [exact I|]. simpl. apply IH. eapply NoAdjDup_tail; eauto.
Qed.

Lemma NoAdjDup_snoc l c :
  NoAdjDup l -> lastEntry l <> Some c -> NoAdjDup (l ++ [c]).
Proof.
  induction l as [|x l IH]; intros Hl Hlast; [exact I|].
  destruct l as [|y l].
  - simpl. split; [|exact I]. intros ->. apply Hlast. reflexivity.
  - destruct Hl as [Hxy Hl]. split; [exact Hxy|].
    apply IH; [exact Hl|]. rewrite lastEntry_cons in Hlast. exact Hlast.
Qed.

Lemma NoAdjDup_app_last l c rest :
  NoAdjDup (l ++ c :: rest) -> lastEntry l <> Some c.
Proof.
  induction l as [|x l IH]; intros H; [discriminate|].
  destruct l as [|y l].
  - simpl in H. destruct H as [H _]. intros [= ->]. congruence.
  - rewrite lastEntry_cons. apply IH. eapply NoAdjDup_tail; eauto.
Qed.

Lemma NoDup_NoAdjDup l : List.NoDup l -> NoAdjDup l.
Proof.
  induction l as [|x l IH]; intros H; [exact I|].
  inversion H as [|? ? Hnin Hnd]; subst.
  destruct l as [|y l]; [exact I|]. split.
  - intros ->. apply Hnin. left. reflexivity.
  - apply IH. exact Hnd.
Qed.

Lemma keepLast_length N l :
  (0 <= N)%Z -> (Z.of_nat (length (keepLast N l)) <= N)%Z.
Proof. intros HN. unfold keepLast. rewrite List.length_skipn. lia. Qed.

Lemma keepLast_fits N l : (Z.of_nat (length l) <= N)%Z -> keepLast N l = l.
Proof.
  intros H. unfold keepLast.
  replace (Z.to_nat (Z.of_nat (length l) - N)) with 0%nat by lia. reflexivity.
Qed.

Lemma keepLast_app N a b :
  (0 <= N)%Z -> keepLast N (keepLast N a ++ b) = keepLast N (a ++ b).
Proof.
  intros HN. unfold keepLast.
  set (k := Z.to_nat (Z.of_nat (length a) - N)).
  assert (Hk : (k <= length a)%nat) by (unfold k; lia).
  rewrite <- (drop_app_le a b k) by exact Hk.
  rewrite drop_drop. f_equal.
  rewrite length_drop, !length_app. unfold k. lia.
Qed.

Lemma lastEntry_keepLast N l c :
  lastEntry l <> Some c -> lastEntry (keepLast N l) <> Some c.
Proof.
  unfold keepLast. generalize (Z.to_nat (Z.of_nat (length l) - N)) as k.
  intros k. revert l. induction k as [|k IH]; intros l H; [exact H|].
  destruct l as [|x l]; [exact H|]. simpl. apply IH.
  destruct l as [|y l]; [discriminate|]. rewrite lastEntry_cons in H. exact H.
Qed.

(** What one [Append] does to a store whose bound is not negative. *)
Lemma Append_spec h cmd io :
  (0 <= maxSize h)%Z ->
  exists h' evs err,
    Append h cmd io = Returns (h', evs, err)
    /\ maxSize h' = maxSize h /\ filePath h' = filePath h
    /\ history h' =
         (if String.eqb (TrimSpace cmd) EmptyString then history h
          else if bool_decide (lastEntry (history h) = Some (TrimSpace cmd))
               then history h
               else keepLast (maxSize h) (history h ++ [TrimSpace cmd])).
Proof.
  intros HN. unfold Append. fold (lastEntry (history h)).
  destruct (String.eqb (TrimSpace cmd) EmptyString) eqn:He.
  { exists h, [], None. repeat split. }
  destruct (lastEntry (history h)) as [l|] eqn:Hl.
  - destruct (String.eqb l (TrimSpace cmd)) eqn:Hlc.
    + apply String.eqb_eq in Hlc. subst l.
      rewrite bool_decide_eq_true_2 by reflexivity.
      exists h, [], None. repeat split.
    + apply String.eqb_neq in Hlc.
      rewrite bool_decide_eq_false_2 by congruence.
      unfold sliceFrom, Save, keepLast.
      destruct (Z.of_nat (length (history h ++ [TrimSpace cmd])) >? maxSize h)%Z eqn:Hgt.
      * rewrite (proj2 (andb_true_iff _ _)) by (split; apply Z.leb_le; lia).
        destruct io; eexists _, _, _; repeat split.
      * replace (Z.to_nat (Z.of_nat (length (history h ++ [TrimSpace cmd])) - maxSize h))
          with 0%nat by lia.
        destruct io; eexists _, _, _; repeat split.
  - rewrite bool_decide_eq_false_2 by congruence.
    unfold sliceFrom, Save, keepLast.
    destruct (Z.of_nat (length (history h ++ [TrimSpace cmd])) >? maxSize h)%Z eqn:Hgt.
    + rewrite (proj2 (andb_true_iff _ _)) by (split; apply Z.leb_le; lia).
      destruct io; eexists _, _, _; repeat split.
    + replace (Z.to_nat (Z.of_nat (length (history h ++ [TrimSpace cmd])) - maxSize h))
        with 0%nat by lia.
      destruct io; eexists _, _, _; repeat split.
Qed.

Lemma Append_Inv h cmd io :
  (0 <= maxSize h)%Z -> Inv h ->
  exists h' evs err,
    Append h cmd io = Returns (h', evs, err) /\ maxSize h' = maxSize h /\ Inv h'.
Proof.
  intros HN [Hlen Hnd].
  destruct (Append_spec h cmd io HN) as (h' & evs & err & HA & HM & _ & HH).
  exists h', evs, err. split; [exact HA|]. split; [exact HM|].
  unfold Inv. rewrite HH, HM.
  destruct (String.eqb (TrimSpace cmd) EmptyString); [split; assumption|].
  case_bool_decide as Hl; [split; assumption|].
  split; [apply keepLast_length; exact HN|].
  apply NoAdjDup_skipn, NoAdjDup_snoc; assumption.
Qed.

Lemma AppendAll_Inv cmds : forall h,
  (0 <= maxSize h)%Z -> Inv h ->
  exists h', AppendAll h cmds = Returns h' /\ maxSize h' = maxSize h /\ Inv h'.
Proof.
  induction cmds as [|[c io] cmds IH]; intros h HN HI.
  - exists h. repeat split; apply HI.
  - destruct (Append_Inv h c io HN HI) as (h1 & evs & err & HA & HM & HI1).
    destruct (IH h1) as (h' & HR & HM' & HI'); [lia | exact HI1 |].
    exists h'. simpl. rewrite HA. split; [exact HR|]. split; [lia | exact HI'].
Qed.

(** A run of commands none of which repeats its predecessor leaves
    the last [maxSize] entries of everything seen. *)
Lemma AppendAll_keepLast cmds : forall h,
  (0 <= maxSize h)%Z ->
  (Z.of_nat (length (history h)) <= maxSize h)%Z ->
  Forall isCommand (List.map fst cmds) ->
  NoAdjDup (history h ++ List.map fst cmds) ->
  exists h',
    AppendAll h cmds = Returns h' /\ maxSize h' = maxSize h
    /\ history h' = keepLast (maxSize h) (history h ++ List.map fst cmds).
Proof.
  induction cmds as [|[c io] cmds IH]; intros h HN Hlen Hcmd Hnd.
  - exists h. simpl. rewrite app_nil_r, keepLast_fits by exact Hlen. repeat split.
  - simpl in Hcmd, Hnd. apply Forall_cons in Hcmd as [[Htrim Hne] Hcmd].
    destruct (Append_spec h c io HN) as (h1 & evs & err & HA & HM & _ & HH).
    rewrite Htrim in HH.
    rewrite (proj2 (String.eqb_neq c EmptyString) Hne) in HH.
    rewrite bool_decide_eq_false_2 in HH by (eapply NoAdjDup_app_last; eauto).
    destruct (IH h1) as (h' & HR & HM' & HH').
    + lia.
    + rewrite HH, HM. apply keepLast_length. exact HN.
    + exact Hcmd.
    + rewrite HH. unfold keepLast.
      rewrite <- drop_app_le by lia.
      apply NoAdjDup_skipn. rewrite <- app_assoc. exact Hnd.
    + exists h'. simpl. rewrite HA. split; [exact HR|]. split; [lia|].
      rewrite HH', HH, HM. rewrite keepLast_app by exact HN.
      rewrite <- app_assoc. reflexivity.
Qed.

End HistoryFacts.

(** C6 — history store.  On a store bounded at [N] (not negative)
    that has no two adjacent equal entries and at most [N] of them, as
    a fresh store has: every run of [Append] calls returns and leaves
    such a store again; appending a command equal to the last entry
    changes nothing; any other non-blank command is added at the end
    and the oldest entries are dropped so that at most [N] remain;
    appending the same command twice to a fresh store with room for it
    yields length 1; appending [N+5] distinct commands to a fresh store
    yields exactly the last [N] of them. *)
Theorem C6_history_append_dedup_bounded :
  forall (N : Z) (h : History.HistoryFile),
    (0 <= N)%Z -> History.maxSize h = N -> History.Inv h ->
    (forall cmds, exists h',
        History.AppendAll h cmds = Returns h'
        /\ History.maxSize h' = N /\ History.Inv h')
    /\ (forall cmd io,
          History.lastEntry (History.history h) = Some (TrimSpace cmd) ->
          History.Append h cmd io = Returns (h, [], None))
    /\ (forall cmd io,
          TrimSpace cmd <> EmptyString ->
          History.lastEntry (History.history h) <> Some (TrimSpace cmd) ->
          exists h' evs err,
            History.Append h cmd io = Returns (h', evs, err)
            /\ History.history h'
               = History.keepLast N (History.history h ++ [TrimSpace cmd]))
    /\ (forall path cmd io1 io2,
          (1 <= N)%Z -> History.isCommand cmd ->
          exists h',
            History.AppendAll (History.empty path N) [(cmd, io1); (cmd, io2)]
            = Returns h'
            /\ History.history h' = [cmd])
    /\ (forall path cmds,
          Forall History.isCommand (List.map fst cmds) ->
          List.NoDup (List.map fst cmds) ->
          Z.of_nat (length cmds) = (N + 5)%Z ->
          exists h',
            History.AppendAll (History.empty path N) cmds = Returns h'
            /\ History.history h' = List.skipn 5 (List.map fst cmds)
            /\ Z.of_nat (length (History.history h')) = N).
Proof.
  intros N h HN HM HI. subst N.
  split; [|split; [|split; [|split]]].
  - intros cmds. destruct (AppendAll_Inv cmds h HN HI) as (h' & HR & HM' & HI').
    exists h'. auto.
  - intros cmd io Hlast.
    destruct (Append_spec h cmd io HN) as (h' & evs & err & HA & _).
    unfold History.Append in *. fold (History.lastEntry (History.history h)) in *.
    rewrite Hlast in *. rewrite String.eqb_refl.
    destruct (String.eqb (TrimSpace cmd) EmptyString); reflexivity.
  - intros cmd io Hne Hlast.
    destruct (Append_spec h cmd io HN) as (h' & evs & err & HA & _ & _ & HH).
    exists h', evs, err. split; [exact HA|].
    rewrite (proj2 (String.eqb_neq _ _) Hne) in HH.
    rewrite bool_decide_eq_false_2 in HH by exact Hlast. exact HH.
  - intros path cmd io1 io2 H1 [Htrim Hne].
    destruct (Append_spec (History.empty path (History.maxSize h)) cmd io1 HN)
      as (h1 & evs1 & err1 & HA1 & HM1 & _ & HH1).
    rewrite Htrim, (proj2 (String.eqb_neq _ _) Hne) in HH1. simpl in HH1, HM1.
    rewrite keepLast_fits in HH1 by (simpl; lia).
    assert (HN1 : (0 <= History.maxSize h1)%Z) by lia.
    destruct (Append_spec h1 cmd io2 HN1) as (h2 & evs2 & err2 & HA2 & _ & _ & HH2).
    rewrite Htrim, (proj2 (String.eqb_neq _ _) Hne), HH1 in HH2.
    rewrite bool_decide_eq_true_2 in HH2 by reflexivity.
    exists h2. simpl. rewrite HA1, HA2. split; [reflexivity | exact HH2].
  - intros path cmds Hcmd Hnd Hlen.
    destruct (AppendAll_keepLast cmds (History.empty path (History.maxSize h)))
      as (h' & HR & _ & HH); simpl; try lia; try assumption.
    { apply NoDup_NoAdjDup. exact Hnd. }
    simpl in HH. exists h'. split; [exact HR|].
    assert (Hk : History.keepLast (History.maxSize h) (List.map fst cmds)
                 = List.skipn 5 (List.map fst cmds)).
    { unfold History.keepLast. f_equal. rewrite List.length_map. lia. }
    rewrite HH, Hk. split; [reflexivity|].
    rewrite List.length_skipn, List.length_map. lia.
Qed.

Lemma C6_history_witness :
  (0 <= 2)%Z
  /\ History.maxSize (History.mkHistoryFile "command_history.txt" 2 ["players"]) = 2%Z
  /\ History.Inv (History.mkHistoryFile "command_history.txt" 2 ["players"])
  /\ exists h',
       History.AppendAll (History.empty "command_history.txt" 2)
         [("c1", None); ("c2", None); ("c3", Some "disk full"); ("c4", None);
          ("c5", None); ("c6", None); ("c7", None)]
       = Returns h'
       /\ History.history h' = ["c6"; "c7"].
Proof.
  assert (H0 : (0 <= 2)%Z) by lia.
  assert (HI : History.Inv (History.mkHistoryFile "command_history.txt" 2 ["players"])).
  { split; [simpl; lia | exact I]. }
  split; [exact H0|]. split; [reflexivity|]. split; [exact HI|].
  destruct (C6_history_append_dedup_bounded 2
              (History.mkHistoryFile "command_history.txt" 2 ["players"])
              H0 eq_refl HI) as (_ & _ & _ & _ & H5).
  destruct (H5 "command_history.txt"
              [("c1", None); ("c2", None); ("c3", Some "disk full"); ("c4", None);
               ("c5", None); ("c6", None); ("c7", None)])
    as (h' & HR & HH & _).
  - repeat (constructor; [split; [reflexivity | discriminate]|]). constructor.
  - repeat (apply List.NoDup_cons; [simpl; intuition discriminate|]).
    apply List.NoDup_nil.
  - reflexivity.
  - exists h'. split; [exact HR | exact HH].
Defined.

(** ** The completer *)

Lemma Split_not_nil s c : Split s c <> [].
Proof.
  destruct s as [|a s]; simpl; [discriminate|].
  destruct (Ascii.eqb a c); [discriminate|]. destruct (Split s c); discriminate.
Qed.

(** A text with a single piece holds no separator: the piece is the
    whole text, and so is the word after the last separator. *)
Lemma Split_single s c :
  (length (Split s c) <= 1)%nat ->
  Split s c = [s] /\ afterLastIndexByte s c = 0%nat.
Proof.
  induction s as [|a s IH]; simpl; intros Hlen; [split; reflexivity|].
  destruct (Ascii.eqb a c) eqn:Hac.
  - pose proof (Split_not_nil s c) as Hne.
    destruct (Split s c); [congruence | simpl in Hlen; lia].
  - destruct (Split s c) as [|x xs] eqn:Hs; [exfalso; eapply Split_not_nil; eauto|].
    destruct xs as [|y xs]; [|simpl in Hlen; lia].
    destruct IH as [Hx Hidx]; [simpl; lia|].
    injection Hx as ->. rewrite Hidx. split; reflexivity.
Qed.



(** ** The resource pack server: requests *)

Section RequestFacts.
Import Resource PackServer.

Lemma packResponse_spec path body :
  Status (packResponse path body) = 200%Z
  /\ Header (packResponse path body) !! "Content-Disposition"
     = Some ("attachment; filename=" +:+ path +:+ ".mcpack")
  /\ Header (packResponse path body) !! "Content-Type" = Some "application/zip"
  /\ Header (packResponse path body) !! "Content-Length" = Some (itoa (length body))
  /\ Body (packResponse path body) = body.
Proof.
  unfold packResponse. simpl. repeat split.
Qed.

Lemma handleRequest_valid s urlPath writeErr :
  TrimPrefix urlPath "/" <> EmptyString ->
  Contains (TrimPrefix urlPath "/") ".." = false ->
  Contains (TrimPrefix urlPath "/") "/" = false ->
  handleRequest s urlPath writeErr =
  let path := TrimPrefix urlPath "/" in
  let ev0 := EvLog LevelDebug "Received request" [("path", path)] in
  match packs s !! path with
  | None =>
      (s, [ev0; EvPacksLookup path;
           EvLog LevelDebug "Resource pack not found" [("uuid", path)]],
       NotFound)
  | Some pack =>
      match contentCache s !! path with
      | Some c =>
          (s, [ev0; EvPacksLookup path; EvCacheLookup path; served path c writeErr],
           packResponse path c)
      | None =>
          let evs := [ev0; EvPacksLookup path; EvCacheLookup path;
                      EvLog LevelDebug "Resource pack not cached, reading from pack"
                            [("uuid", path)];
                      EvPackRead path] in
          match ReadAt pack with
          | Err e =>
              (s, evs ++ [EvLog LevelError "Failed to read resource pack"
                                [("uuid", path); ("error", e)]],
               httpError "Internal server error" 500)
          | Ok c =>
              (storeContent s path c,
               evs ++ [EvCacheStore path; served path c writeErr],
               packResponse path c)
          end
      end
  end.
Proof.
  intros Hne Hdots Hslash. unfold handleRequest.
  rewrite (proj2 (String.eqb_neq _ _) Hne), Hdots, Hslash. reflexivity.
Qed.

End RequestFacts.

(** C4 — the traversal guard.  A request whose identifier (the URL
    path without its leading slash) is empty or contains ".." or "/"
    is answered 404 with the server unchanged, and the handler does
    nothing but log the request: it looks up neither the pack set nor
    the content cache, reads no pack and stores nothing. *)
Theorem C4_invalid_identifier_never_reaches_cache :
  forall (s : PackServer.ResourcePackServer) (urlPath : string)
         (writeErr : option string),
    let id := TrimPrefix urlPath "/" in
    id = EmptyString \/ Contains id ".." = true \/ Contains id "/" = true ->
    PackServer.handleRequest s urlPath writeErr
    = (s, [EvLog LevelDebug "Received request" [("path", id)]], PackServer.NotFound)
    /\ PackServer.Status (PackServer.handleRequest s urlPath writeErr).2 = 404%Z
    /\ List.existsb PackServer.consultsStore
         (PackServer.handleRequest s urlPath writeErr).1.2 = false
    /\ (PackServer.handleRequest s urlPath writeErr).1.1 = s.
Proof.
  intros s urlPath writeErr id H.
  assert (E : PackServer.handleRequest s urlPath writeErr
              = (s, [EvLog LevelDebug "Received request" [("path", id)]],
                 PackServer.NotFound)).
  { unfold PackServer.handleRequest. fold id.
    destruct H as [-> | [H | H]]; [reflexivity | |].
    - destruct (String.eqb id EmptyString); [reflexivity|]. rewrite H. reflexivity.
    - destruct (String.eqb id EmptyString); [reflexivity|]. rewrite H, orb_true_r.
      reflexivity. }
  rewrite E. repeat split.
Qed.

Lemma C4_invalid_identifier_witness :
  (TrimPrefix "/../config.toml" "/" = EmptyString
   \/ Contains (TrimPrefix "/../config.toml" "/") ".." = true
   \/ Contains (TrimPrefix "/../config.toml" "/") "/" = true)
  /\ PackServer.handleRequest Samples.brokenServer "/../config.toml" None
     = (Samples.brokenServer,
        [EvLog LevelDebug "Received request" [("path", "../config.toml")]],
        PackServer.NotFound).
Proof.
  assert (H : TrimPrefix "/../config.toml" "/" = EmptyString
              \/ Contains (TrimPrefix "/../config.toml" "/") ".." = true
              \/ Contains (TrimPrefix "/../config.toml" "/") "/" = true)
    by (right; left; reflexivity).
  split; [exact H|].
  exact (proj1 (C4_invalid_identifier_never_reaches_cache
                  Samples.brokenServer "/../config.toml" None H)).
Defined.

(** C3, as stated, fails: a pack that is in the pack set but whose
    bytes could not be pre-loaded and cannot be read on demand either
    is answered 500, not 200. *)
Lemma C3_read_failure_counterexample :
  TrimPrefix ("/" +:+ Resource.UUID Samples.brokenPack) "/"
  = Resource.UUID Samples.brokenPack
  /\ Resource.UUID Samples.brokenPack <> EmptyString
  /\ Contains (Resource.UUID Samples.brokenPack) ".." = false
  /\ Contains (Resource.UUID Samples.brokenPack) "/" = false
  /\ PackServer.packs Samples.brokenServer !! Resource.UUID Samples.brokenPack
     = Some Samples.brokenPack
  /\ PackServer.Status
       (PackServer.handleRequest Samples.brokenServer
          ("/" +:+ Resource.UUID Samples.brokenPack) None).2 = 500%Z
  /\ PackServer.Status
       (PackServer.handleRequest Samples.brokenServer
          ("/" +:+ Resource.UUID Samples.brokenPack) None).2 <> 200%Z.
Proof.
  repeat split; try reflexivity; vm_compute; discriminate.
Qed.

(** C3, amended — serving a pack.  For a request whose identifier is
    not empty and holds neither ".." nor "/": when the identifier is in
    the pack set and its content is cached, the answer is 200 with the
    cached bytes; when it is in the pack set, not cached, and reading
    the pack succeeds, the answer is 200 with the bytes read, which are
    then in the cache; when that read fails the answer is 500 and
    nothing is cached; when the identifier is not in the pack set the
    answer is 404 whatever the cache holds.  A 200 answer carries
    Content-Disposition "attachment; filename=<identifier>.mcpack",
    Content-Type "application/zip" and Content-Length the byte count of
    the body. *)
Theorem C3_serves_cached_or_read_content :
  forall (s : PackServer.ResourcePackServer) (urlPath : string)
         (writeErr : option string),
    let id := TrimPrefix urlPath "/" in
    let r := PackServer.handleRequest s urlPath writeErr in
    id <> EmptyString -> Contains id ".." = false -> Contains id "/" = false ->
    (forall pack c,
        PackServer.packs s !! id = Some pack ->
        PackServer.contentCache s !! id = Some c ->
        r.2 = PackServer.packResponse id c /\ r.1.1 = s)
    /\ (forall pack c,
          PackServer.packs s !! id = Some pack ->
          PackServer.contentCache s !! id = None ->
          Resource.ReadAt pack = Ok c ->
          r.2 = PackServer.packResponse id c
          /\ PackServer.contentCache r.1.1 = <[id := c]> (PackServer.contentCache s)
          /\ PackServer.packs r.1.1 = PackServer.packs s)
    /\ (forall pack e,
          PackServer.packs s !! id = Some pack ->
          PackServer.contentCache s !! id = None ->
          Resource.ReadAt pack = Err e ->
          PackServer.Status r.2 = 500%Z /\ r.1.1 = s)
    /\ (PackServer.packs s !! id = None ->
        r.2 = PackServer.NotFound /\ PackServer.Status r.2 = 404%Z /\ r.1.1 = s)
    /\ (forall c,
          PackServer.Status (PackServer.packResponse id c) = 200%Z
          /\ PackServer.Header (PackServer.packResponse id c) !! "Content-Disposition"
             = Some ("attachment; filename=" +:+ id +:+ ".mcpack")
          /\ PackServer.Header (PackServer.packResponse id c) !! "Content-Type"
             = Some "application/zip"
          /\ PackServer.Header (PackServer.packResponse id c) !! "Content-Length"
             = Some (itoa (length c))
          /\ PackServer.Body (PackServer.packResponse id c) = c).
Proof.
  intros s urlPath writeErr id r Hne Hdots Hslash.
  pose proof (handleRequest_valid s urlPath writeErr Hne Hdots Hslash) as E.
  fold id in E. fold r in E. cbv zeta in E.
  split; [|split; [|split; [|split]]].
  - intros pack c Hp Hc. rewrite Hp, Hc in E. rewrite E. split; reflexivity.
  - intros pack c Hp Hc Hr. rewrite Hp, Hc, Hr in E. rewrite E. repeat split.
  - intros pack e Hp Hc Hr. rewrite Hp, Hc, Hr in E. rewrite E. split; reflexivity.
  - intros Hp. rewrite Hp in E. rewrite E. repeat split.
  - intros c. apply packResponse_spec.
Qed.

Lemma C3_serves_witness :
  TrimPrefix ("/" +:+ Resource.UUID Samples.texturePack) "/" <> EmptyString
  /\ Contains (TrimPrefix ("/" +:+ Resource.UUID Samples.texturePack) "/") ".." = false
  /\ Contains (TrimPrefix ("/" +:+ Resource.UUID Samples.texturePack) "/") "/" = false
  /\ (PackServer.handleRequest Samples.cachedServer
        ("/" +:+ Resource.UUID Samples.texturePack) None).2
     = PackServer.packResponse (Resource.UUID Samples.texturePack)
                               (Resource.content Samples.texturePack).
Proof.
  assert (H1 : TrimPrefix ("/" +:+ Resource.UUID Samples.texturePack) "/" <> EmptyString)
    by (vm_compute; discriminate).
  assert (H2 : Contains (TrimPrefix ("/" +:+ Resource.UUID Samples.texturePack) "/") ".."
               = false) by reflexivity.
  assert (H3 : Contains (TrimPrefix ("/" +:+ Resource.UUID Samples.texturePack) "/") "/"
               = false) by reflexivity.
  split; [exact H1|]. split; [exact H2|]. split; [exact H3|].
  exact (proj1 (proj1 (C3_serves_cached_or_read_content Samples.cachedServer
                         ("/" +:+ Resource.UUID Samples.texturePack) None H1 H2 H3)
                      Samples.texturePack (Resource.content Samples.texturePack)
                      eq_refl eq_refl)).
Defined.

(** ** The command dispatcher *)

Lemma findSession_none w playerName :
  (forall s, In s (Main.sessions w) -> Engine.DisplayName s <> playerName) ->
  Main.findSession w playerName = None.
Proof.
  unfold Main.findSession. induction (Main.sessions w) as [|s l IH]; intros H.
  - reflexivity.
  - simpl. rewrite (proj2 (String.eqb_neq _ _)) by (apply H; left; reflexivity).
    apply IH. intros s' Hs'. apply H. right. exact Hs'.
Qed.

(** C1 — what the dispatcher does with "exit".  The line "exit" falls
    into the default branch: two lines are logged, nothing is closed
    and the process keeps running.  The lines "stop" and "end" close
    the pack server when there is one, close the proxy and exit with
    status 0.  The completer nevertheless offers "exit" with the
    description of "stop". *)
Theorem C1_exit_is_unknown_command :
  forall (w : Main.Console) (conf : Main.ServerConfig),
    Main.handleCommand "exit" w conf
    = ([Main.info "Unknown command: exit";
        Main.info "Available commands: players, transfer, info"],
       Main.Running)
    /\ List.existsb Main.shutsDown (Main.handleCommand "exit" w conf).1 = false
    /\ Main.handleCommand "stop" w conf
       = (match Main.resourcePackServer w with
          | None => []
          | Some None => [EvServerClose]
          | Some (Some e) =>
              [EvServerClose;
               EvLog LevelError "Failed to close resource pack HTTP server"
                     [("error", e)]]
          end ++ [EvProxyClose; Main.info "Stopped proxy"; EvExit 0],
          Main.Exited 0)
    /\ Main.handleCommand "end" w conf = Main.handleCommand "stop" w conf
    /\ In (Prompt.mkSuggest "exit" "Stop the server") Completer.commands
    /\ In (Prompt.mkSuggest "stop" "Stop the server") Completer.commands.
Proof.
  intros w conf. repeat split; try reflexivity.
  - right; right; right; right; left. reflexivity.
  - right; right; right; left. reflexivity.
Qed.

(** C9 — transfer.  For a line whose first field is "transfer": with
    fewer than two further fields the usage message is logged and
    nothing else happens; with at least two, when no connected session
    has a display name equal to the first of them, "Player '<name>' not
    found" is logged and nothing else happens.  In neither case is the
    engine asked to transfer a session. *)
Theorem C9_transfer_usage_and_unknown_player :
  forall (command : string) (w : Main.Console) (conf : Main.ServerConfig)
         (args : list string),
    Fields command = "transfer" :: args ->
    ((length args < 2)%nat ->
       Main.handleCommand command w conf
       = ([Main.info "Usage: transfer <player> <server>"], Main.Running)
       /\ List.existsb Main.invokesTransfer (Main.handleCommand command w conf).1
          = false)
    /\ (forall playerName serverName rest,
          args = playerName :: serverName :: rest ->
          (forall s, In s (Main.sessions w) -> Engine.DisplayName s <> playerName) ->
          Main.handleCommand command w conf
          = ([Main.info ("Player '" +:+ playerName +:+ "' not found")], Main.Running)
          /\ List.existsb Main.invokesTransfer (Main.handleCommand command w conf).1
             = false).
Proof.
  intros command w conf args HF. split.
  - intros Hlen.
    assert (E : Main.handleCommand command w conf
                = ([Main.info "Usage: transfer <player> <server>"], Main.Running)).
    { unfold Main.handleCommand. rewrite HF. simpl.
      destruct args as [|a [|b args]]; [reflexivity | reflexivity | simpl in Hlen; lia]. }
    rewrite E. split; reflexivity.
  - intros playerName serverName rest -> Hnone.
    assert (E : Main.handleCommand command w conf
                = ([Main.info ("Player '" +:+ playerName +:+ "' not found")],
                   Main.Running)).
    { unfold Main.handleCommand. rewrite HF. simpl.
      rewrite findSession_none by exact Hnone. reflexivity. }
    rewrite E. split; reflexivity.
Qed.

Lemma C9_transfer_witness :
  Fields "transfer alice lobby" = ["transfer"; "alice"; "lobby"]
  /\ (forall s, In s (Main.sessions Samples.console) -> Engine.DisplayName s <> "alice")
  /\ Main.handleCommand "transfer alice lobby" Samples.console Samples.defaultConfig
     = ([Main.info "Player 'alice' not found"], Main.Running)
  /\ Fields "transfer Alice" = ["transfer"; "Alice"]
  /\ (length ["Alice"] < 2)%nat
  /\ Main.handleCommand "transfer Alice" Samples.console Samples.defaultConfig
     = ([Main.info "Usage: transfer <player> <server>"], Main.Running).
Proof.
  assert (HF : Fields "transfer alice lobby" = ["transfer"; "alice"; "lobby"])
    by reflexivity.
  assert (Hn : forall s, In s (Main.sessions Samples.console) ->
                         Engine.DisplayName s <> "alice").
  { intros s [<- | [<- | []]]; simpl; discriminate. }
  assert (HF' : Fields "transfer Alice" = ["transfer"; "Alice"]) by reflexivity.
  assert (Hl : (length ["Alice"] < 2)%nat) by (simpl; lia).
  split; [exact HF|]. split; [exact Hn|]. split.
  { exact (proj1 (proj2 (C9_transfer_usage_and_unknown_player
                           "transfer alice lobby" Samples.console
                           Samples.defaultConfig ["alice"; "lobby"] HF)
                        "alice" "lobby" [] eq_refl Hn)). }
  split; [exact HF'|]. split; [exact Hl|].
  exact (proj1 (proj1 (C9_transfer_usage_and_unknown_player
                         "transfer Alice" Samples.console
                         Samples.defaultConfig ["Alice"] HF') Hl)).
Defined.

(** ** The readiness gate *)

Section GateFacts.
Import Resource PackServer.

Lemma NewResourcePackServer_ready gw ps port evs s :
  NewResourcePackServer gw ps port = (evs, Ok s) -> ready s = ChanOpen.
Proof.
  unfold NewResourcePackServer. destruct gw; [|discriminate].
  destruct (List.fold_left cacheStep ps (∅, ∅, [])) as [[pm cc] evs0].
  intros [= _ <-]. reflexivity.
Qed.

Lemma run_waits_open waiters : forall st,
  ready (srv st) = ChanOpen ->
  run st (List.map OpWait waiters)
  = Returns (mkSys (srv st) (blocked st ++ waiters) (passed st) (trace st)).
Proof.
  induction waiters as [|g waiters IH]; intros st Hopen; simpl.
  - rewrite app_nil_r. destruct st; reflexivity.
  - unfold WaitForReady. rewrite Hopen. rewrite IH by exact Hopen. simpl.
    rewrite <- app_assoc. reflexivity.
Qed.

Lemma run_waits_closed waiters : forall st,
  ready (srv st) = ChanClosed ->
  run st (List.map OpWait waiters)
  = Returns (mkSys (srv st) (blocked st) (passed st ++ waiters) (trace st)).
Proof.
  induction waiters as [|g waiters IH]; intros st Hclosed; simpl.
  - rewrite app_nil_r. destruct st; reflexivity.
  - unfold WaitForReady. rewrite Hclosed. rewrite IH by exact Hclosed. simpl.
    rewrite <- app_assoc. reflexivity.
Qed.

(** A handler neither touches the channel nor signals. *)
Lemma handleRequest_gate s urlPath writeErr :
  ready (handleRequest s urlPath writeErr).1.1 = ready s
  /\ ~ In EvCloseReady (handleRequest s urlPath writeErr).1.2.
Proof.
  unfold handleRequest, served.
  repeat match goal with
         | |- context [if ?b then _ else _] => destruct b
         | |- context [match ?x with _ => _ end] => destruct x
         end;
    simpl; (split; [reflexivity | intuition discriminate]).
Qed.

(** As long as no [Start] binds, the channel stays open: nobody
    passes the gate, every caller of [WaitForReady] joins the parked
    ones, and no signal is recorded. *)
Lemma run_without_bind ops : forall st,
  ready (srv st) = ChanOpen ->
  List.forallb (fun op => negb (binds op)) ops = true ->
  ~ In EvCloseReady (trace st) ->
  exists st',
    run st ops = Returns st'
    /\ ready (srv st') = ChanOpen
    /\ passed st' = passed st
    /\ blocked st' = blocked st ++ waitersOf ops
    /\ ~ In EvCloseReady (trace st').
Proof.
  induction ops as [|op ops IH]; intros st Hopen Hnb Htr.
  - exists st. simpl. rewrite app_nil_r. auto.
  - simpl in Hnb. apply andb_true_iff in Hnb as [Hop Hnb].
    assert (Hstep : exists st1,
               step st op = Returns st1
               /\ ready (srv st1) = ChanOpen
               /\ passed st1 = passed st
               /\ blocked st1
                  = blocked st ++ match op with OpWait g => [g] | _ => [] end
               /\ ~ In EvCloseReady (trace st1)).
    { destruct op as [g | [e|] serveErr | urlPath writeErr | ps | closeErr];
        simpl in *; try discriminate.
      - unfold WaitForReady. rewrite Hopen. eexists. repeat split; auto.
      - eexists. split; [reflexivity|]. simpl. rewrite app_nil_r.
        repeat split; auto. rewrite in_app_iff. simpl. intuition discriminate.
      - pose proof (handleRequest_gate (srv st) urlPath writeErr) as [Hr Hn].
        destruct (handleRequest (srv st) urlPath writeErr) as [[s' evs] resp].
        simpl in *. eexists. split; [reflexivity|]. simpl. rewrite app_nil_r.
        repeat split; auto; [congruence|]. rewrite in_app_iff. tauto.
      - eexists. split; [reflexivity|]. simpl. rewrite app_nil_r.
        repeat split; auto.
      - eexists. split; [reflexivity|]. simpl. rewrite app_nil_r.
        repeat split; auto. rewrite in_app_iff. simpl. intuition discriminate. }
    destruct Hstep as (st1 & Hs & Ho1 & Hp1 & Hb1 & Ht1).
    destruct (IH st1 Ho1 Hnb Ht1) as (st' & Hr & Ho' & Hp' & Hb' & Ht').
    exists st'. simpl. rewrite Hs. split; [exact Hr|]. split; [exact Ho'|].
    split; [congruence|]. split; [|exact Ht'].
    rewrite Hb', Hb1, <- app_assoc. reflexivity.
Qed.

End GateFacts.

(** ** The CDN rewrite *)

Section CDNFacts.
Import Resource PackServer.
Variable httpGet : string -> Result (Z * list byte).
Variable Read : list byte -> Result Pack.

(** A pack that [MustReadURL] returns was compiled from the body
    served at the URL, and remembers the URL. *)
Lemma MustReadURL_returns url q :
  MustReadURL httpGet Read url = Returns q ->
  DownloadURL q = url
  /\ exists body p,
       httpGet url = Ok (200%Z, body) /\ Read body = Ok p
       /\ UUID q = UUID p /\ Name q = Name p /\ Version q = Version p
       /\ content q = content p.
Proof.
  unfold MustReadURL, ReadURL.
  destruct (httpGet url) as [[status body]|e]; [|discriminate].
  destruct (status =? 200)%Z eqn:Hs; [|discriminate].
  apply Z.eqb_eq in Hs. subst status.
  destruct (Read body) as [p|e] eqn:HR; [|discriminate].
  intros [= <-]. split; [reflexivity|]. exists body, p. repeat split. exact HR.
Qed.

Lemma Modify_returns ps baseURL : forall out,
  (ModifyResourcePackForCDN httpGet Read ps baseURL).2 = Returns out ->
  (ModifyResourcePackForCDN httpGet Read ps baseURL).1
  = List.map (fun p => EvHttpGet (cdnURL baseURL p)) ps
  /\ List.Forall2
       (fun p q => MustReadURL httpGet Read (cdnURL baseURL p) = Returns q) ps out.
Proof.
  induction ps as [|p ps IH]; intros out; simpl.
  - intros [= <-]. split; [reflexivity | constructor].
  - destruct (MustReadURL httpGet Read (cdnURL baseURL p)) as [q|m] eqn:Hq;
      [|discriminate].
    destruct (ModifyResourcePackForCDN httpGet Read ps baseURL) as [evs r].
    simpl in *. destruct r as [out'|m]; [|discriminate].
    intros [= <-]. destruct (IH out' eq_refl) as [He HF].
    split; [rewrite He; reflexivity | constructor; assumption].
Qed.

Lemma Modify_total ps baseURL :
  (forall p, In p ps ->
             exists q, MustReadURL httpGet Read (cdnURL baseURL p) = Returns q) ->
  exists out, (ModifyResourcePackForCDN httpGet Read ps baseURL).2 = Returns out.
Proof.
  induction ps as [|p ps IH]; intros H; simpl.
  - exists []. reflexivity.
  - destruct (H p) as [q Hq]; [left; reflexivity|]. rewrite Hq.
    destruct IH as [out Hout]; [intros p' Hp'; apply H; right; exact Hp'|].
    destruct (ModifyResourcePackForCDN httpGet Read ps baseURL) as [evs r].
    simpl in *. rewrite Hout. exists (q :: out). reflexivity.
Qed.

End CDNFacts.

(** C8, as stated, fails: the rewrite is not a function of the list
    and the base URL alone.  Behind one base URL it returns a pack with
    another identifier than its input, because that is what the URL
    serves; behind another, where nothing listens, it panics and
    returns no list at all. *)
Lemma C8_rewrite_counterexample :
  PackServer.ModifyResourcePackForCDN Samples.staleGet Samples.sampleRead
    [Samples.texturePack] Samples.cdnBase
  = ([EvHttpGet "http://cdn.example:8080/0b1e7a52-8c3d-4f60-9a11-5d2c7e4f9a01"],
     Returns [Resource.mkPack "e41a9c77-2b5d-4d0e-8f3a-9b6c1d7e5f03" "Old textures"
                "0.9.0" [x50; x4b; x05; x06] None EmptyString
                "http://cdn.example:8080/0b1e7a52-8c3d-4f60-9a11-5d2c7e4f9a01"])
  /\ Resource.UUID Samples.texturePack <> "e41a9c77-2b5d-4d0e-8f3a-9b6c1d7e5f03"
  /\ PackServer.ModifyResourcePackForCDN Samples.downGet Samples.sampleRead
       [Samples.texturePack] Samples.cdnBase
     = ([EvHttpGet "http://cdn.example:8080/0b1e7a52-8c3d-4f60-9a11-5d2c7e4f9a01"],
        Panics "download resource pack: connection refused").
Proof.
  split; [reflexivity|]. split; [vm_compute; discriminate | reflexivity].
Qed.

(** C8, amended — the CDN rewrite.  The rewrite fetches, for every
    pack of the list in order, the URL <baseURL>/<identifier>.  When it
    returns a list, that list has the length of the input, and its
    i-th pack is the one compiled from the body served with status 200
    at the URL of the i-th input pack and carries that URL as download
    URL.  It returns a list when every such fetch yields a pack.  The
    output has the identifiers and metadata of the input, in the same
    order, whenever each URL serves an archive of the pack it is named
    after. *)
Theorem C8_cdn_rewrite_refetches_each_pack :
  forall (httpGet : string -> Result (Z * list byte))
         (Read : list byte -> Result Resource.Pack)
         (ps : list Resource.Pack) (baseURL : string),
    let r := PackServer.ModifyResourcePackForCDN httpGet Read ps baseURL in
    (forall out,
        r.2 = Returns out ->
        length out = length ps
        /\ r.1 = List.map (fun p => EvHttpGet (baseURL +:+ "/" +:+ Resource.UUID p)) ps
        /\ List.Forall2
             (fun p q =>
                Resource.DownloadURL q = baseURL +:+ "/" +:+ Resource.UUID p
                /\ exists body p',
                     httpGet (baseURL +:+ "/" +:+ Resource.UUID p) = Ok (200%Z, body)
                     /\ Read body = Ok p'
                     /\ Resource.UUID q = Resource.UUID p'
                     /\ Resource.Name q = Resource.Name p'
                     /\ Resource.Version q = Resource.Version p'
                     /\ Resource.content q = Resource.content p')
             ps out)
    /\ ((forall p, In p ps ->
           exists q, Resource.MustReadURL httpGet Read
                       (baseURL +:+ "/" +:+ Resource.UUID p) = Returns q) ->
        exists out, r.2 = Returns out)
    /\ (forall out,
          r.2 = Returns out ->
          (forall p body p',
              In p ps ->
              httpGet (baseURL +:+ "/" +:+ Resource.UUID p) = Ok (200%Z, body) ->
              Read body = Ok p' ->
              Resource.UUID p' = Resource.UUID p
              /\ Resource.Name p' = Resource.Name p
              /\ Resource.Version p' = Resource.Version p) ->
          List.map Resource.UUID out = List.map Resource.UUID ps
          /\ List.map Resource.Name out = List.map Resource.Name ps
          /\ List.map Resource.Version out = List.map Resource.Version ps).
Proof.
  intros httpGet Read ps baseURL r. split; [|split].
  - intros out Hout.
    destruct (Modify_returns httpGet Read ps baseURL out Hout) as [He HF].
    split; [symmetry; eapply Forall2_length; eauto|]. split; [exact He|].
    clear He Hout. induction HF as [|p q ps' out' Hq HF IH]; constructor; [|exact IH].
    apply (MustReadURL_returns httpGet Read) in Hq. exact Hq.
  - apply Modify_total.
  - intros out Hout Hsame.
    destruct (Modify_returns httpGet Read ps baseURL out Hout) as [_ HF].
    clear Hout. induction HF as [|p q ps' out' Hq HF IH]; [repeat split|].
    destruct IH as (IH1 & IH2 & IH3).
    { intros p0 body p' Hin. apply Hsame. right. exact Hin. }
    apply (MustReadURL_returns httpGet Read) in Hq
      as (_ & body & p' & Hg & HR & Hu & Hn & Hv & _).
    destruct (Hsame p body p' (or_introl eq_refl) Hg HR) as (Hu' & Hn' & Hv').
    simpl. rewrite IH1, IH2, IH3. repeat split; f_equal; congruence.
Qed.

Lemma C8_cdn_rewrite_witness :
  (forall p, In p [Samples.texturePack] ->
     exists q, Resource.MustReadURL Samples.frontGet Samples.sampleRead
                 (Samples.cdnBase +:+ "/" +:+ Resource.UUID p) = Returns q)
  /\ exists out,
       (PackServer.ModifyResourcePackForCDN Samples.frontGet Samples.sampleRead
          [Samples.texturePack] Samples.cdnBase).2 = Returns out.
Proof.
  assert (H : forall p, In p [Samples.texturePack] ->
     exists q, Resource.MustReadURL Samples.frontGet Samples.sampleRead
                 (Samples.cdnBase +:+ "/" +:+ Resource.UUID p) = Returns q).
  { intros p [<- | []]. eexists. reflexivity. }
  split; [exact H|].
  exact (proj1 (proj2 (C8_cdn_rewrite_refetches_each_pack Samples.frontGet
                         Samples.sampleRead [Samples.texturePack] Samples.cdnBase)) H).
Defined.

(** ** Loading the packs *)

Section LoadFacts.
Import Resource PackServer Main.


Lemma parseEntries_logs keys d entries : forall acc,
  Forall isLog (parseEntries keys d entries acc).1.
Proof.
  induction entries as [|entry rest IH]; intros acc; simpl; [constructor|].
  destruct (readPath d entry) as [pack0|e]; [|constructor].
  specialize (IH (acc ++ [match keys !! UUID pack0 with
                          | Some key => WithContentKey pack0 key
                          | None => pack0
                          end])).
  destruct (parseEntries keys d rest _) as [evs r]. simpl in *.
  constructor; [exact I | exact IH].
Qed.

Lemma parse_logs keys d : Forall isLog (parse keys d).1.
Proof.
  unfold parse. destruct (getwd d); [|constructor].
  destruct (if dirMissing d then mkdirErr d else None); [constructor|].
  destruct (readDir d); [apply parseEntries_logs | constructor].
Qed.



Lemma loadServer_logs conf servers : forall sm a2n lobby evs,
  Forall isLog evs ->
  Forall isLog (List.fold_left (loadServer conf) servers (sm, a2n, lobby, evs)).2.
Proof.
  induction servers as [|srv servers IH]; intros sm a2n lobby evs Hevs; simpl.
  - exact Hevs.
  - apply IH. apply Forall_app. split; [exact Hevs|]. repeat constructor.
Qed.



End LoadFacts.

Section LoadMore.
Import Resource PackServer Main.



End LoadMore.




(** ** The readiness gate in [main] *)

Section StartupFacts.
Import Resource PackServer Main.

Lemma last_app_ne (a b : list Event) d :
  b <> [] -> List.last (a ++ b) d = List.last b d.
Proof.
  intros Hb. induction a as [|x a IH]; [reflexivity|].
  simpl. destruct (a ++ b) eqn:E; [|exact IH].
  apply app_eq_nil in E as [_ ->]. congruence.
Qed.

Lemma logs_no_signal evs : Forall isLog evs -> ~ In EvCloseReady evs.
Proof.
  induction 1 as [|ev evs Hev _ IH]; [intros []|].
  intros [Heq | Hin]; [subst ev; exact Hev | exact (IH Hin)].
Qed.

Lemma fold_cacheStep_no_signal ps : forall pm cc evs,
  ~ In EvCloseReady evs ->
  ~ In EvCloseReady (List.fold_left cacheStep ps (pm, cc, evs)).2.
Proof.
  induction ps as [|p ps IH]; intros pm cc evs Hevs; [exact Hevs|].
  cbn [List.fold_left]. unfold cacheStep at 2.
  destruct (ReadAt p); apply IH; rewrite in_app_iff; simpl; intuition discriminate.
Qed.

(** When the pack server cannot bind, the main goroutine is parked in
    [WaitForReady]: no signal was recorded and the last thing that
    happened is the error record of the goroutine that ran [Start]. *)
Lemma main_blocks_on_bind_failure env conf evs1 ps wd e :
  readConfig env = Ok conf ->
  lobbyAddress conf <> EmptyString ->
  parse ∅ (disk env) = (evs1, Ok ps) ->
  ps <> [] ->
  Enabled (Cdn conf) = true ->
  getwd (disk env) = Ok wd ->
  bindErr env = Some e ->
  (main env).2 = StartupBlocked
  /\ ~ In EvCloseReady (main env).1
  /\ List.last (main env).1 EvServe
     = EvLog LevelError "Resource pack HTTP server error" [("error", e)].
Proof.
  intros Hc Hlobby Hp Hps Hen Hwd Hb.
  unfold main. rewrite Hc.
  pose proof (loadServer_logs conf (Servers conf) ∅ ∅ EmptyString []
                (List.Forall_nil _)) as Hl.
  fold (loadServers conf) in Hl.
  unfold lobbyAddress in Hlobby.
  destruct (loadServers conf) as [[[sm a2n] lobby] evs0]. cbn [fst snd] in *.
  rewrite (proj2 (String.eqb_neq _ _) Hlobby).
  pose proof (parse_logs ∅ (disk env)) as Hpl.
  rewrite Hp in *. cbn [fst snd] in Hpl.
  rewrite Hen.
  assert (Hlen : (0 <? length ps)%nat = true).
  { destruct ps; [congruence | reflexivity]. }
  rewrite Hlen. cbn [andb].
  unfold startCDN, NewResourcePackServer. rewrite Hwd.
  pose proof (fold_cacheStep_no_signal ps ∅ ∅ [] (fun H => H)) as Hfold.
  destruct (List.fold_left cacheStep ps (∅, ∅, [])) as [[pm cc] evsN].
  cbn [fst snd] in Hfold.
  unfold Start. rewrite Hb. cbn.
  split; [reflexivity|]. split.
  - pose proof (logs_no_signal _ Hl). pose proof (logs_no_signal _ Hpl).
    rewrite !in_app_iff. simpl. rewrite !in_app_iff. simpl.
    intuition (try discriminate).
  - rewrite last_app_ne by (intros E; apply app_eq_nil in E as [_ E]; discriminate).
    rewrite last_app_ne by discriminate.
    match goal with
    | |- List.last (?x :: ?l) _ = _ => change (x :: l) with ([x] ++ l)
    end.
    rewrite last_app_ne by (intros E; apply app_eq_nil in E as [_ E]; discriminate).
    rewrite last_app_ne by discriminate. reflexivity.
Qed.

End StartupFacts.

(** C5 — readiness after a successful bind.  On a server whose
    readiness channel is still open, as [NewResourcePackServer] builds
    it, a [Start] that binds records, in this order, the listen, one
    signal on the readiness channel, and the start of serving: the
    signal occurs exactly once and before serving.  Every goroutine that
    was parked in [WaitForReady] has passed the gate after it, and
    every later [WaitForReady] returns at once without a further
    signal. *)
Theorem C5_ready_signalled_once_before_serving :
  forall (s : PackServer.ResourcePackServer) (waiters later : list nat)
         (serveErr : string),
    PackServer.ready s = PackServer.ChanOpen ->
    let evs := [EvLog LevelInfo "Starting resource pack HTTP server"
                      [("address", PackServer.Addr s)];
                EvListen (PackServer.Addr s) true; EvCloseReady; EvServe] in
    PackServer.Start s None serveErr = (PackServer.closeReady s, evs, Returns serveErr)
    /\ List.count_occ Event_eq_dec evs EvCloseReady = 1%nat
    /\ exists st1 st2 st3,
         PackServer.run (PackServer.boot s) (List.map PackServer.OpWait waiters)
         = Returns st1
         /\ PackServer.blocked st1 = waiters /\ PackServer.passed st1 = []
         /\ PackServer.step st1 (PackServer.OpStart None serveErr) = Returns st2
         /\ PackServer.trace st2 = evs
         /\ PackServer.blocked st2 = [] /\ PackServer.passed st2 = waiters
         /\ PackServer.WaitForReady (PackServer.srv st2) = PackServer.Proceeds
         /\ PackServer.run st2 (List.map PackServer.OpWait later) = Returns st3
         /\ PackServer.blocked st3 = []
         /\ PackServer.passed st3 = waiters ++ later
         /\ PackServer.trace st3 = evs.
Proof.
  intros s waiters later serveErr Hopen evs.
  assert (HS : PackServer.Start s None serveErr
               = (PackServer.closeReady s, evs, Returns serveErr)).
  { unfold PackServer.Start. rewrite Hopen. reflexivity. }
  split; [exact HS|]. split; [reflexivity|].
  eexists _, _, _.
  split. { apply run_waits_open. exact Hopen. }
  split; [reflexivity|]. split; [reflexivity|].
  split. { unfold PackServer.step. cbn [PackServer.srv PackServer.boot].
          rewrite HS. reflexivity. }
  split; [reflexivity|]. split; [reflexivity|]. split; [reflexivity|].
  split; [reflexivity|].
  split. { apply run_waits_closed. reflexivity. }
  repeat split.
Qed.

Lemma C5_ready_witness :
  PackServer.ready (PackServer.mkServer ∅ ∅ ":8080" PackServer.ChanOpen)
  = PackServer.ChanOpen
  /\ PackServer.Start (PackServer.mkServer ∅ ∅ ":8080" PackServer.ChanOpen) None
                      "http: Server closed"
     = (PackServer.mkServer ∅ ∅ ":8080" PackServer.ChanClosed,
        [EvLog LevelInfo "Starting resource pack HTTP server" [("address", ":8080")];
         EvListen ":8080" true; EvCloseReady; EvServe],
        Returns "http: Server closed").
Proof.
  split; [reflexivity|].
  exact (proj1 (C5_ready_signalled_once_before_serving
                  (PackServer.mkServer ∅ ∅ ":8080" PackServer.ChanOpen)
                  [1; 2]%nat [3]%nat "http: Server closed" eq_refl)).
Defined.

Section GateAddr.
Import Resource PackServer.

Lemma handleRequest_Addr s urlPath writeErr :
  Addr (handleRequest s urlPath writeErr).1.1 = Addr s.
Proof.
  unfold handleRequest.
  repeat match goal with
         | |- context [if ?b then _ else _] => destruct b
         | |- context [match ?x with _ => _ end] => destruct x
         end; reflexivity.
Qed.

Lemma step_Addr st op st' :
  step st op = Returns st' -> Addr (srv st') = Addr (srv st).
Proof.
  destruct op as [g | bindErr serveErr | urlPath writeErr | ps | closeErr];
    cbn [step].
  - destruct (WaitForReady (srv st)); intros [= <-]; reflexivity.
  - unfold Start. destruct bindErr as [e|]; [|destruct (ready (srv st))]; cbn;
      intros H; try discriminate; injection H as <-; reflexivity.
  - pose proof (handleRequest_Addr (srv st) urlPath writeErr) as Ha.
    destruct (handleRequest (srv st) urlPath writeErr) as [[s1 evs] resp].
    intros [= <-]. exact Ha.
  - intros [= <-]. reflexivity.
  - intros [= <-]. reflexivity.
Qed.

(** No operation changes the address the server listens on. *)
Lemma run_Addr ops : forall st st',
  run st ops = Returns st' -> Addr (srv st') = Addr (srv st).
Proof.
  induction ops as [|op ops IH]; intros st st' Hrun.
  - cbn in Hrun. injection Hrun as <-. reflexivity.
  - cbn [run] in Hrun. destruct (step st op) as [st1|m] eqn:Hs; [|discriminate].
    rewrite (IH st1 st' Hrun). exact (step_Addr st op st1 Hs).
Qed.

End GateAddr.

(** C10, as stated, fails: the waiters around a failed [Start] do not
    block forever.  Goroutine 1 waits, a first [Start] fails to bind
    and signals nothing, goroutine 2 waits; a second [Start] binds and
    releases both. *)
Lemma C10_later_bind_counterexample :
  PackServer.Start (PackServer.mkServer ∅ ∅ ":8080" PackServer.ChanOpen)
                   (Some "bind: address already in use") "http: Server closed"
  = (PackServer.mkServer ∅ ∅ ":8080" PackServer.ChanOpen,
     [EvLog LevelInfo "Starting resource pack HTTP server" [("address", ":8080")];
      EvListen ":8080" false],
     Returns "bind: address already in use")
  /\ PackServer.run
       (PackServer.boot (PackServer.mkServer ∅ ∅ ":8080" PackServer.ChanOpen))
       [PackServer.OpWait 1;
        PackServer.OpStart (Some "bind: address already in use") "http: Server closed";
        PackServer.OpWait 2]
     = Returns
         (PackServer.mkSys (PackServer.mkServer ∅ ∅ ":8080" PackServer.ChanOpen)
            [1; 2]%nat []
            [EvLog LevelInfo "Starting resource pack HTTP server"
                   [("address", ":8080")];
             EvListen ":8080" false])
  /\ PackServer.run
       (PackServer.boot (PackServer.mkServer ∅ ∅ ":8080" PackServer.ChanOpen))
       [PackServer.OpWait 1;
        PackServer.OpStart (Some "bind: address already in use") "http: Server closed";
        PackServer.OpWait 2;
        PackServer.OpStart None "http: Server closed"]
     = Returns
         (PackServer.mkSys (PackServer.mkServer ∅ ∅ ":8080" PackServer.ChanClosed)
            [] [1; 2]%nat
            [EvLog LevelInfo "Starting resource pack HTTP server"
                   [("address", ":8080")];
             EvListen ":8080" false;
             EvLog LevelInfo "Starting resource pack HTTP server"
                   [("address", ":8080")];
             EvListen ":8080" true; EvCloseReady; EvServe]).
Proof.
  repeat split.
Qed.

(** C10, amended — readiness after a failed bind.  On a server whose
    readiness channel is still open, a [Start] that fails to bind
    returns the bind error, leaves the server as it was and records no
    signal.  The goroutines parked in [WaitForReady] before it stay
    parked, and through every further run of operations in which no
    [Start] binds (waits, failing starts, requests, pack updates,
    close) nobody passes the gate, every new caller of [WaitForReady]
    is parked as well, and no signal is recorded; the first [Start]
    that binds after such a run releases all of them, and later waits
    return at once.  In [main], which starts the server once, a failed
    bind leaves the main goroutine parked in [WaitForReady] without any
    signal. *)
Theorem C10_failed_bind_never_signals :
  forall (s : PackServer.ResourcePackServer) (before : list nat)
         (e serveErr : string),
    PackServer.ready s = PackServer.ChanOpen ->
    PackServer.Start s (Some e) serveErr
    = (s, [EvLog LevelInfo "Starting resource pack HTTP server"
                 [("address", PackServer.Addr s)];
           EvListen (PackServer.Addr s) false],
       Returns e)
    /\ (exists st1 st2,
         PackServer.run (PackServer.boot s) (List.map PackServer.OpWait before)
         = Returns st1
         /\ PackServer.step st1 (PackServer.OpStart (Some e) serveErr) = Returns st2
         /\ PackServer.blocked st2 = before /\ PackServer.passed st2 = []
         /\ ~ In EvCloseReady (PackServer.trace st2)
         /\ forall ops,
              List.forallb (fun op => negb (PackServer.binds op)) ops = true ->
              exists st3,
                PackServer.run st2 ops = Returns st3
                /\ PackServer.passed st3 = []
                /\ PackServer.blocked st3 = before ++ PackServer.waitersOf ops
                /\ PackServer.WaitForReady (PackServer.srv st3) = PackServer.Blocks
                /\ ~ In EvCloseReady (PackServer.trace st3)
                /\ exists st4,
                     PackServer.step st3 (PackServer.OpStart None serveErr)
                     = Returns st4
                     /\ PackServer.blocked st4 = []
                     /\ PackServer.passed st4 = before ++ PackServer.waitersOf ops
                     /\ PackServer.WaitForReady (PackServer.srv st4)
                        = PackServer.Proceeds
                     /\ PackServer.trace st4
                        = PackServer.trace st3
                            ++ [EvLog LevelInfo "Starting resource pack HTTP server"
                                      [("address", PackServer.Addr s)];
                                EvListen (PackServer.Addr s) true;
                                EvCloseReady; EvServe])
    /\ (forall env conf evs1 ps wd,
          Main.readConfig env = Ok conf ->
          Main.lobbyAddress conf <> EmptyString ->
          Main.parse ∅ (Main.disk env) = (evs1, Ok ps) ->
          ps <> [] ->
          Main.Enabled (Main.Cdn conf) = true ->
          Main.getwd (Main.disk env) = Ok wd ->
          Main.bindErr env = Some e ->
          (Main.main env).2 = Main.StartupBlocked
          /\ ~ In EvCloseReady (Main.main env).1).
Proof.
  intros s before e serveErr Hopen.
  split; [reflexivity|].
  split; [|intros env conf evs1 ps wd H1 H2 H3 H4 H5 H6 H7;
           destruct (main_blocks_on_bind_failure env conf evs1 ps wd e
                       H1 H2 H3 H4 H5 H6 H7) as (Ha & Hb & _);
           split; assumption].
  eexists _, _.
  split. { apply run_waits_open. exact Hopen. }
  split; [reflexivity|]. simpl.
  split; [reflexivity|]. split; [reflexivity|].
  split; [intuition discriminate|].
  intros ops Hnb.
  match goal with
  | |- exists st3, PackServer.run ?st ops = _ /\ _ =>
      destruct (run_without_bind ops st) as (st3 & Hr & Ho & Hp & Hb & Ht)
  end; simpl; auto; [intuition discriminate|].
  pose proof (run_Addr _ _ _ Hr) as Ha. cbn in Ha, Hp, Hb.
  exists st3. split; [exact Hr|]. split; [exact Hp|]. split; [exact Hb|].
  split; [unfold PackServer.WaitForReady; rewrite Ho; reflexivity|].
  split; [exact Ht|].
  cbn [PackServer.step]. unfold PackServer.Start. rewrite Ho, Ha.
  eexists. split; [reflexivity|]. cbn. rewrite Hp, Hb. auto.
Qed.

Lemma C10_failed_bind_witness :
  PackServer.ready (PackServer.mkServer ∅ ∅ ":8080" PackServer.ChanOpen)
  = PackServer.ChanOpen
  /\ PackServer.Start (PackServer.mkServer ∅ ∅ ":8080" PackServer.ChanOpen)
                      (Some "bind: address already in use") "http: Server closed"
     = (PackServer.mkServer ∅ ∅ ":8080" PackServer.ChanOpen,
        [EvLog LevelInfo "Starting resource pack HTTP server" [("address", ":8080")];
         EvListen ":8080" false],
        Returns "bind: address already in use").
Proof.
  split; [reflexivity|].
  exact (proj1 (C10_failed_bind_never_signals
                  (PackServer.mkServer ∅ ∅ ":8080" PackServer.ChanOpen)
                  [1; 2]%nat "bind: address already in use" "http: Server closed"
                  eq_refl)).
Defined.

(** * Further properties of the code *)

(** ** Stripping blanks *)

Section BlankFacts.
Import Blanks.

Lemma string_app_cons (a : ascii) (s t : string) :
  String a s +:+ t = String a (s +:+ t).
Proof. reflexivity. Qed.

Lemma string_app_nil_l (t : string) : EmptyString +:+ t = t.
Proof. reflexivity. Qed.

Lemma string_app_nil_r (s : string) : s +:+ EmptyString = s.
Proof.
  induction s as [|a s IH]; [reflexivity|]. rewrite string_app_cons, IH. reflexivity.
Qed.

Lemma string_app_assoc (a b c : string) : (a +:+ b) +:+ c = a +:+ (b +:+ c).
Proof.
  induction a as [|x a IH]; [reflexivity|]. rewrite !string_app_cons, IH. reflexivity.
Qed.

Lemma rev_app_spec (s t : string) : String.rev_app s t = String.rev s +:+ t.
Proof.
  unfold String.rev. revert t.
  induction s as [|a s IH]; intros t; [reflexivity|].
  cbn [String.rev_app].
  rewrite (IH (String a t)), (IH (String a EmptyString)), string_app_assoc.
  reflexivity.
Qed.

Lemma rev_cons (a : ascii) (s : string) :
  String.rev (String a s) = String.rev s +:+ String a EmptyString.
Proof. unfold String.rev at 1. cbn [String.rev_app]. apply rev_app_spec. Qed.

Lemma rev_app (s t : string) : String.rev (s +:+ t) = String.rev t +:+ String.rev s.
Proof.
  induction s as [|a s IH].
  - rewrite string_app_nil_l, string_app_nil_r. reflexivity.
  - rewrite string_app_cons, !rev_cons, IH, string_app_assoc. reflexivity.
Qed.

Lemma rev_involutive (s : string) : String.rev (String.rev s) = s.
Proof.
  induction s as [|a s IH]; [reflexivity|].
  rewrite rev_cons, rev_app, IH. reflexivity.
Qed.

Lemma rev_eq_nil (s : string) : String.rev s = EmptyString -> s = EmptyString.
Proof.
  intros H. rewrite <- (rev_involutive s), H. reflexivity.
Qed.

(** A string without a leading blank is left alone. *)
Lemma TrimLeftSpace_fixed s : startsWithSpace s = false -> TrimLeftSpace s = s.
Proof.
  destruct s as [|a [|b [|c s3]]]; simpl; try reflexivity.
  - destruct (isSpace1 a); [discriminate | reflexivity].
  - destruct (isSpace1 a); [discriminate|]. simpl.
    destruct (isSpace2 a b); [discriminate | reflexivity].
  - destruct (isSpace1 a); [discriminate|]. simpl.
    destruct (isSpace2 a b); [discriminate|]. simpl.
    intros ->. reflexivity.
Qed.

Lemma trimLeftSpaceRev_fixed r : startsWithSpaceRev r = false -> trimLeftSpaceRev r = r.
Proof.
  destruct r as [|c [|b [|a r3]]]; simpl; try reflexivity.
  - destruct (isSpace1 c); [discriminate | reflexivity].
  - destruct (isSpace1 c); [discriminate|]. simpl.
    destruct (isSpace2 b c); [discriminate | reflexivity].
  - destruct (isSpace1 c); [discriminate|]. simpl.
    destruct (isSpace2 b c); [discriminate|]. simpl.
    intros ->. reflexivity.
Qed.

(** What [TrimLeftSpace] returns is a tail of its argument and does not
    begin with a blank. *)
Lemma TrimLeftSpace_spec_len n : forall s,
  (String.length s <= n)%nat ->
  startsWithSpace (TrimLeftSpace s) = false
  /\ exists p, s = p +:+ TrimLeftSpace s.
Proof.
  induction n as [|n IH]; intros s Hlen.
  - destruct s; [|simpl in Hlen; lia]. split; [reflexivity | exists EmptyString; reflexivity].
  - destruct s as [|a s1]; [split; [reflexivity | exists EmptyString; reflexivity]|].
    simpl in Hlen.
    assert (H1 : (String.length s1 <= n)%nat) by lia.
    cbn [TrimLeftSpace].
    destruct (isSpace1 a) eqn:Ha.
    { destruct (IH s1 H1) as [Hs [p Hp]]. split; [exact Hs|].
      exists (String a p). rewrite !string_app_cons, <- Hp. reflexivity. }
    destruct s1 as [|b s2].
    { split; [simpl; rewrite Ha; reflexivity | exists EmptyString; reflexivity]. }
    simpl in H1.
    destruct (isSpace2 a b) eqn:Hab.
    { destruct (IH s2) as [Hs [p Hp]]; [lia|]. split; [exact Hs|].
      exists (String a (String b p)). rewrite !string_app_cons, <- Hp. reflexivity. }
    destruct s2 as [|c s3].
    { split; [simpl; rewrite Ha, Hab; reflexivity | exists EmptyString; reflexivity]. }
    simpl in H1.
    destruct (isSpace3 a b c) eqn:Habc.
    { destruct (IH s3) as [Hs [p Hp]]; [lia|]. split; [exact Hs|].
      exists (String a (String b (String c p))). rewrite !string_app_cons, <- Hp. reflexivity. }
    split; [simpl; rewrite Ha, Hab, Habc; reflexivity | exists EmptyString; reflexivity].
Qed.

Lemma TrimLeftSpace_spec s :
  startsWithSpace (TrimLeftSpace s) = false
  /\ exists p, s = p +:+ TrimLeftSpace s.
Proof. apply (TrimLeftSpace_spec_len (String.length s)). lia. Qed.

Lemma trimLeftSpaceRev_spec_len n : forall r,
  (String.length r <= n)%nat ->
  startsWithSpaceRev (trimLeftSpaceRev r) = false
  /\ exists p, r = p +:+ trimLeftSpaceRev r.
Proof.
  induction n as [|n IH]; intros r Hlen.
  - destruct r; [|simpl in Hlen; lia]. split; [reflexivity | exists EmptyString; reflexivity].
  - destruct r as [|c r1]; [split; [reflexivity | exists EmptyString; reflexivity]|].
    simpl in Hlen.
    assert (H1 : (String.length r1 <= n)%nat) by lia.
    cbn [trimLeftSpaceRev].
    destruct (isSpace1 c) eqn:Hc.
    { destruct (IH r1 H1) as [Hs [p Hp]]. split; [exact Hs|].
      exists (String c p). rewrite !string_app_cons, <- Hp. reflexivity. }
    destruct r1 as [|b r2].
    { split; [simpl; rewrite Hc; reflexivity | exists EmptyString; reflexivity]. }
    simpl in H1.
    destruct (isSpace2 b c) eqn:Hbc.
    { destruct (IH r2) as [Hs [p Hp]]; [lia|]. split; [exact Hs|].
      exists (String c (String b p)). rewrite !string_app_cons, <- Hp. reflexivity. }
    destruct r2 as [|a r3].
    { split; [simpl; rewrite Hc, Hbc; reflexivity | exists EmptyString; reflexivity]. }
    simpl in H1.
    destruct (isSpace3 a b c) eqn:Habc.
    { destruct (IH r3) as [Hs [p Hp]]; [lia|]. split; [exact Hs|].
      exists (String c (String b (String a p))). rewrite !string_app_cons, <- Hp. reflexivity. }
    split; [simpl; rewrite Hc, Hbc, Habc; reflexivity | exists EmptyString; reflexivity].
Qed.

Lemma trimLeftSpaceRev_spec r :
  startsWithSpaceRev (trimLeftSpaceRev r) = false
  /\ exists p, r = p +:+ trimLeftSpaceRev r.
Proof. apply (trimLeftSpaceRev_spec_len (String.length r)). lia. Qed.

(** What [TrimRightSpace] returns is a head of its argument. *)
Lemma TrimRightSpace_prefix s : exists q, s = TrimRightSpace s +:+ q.
Proof.
  unfold TrimRightSpace.
  destruct (trimLeftSpaceRev_spec (String.rev s)) as [_ [p Hp]].
  exists (String.rev p).
  rewrite <- rev_app, <- Hp, rev_involutive. reflexivity.
Qed.

Lemma TrimRightSpace_idem s : TrimRightSpace (TrimRightSpace s) = TrimRightSpace s.
Proof.
  unfold TrimRightSpace. rewrite rev_involutive.
  rewrite trimLeftSpaceRev_fixed; [reflexivity|].
  apply trimLeftSpaceRev_spec.
Qed.

(** A head of a string that does not begin with a blank does not begin
    with one either. *)
Lemma startsWithSpace_app p q :
  startsWithSpace p = true -> startsWithSpace (p +:+ q) = true.
Proof.
  destruct p as [|a [|b [|c p3]]]; rewrite ?string_app_cons; simpl; try discriminate.
  - rewrite orb_false_r. intros ->. reflexivity.
  - destruct (isSpace1 a); [reflexivity|]. simpl. rewrite orb_false_r.
    intros ->. reflexivity.
  - intros H. exact H.
Qed.

(** The result of [TrimSpace] has no leading blank left. *)
Lemma TrimLeftSpace_TrimSpace s : TrimLeftSpace (TrimSpace s) = TrimSpace s.
Proof.
  apply TrimLeftSpace_fixed. unfold TrimSpace.
  destruct (TrimLeftSpace_spec s) as [Hx _].
  destruct (TrimRightSpace_prefix (TrimLeftSpace s)) as [q Hq].
  destruct (startsWithSpace (TrimRightSpace (TrimLeftSpace s))) eqn:E; [|reflexivity].
  apply (startsWithSpace_app _ q) in E. rewrite <- Hq in E. congruence.
Qed.

Lemma TrimSpace_idem s : TrimSpace (TrimSpace s) = TrimSpace s.
Proof.
  unfold TrimSpace at 1. rewrite TrimLeftSpace_TrimSpace.
  unfold TrimSpace. apply TrimRightSpace_idem.
Qed.

Lemma fields_go_some r s : fields_go (Some r) s <> [].
Proof.
  revert r. induction s as [|a s1 IH]; intros r; [discriminate|].
  cbn [fields_go flush push].
  destruct (isSpace1 a); [discriminate|].
  destruct s1 as [|b s2]; [apply IH|].
  destruct (isSpace2 a b); [discriminate|].
  destruct s2 as [|c s3]; [apply IH|].
  destruct (isSpace3 a b c); [discriminate | apply IH].
Qed.

(** A line has no field exactly when it is made of blanks. *)
Lemma Fields_nil_len n : forall s,
  (String.length s <= n)%nat ->
  (Fields s = [] <-> TrimLeftSpace s = EmptyString).
Proof.
  unfold Fields.
  induction n as [|n IH]; intros s Hlen.
  - destruct s; [|simpl in Hlen; lia]. split; reflexivity.
  - destruct s as [|a s1]; [split; reflexivity|]. simpl in Hlen.
    cbn [fields_go TrimLeftSpace flush push].
    destruct (isSpace1 a); [apply IH; lia|].
    destruct s1 as [|b s2].
    { split; [intros H; exfalso; revert H; apply fields_go_some | discriminate]. }
    simpl in Hlen.
    destruct (isSpace2 a b); [apply IH; lia|].
    destruct s2 as [|c s3].
    { split; [intros H; exfalso; revert H; apply fields_go_some | discriminate]. }
    simpl in Hlen.
    destruct (isSpace3 a b c); [apply IH; lia|].
    split; [intros H; exfalso; revert H; apply fields_go_some | discriminate].
Qed.

Lemma Fields_nil s : Fields s = [] <-> TrimLeftSpace s = EmptyString.
Proof. apply (Fields_nil_len (String.length s)). lia. Qed.

Lemma Fields_TrimSpace_nonempty s :
  TrimSpace s <> EmptyString -> Fields (TrimSpace s) <> [].
Proof.
  intros Hne H. apply Fields_nil in H. rewrite TrimLeftSpace_TrimSpace in H. congruence.
Qed.

End BlankFacts.

(** ** More on the history store *)

Section HistoryMore.
Import History HistoryDisk.

Lemma Forall_skipn {A} (P : A -> Prop) k (l : list A) :
  Forall P l -> Forall P (List.skipn k l).
Proof.
  revert l. induction k as [|k IH]; intros l H; [exact H|].
  destruct l as [|x l]; [constructor|]. simpl. apply IH.
  inversion H; assumption.
Qed.

Lemma TrimSpace_isCommand cmd :
  TrimSpace cmd <> EmptyString -> isCommand (TrimSpace cmd).
Proof. intros H. split; [apply TrimSpace_idem | exact H]. Qed.

Lemma Append_commands h cmd io :
  (0 <= maxSize h)%Z -> Forall isCommand (history h) ->
  exists h' evs err,
    Append h cmd io = Returns (h', evs, err)
    /\ maxSize h' = maxSize h /\ Forall isCommand (history h').
Proof.
  intros HN Hall.
  destruct (Append_spec h cmd io HN) as (h' & evs & err & HA & HM & _ & HH).
  exists h', evs, err. split; [exact HA|]. split; [exact HM|]. rewrite HH.
  destruct (String.eqb (TrimSpace cmd) EmptyString) eqn:He; [exact Hall|].
  case_bool_decide; [exact Hall|].
  apply Forall_skipn, Forall_app. split; [exact Hall|].
  constructor; [|constructor]. apply TrimSpace_isCommand.
  apply String.eqb_neq. exact He.
Qed.

End HistoryMore.

(** X1 — the history holds commands only.  On a store with a bound
    that is not negative and whose entries are stripped and not empty
    (a fresh store, or one just loaded), every run of [Append] calls
    returns and leaves a store whose entries are stripped and not
    empty, whatever lines are appended and whatever I/O errors are
    met. *)
Theorem X1_history_entries_stay_stripped :
  forall (h : History.HistoryFile) (cmds : list (string * option string)),
    (0 <= History.maxSize h)%Z ->
    Forall History.isCommand (History.history h) ->
    exists h',
      History.AppendAll h cmds = Returns h'
      /\ History.maxSize h' = History.maxSize h
      /\ Forall History.isCommand (History.history h').
Proof.
  intros h cmds. revert h.
  induction cmds as [|[c io] cmds IH]; intros h HN Hall.
  - exists h. repeat split. exact Hall.
  - destruct (Append_commands h c io HN Hall) as (h1 & evs & err & HA & HM & H1).
    destruct (IH h1) as (h' & HR & HM' & H'); [lia | exact H1 |].
    exists h'. simpl. rewrite HA. split; [exact HR|]. split; [lia | exact H'].
Qed.

Lemma X1_history_entries_witness :
  (0 <= History.maxSize (History.empty "command_history.txt" 3))%Z
  /\ Forall History.isCommand (History.history (History.empty "command_history.txt" 3))
  /\ exists h',
       History.AppendAll (History.empty "command_history.txt" 3)
         [("  players ", None); ("   ", None); ("info", Some "disk full")]
       = Returns h'
       /\ Forall History.isCommand (History.history h').
Proof.
  assert (H0 : (0 <= History.maxSize (History.empty "command_history.txt" 3))%Z)
    by (simpl; lia).
  assert (H1 : Forall History.isCommand
                 (History.history (History.empty "command_history.txt" 3)))
    by constructor.
  split; [exact H0|]. split; [exact H1|].
  destruct (X1_history_entries_stay_stripped (History.empty "command_history.txt" 3)
              [("  players ", None); ("   ", None); ("info", Some "disk full")] H0 H1)
    as (h' & HR & _ & HC).
  exists h'. split; [exact HR | exact HC].
Defined.

(** X2 — loading.  When the file cannot be opened, [Load] returns the
    error and leaves the store alone.  Otherwise, on a bound that is
    not negative, it replaces the history by the last [maxSize] of the
    stripped non-blank lines: at most [maxSize] entries, each stripped
    and not empty, whatever the store held before; the scanner's error
    is handed on.  Lines that already are commands and fit the bound
    load unchanged. *)
Theorem X2_load_keeps_last_commands :
  forall (h : History.HistoryFile),
    (0 <= History.maxSize h)%Z ->
    (forall e, History.Load h (inl e) = Returns (h, Some e))
    /\ (forall scanned scanErr,
          exists h',
            History.Load h (inr (scanned, scanErr)) = Returns (h', scanErr)
            /\ History.filePath h' = History.filePath h
            /\ History.maxSize h' = History.maxSize h
            /\ History.history h'
               = History.keepLast (History.maxSize h)
                   (List.filter (fun l => negb (String.eqb l EmptyString))
                                (List.map TrimSpace scanned))
            /\ (Z.of_nat (length (History.history h')) <= History.maxSize h)%Z
            /\ Forall History.isCommand (History.history h'))
    /\ (forall lines scanErr,
          Forall History.isCommand lines ->
          (Z.of_nat (length lines) <= History.maxSize h)%Z ->
          History.Load h (inr (lines, scanErr))
          = Returns (History.mkHistoryFile (History.filePath h) (History.maxSize h)
                                           lines, scanErr)).
Proof.
  intros h HN.
  assert (Hgen : forall scanned scanErr,
            History.Load h (inr (scanned, scanErr))
            = Returns (History.mkHistoryFile (History.filePath h) (History.maxSize h)
                         (History.keepLast (History.maxSize h)
                            (List.filter (fun l => negb (String.eqb l EmptyString))
                                         (List.map TrimSpace scanned))),
                       scanErr)).
  { intros scanned scanErr. unfold History.Load, History.sliceFrom, History.keepLast.
    set (lines := List.filter _ _).
    destruct (Z.of_nat (length lines) >? History.maxSize h)%Z eqn:Hgt.
    - rewrite (proj2 (andb_true_iff _ _)) by (split; apply Z.leb_le; lia).
      reflexivity.
    - replace (Z.to_nat (Z.of_nat (length lines) - History.maxSize h)) with 0%nat by lia.
      reflexivity. }
  assert (Hcmd : forall scanned,
            Forall History.isCommand
              (List.filter (fun l => negb (String.eqb l EmptyString))
                           (List.map TrimSpace scanned))).
  { intros scanned. apply List.Forall_forall. intros x Hx.
    apply List.filter_In in Hx as [Hin Hne].
    apply List.in_map_iff in Hin as (y & <- & _).
    apply TrimSpace_isCommand. apply String.eqb_neq.
    destruct (String.eqb (TrimSpace y) EmptyString); [discriminate | reflexivity]. }
  split; [reflexivity|]. split.
  - intros scanned scanErr. eexists. split; [apply Hgen|]. cbn.
    repeat split.
    + apply keepLast_length. exact HN.
    + apply Forall_skipn. apply Hcmd.
  - intros lines scanErr Hall Hlen. rewrite Hgen.
    assert (Hid : List.filter (fun l => negb (String.eqb l EmptyString))
                              (List.map TrimSpace lines) = lines).
    { clear Hlen. induction Hall as [|x l [Ht Hne] _ IH]; [reflexivity|].
      simpl. rewrite Ht, (proj2 (String.eqb_neq _ _) Hne). simpl.
      rewrite IH. reflexivity. }
    rewrite Hid, keepLast_fits by exact Hlen. reflexivity.
Qed.

Lemma X2_load_witness :
  (0 <= History.maxSize (History.mkHistoryFile "command_history.txt" 2 ["stale"]))%Z
  /\ Forall History.isCommand ["players"; "info"]
  /\ (Z.of_nat (length ["players"; "info"])
      <= History.maxSize (History.mkHistoryFile "command_history.txt" 2 ["stale"]))%Z
  /\ History.Load (History.mkHistoryFile "command_history.txt" 2 ["stale"])
                  (inr (["players"; "info"], None))
     = Returns (History.mkHistoryFile "command_history.txt" 2 ["players"; "info"], None).
Proof.
  assert (H0 : (0 <= History.maxSize
                      (History.mkHistoryFile "command_history.txt" 2 ["stale"]))%Z)
    by (simpl; lia).
  assert (H1 : Forall History.isCommand ["players"; "info"]).
  { repeat (constructor; [split; [reflexivity | discriminate]|]). constructor. }
  assert (H2 : (Z.of_nat (length ["players"; "info"])
                <= History.maxSize
                     (History.mkHistoryFile "command_history.txt" 2 ["stale"]))%Z)
    by (simpl; lia).
  split; [exact H0|]. split; [exact H1|]. split; [exact H2|].
  exact (proj2 (proj2 (X2_load_keeps_last_commands
                         (History.mkHistoryFile "command_history.txt" 2 ["stale"]) H0))
               ["players"; "info"] None H1 H2).
Defined.

(** X3 — a negative bound.  With [maxSize] below zero, [Load] of any
    file that opens panics on its slice, and so does [Append] of any
    line that is neither blank nor a repeat of the last entry; blank
    lines and repeats still return without touching anything. *)
Theorem X3_negative_bound_panics :
  forall (h : History.HistoryFile),
    (History.maxSize h < 0)%Z ->
    (forall scanned scanErr,
        History.Load h (inr (scanned, scanErr)) = Panics "slice bounds out of range")
    /\ (forall cmd io,
          TrimSpace cmd <> EmptyString ->
          History.lastEntry (History.history h) <> Some (TrimSpace cmd) ->
          History.Append h cmd io = Panics "slice bounds out of range")
    /\ (forall cmd io,
          TrimSpace cmd = EmptyString
          \/ History.lastEntry (History.history h) = Some (TrimSpace cmd) ->
          History.Append h cmd io = Returns (h, [], None)).
Proof.
  intros h HN. split; [|split].
  - intros scanned scanErr. unfold History.Load, History.sliceFrom.
    set (lines := List.filter _ _).
    rewrite (proj2 (Z.gtb_lt _ _)) by lia.
    rewrite (proj2 (andb_false_iff _ _)); [reflexivity|].
    right. apply Z.leb_gt. lia.
  - intros cmd io Hne Hlast. unfold History.Append, History.sliceFrom.
    fold (History.lastEntry (History.history h)).
    rewrite (proj2 (String.eqb_neq _ _) Hne).
    assert (Hdup : match History.lastEntry (History.history h) with
                   | Some l => String.eqb l (TrimSpace cmd)
                   | None => false
                   end = false).
    { destruct (History.lastEntry (History.history h)) as [l|]; [|reflexivity].
      apply String.eqb_neq. congruence. }
    rewrite Hdup.
    rewrite (proj2 (Z.gtb_lt _ _)) by lia.
    rewrite (proj2 (andb_false_iff _ _)); [reflexivity|].
    right. apply Z.leb_gt. lia.
  - intros cmd io [He | Hl]; unfold History.Append;
      fold (History.lastEntry (History.history h)).
    + rewrite He. reflexivity.
    + rewrite Hl, String.eqb_refl.
      destruct (String.eqb (TrimSpace cmd) EmptyString); reflexivity.
Qed.

Lemma X3_negative_bound_witness :
  (History.maxSize (History.mkHistoryFile "command_history.txt" (-1) []) < 0)%Z
  /\ History.Load (History.mkHistoryFile "command_history.txt" (-1) []) (inr ([], None))
     = Panics "slice bounds out of range".
Proof.
  assert (H0 : (History.maxSize (History.mkHistoryFile "command_history.txt" (-1) [])
                < 0)%Z) by (simpl; lia).
  split; [exact H0|].
  exact (proj1 (X3_negative_bound_panics
                  (History.mkHistoryFile "command_history.txt" (-1) []) H0) [] None).
Defined.

Section HistoryDiskFacts.
Import History HistoryDisk.

Lemma fileAfter_app path a : forall b old,
  fileAfter path (a ++ b) old = fileAfter path b (fileAfter path a old).
Proof.
  induction a as [|ev a IH]; intros b old; [reflexivity|].
  destruct ev; simpl; apply IH.
Qed.


End HistoryDiskFacts.



(** ** More on the completer *)

Section CompleterFacts.
Import Prompt Completer.

(** No separator in the text: one piece. *)
Lemma Split_no_sep s c : afterLastIndexByte s c = 0%nat -> Split s c = [s].
Proof.
  induction s as [|a s IH]; [reflexivity|]. cbn [afterLastIndexByte Split].
  destruct (afterLastIndexByte s c) as [|k]; [|discriminate].
  destruct (Ascii.eqb a c); [discriminate|]. intros _. rewrite IH; reflexivity.
Qed.

Lemma last_cons_ne {A} (x : A) l d : l <> [] -> List.last (x :: l) d = List.last l d.
Proof. destruct l; [congruence | reflexivity]. Qed.

(** The word before the cursor is the last piece of the split. *)
Lemma word_is_last_piece s c :
  dropBytes (afterLastIndexByte s c) s = List.last (Split s c) EmptyString.
Proof.
  induction s as [|a s IH]; [reflexivity|]. cbn [afterLastIndexByte Split].
  destruct (afterLastIndexByte s c) as [|k] eqn:Hk.
  - pose proof (Split_no_sep s c Hk) as Hs. rewrite Hs.
    destruct (Ascii.eqb a c); reflexivity.
  - change (dropBytes (S (S k)) (String a s)) with (dropBytes (S k) s). rewrite IH.
    destruct (Ascii.eqb a c).
    + rewrite last_cons_ne by apply Split_not_nil. reflexivity.
    + destruct (Split s c) as [|x xs] eqn:Hs; [exfalso; eapply Split_not_nil; eauto|].
      destruct xs as [|y xs]; [|reflexivity].
      exfalso.
      destruct (Split_single s c) as [_ H0]; [rewrite Hs; simpl; lia|]. congruence.
Qed.

Lemma GetWordBeforeCursor_last doc :
  GetWordBeforeCursor doc = List.last (Split (TextBeforeCursor doc) " ") EmptyString.
Proof. apply word_is_last_piece. Qed.

Lemma FilterHasPrefix_In ToUpper l sub sug :
  sub <> EmptyString ->
  (In sug (FilterHasPrefix ToUpper l sub true)
   <-> In sug l /\ HasPrefix (ToUpper (Text sug)) (ToUpper sub) = true).
Proof.
  intros Hne. unfold FilterHasPrefix.
  rewrite (proj2 (String.eqb_neq _ _) Hne). apply List.filter_In.
Qed.

End CompleterFacts.

(** X5 — candidates match the word.  Whatever the text, the sessions
    and the servers, every candidate that [Complete] returns has a name
    whose upper-cased form starts with the upper-cased word before the
    cursor; that word is then not empty and the span returned covers
    exactly its runes, ending at the cursor. *)
Theorem X5_complete_candidates_match_word :
  forall (ToUpper : string -> string) (sessions : list Engine.Session)
         (serverMap : gmap string string) (doc : Prompt.Document)
         (sug : Prompt.Suggest),
    In sug (Completer.Complete ToUpper sessions serverMap doc).1.1 ->
    Prompt.GetWordBeforeCursor doc <> EmptyString
    /\ HasPrefix (ToUpper (Prompt.Text sug))
                 (ToUpper (Prompt.GetWordBeforeCursor doc)) = true
    /\ (Completer.Complete ToUpper sessions serverMap doc).1.2
       = (Prompt.CurrentRuneIndex doc
          - Z.of_nat (RuneCountInString (Prompt.GetWordBeforeCursor doc)))%Z
    /\ (Completer.Complete ToUpper sessions serverMap doc).2
       = Prompt.CurrentRuneIndex doc.
Proof.
  intros ToUpper sessions serverMap doc sug.
  unfold Completer.Complete.
  pose proof (GetWordBeforeCursor_last doc) as Hw.
  destruct (String.eqb (Prompt.GetWordBeforeCursor doc) EmptyString) eqn:He;
    [intros []|].
  apply String.eqb_neq in He.
  unfold Completer.completeCommand, Completer.completePlayerNames,
    Completer.completeServerNames.
  destruct (Split (Prompt.TextBeforeCursor doc) " ") as [|a0 [|a1 [|a2 [|a3 rest]]]];
    cbn [length Nat.leb Nat.eqb List.nth List.last] in *.
  - congruence.
  - intros Hin. rewrite <- Hw in Hin. cbn [fst snd] in *.
    apply FilterHasPrefix_In in Hin as [_ Hp]; [|exact He]. auto.
  - destruct (String.eqb a0 "transfer").
    + intros Hin. rewrite <- Hw in Hin. cbn [fst snd] in *.
      apply FilterHasPrefix_In in Hin as [_ Hp]; [|exact He]. auto.
    + destruct (String.eqb a0 "players"); [intros []|].
      destruct (String.eqb a0 "info"); intros [].
  - destruct (String.eqb a0 "transfer").
    + intros Hin. rewrite <- Hw in Hin. cbn [fst snd] in *.
      apply FilterHasPrefix_In in Hin as [_ Hp]; [|exact He]. auto.
    + destruct (String.eqb a0 "players"); [intros []|].
      destruct (String.eqb a0 "info"); intros [].
  - destruct (String.eqb a0 "transfer"); [intros []|].
    destruct (String.eqb a0 "players"); [intros []|].
    destruct (String.eqb a0 "info"); intros [].
Qed.

Lemma X5_complete_candidates_witness :
  In (Prompt.mkSuggest "Alice" "Connected player")
     (Completer.Complete asciiUpper [Samples.alice; Samples.bob] ∅
        (Prompt.mkDocument "transfer al" 11)).1.1
  /\ HasPrefix (asciiUpper "Alice")
       (asciiUpper (Prompt.GetWordBeforeCursor (Prompt.mkDocument "transfer al" 11)))
     = true.
Proof.
  assert (H : In (Prompt.mkSuggest "Alice" "Connected player")
                (Completer.Complete asciiUpper [Samples.alice; Samples.bob] ∅
                   (Prompt.mkDocument "transfer al" 11)).1.1)
    by (left; reflexivity).
  split; [exact H|].
  exact (proj1 (proj2 (X5_complete_candidates_match_word asciiUpper
                         [Samples.alice; Samples.bob] ∅
                         (Prompt.mkDocument "transfer al" 11) _ H))).
Defined.

(** X6 — player names.  When the text before the cursor splits at its
    blanks into exactly "transfer" and a word that is not empty, the
    candidates are the display names of the connected sessions, in
    registry order and one per session, whose upper-cased form starts
    with the upper-cased word, each described as "Connected player";
    the span covers the word. *)
Theorem X6_complete_player_names :
  forall (ToUpper : string -> string) (sessions : list Engine.Session)
         (serverMap : gmap string string) (doc : Prompt.Document) (w : string),
    Split (Prompt.TextBeforeCursor doc) " " = ["transfer"; w] ->
    w <> EmptyString ->
    Completer.Complete ToUpper sessions serverMap doc
    = (List.map (fun s => Prompt.mkSuggest (Engine.DisplayName s) "Connected player")
         (List.filter
            (fun s => HasPrefix (ToUpper (Engine.DisplayName s)) (ToUpper w))
            sessions),
       (Prompt.CurrentRuneIndex doc - Z.of_nat (RuneCountInString w))%Z,
       Prompt.CurrentRuneIndex doc).
Proof.
  intros ToUpper sessions serverMap doc w Hs Hne.
  unfold Completer.Complete.
  rewrite GetWordBeforeCursor_last, Hs. cbn [List.last].
  rewrite (proj2 (String.eqb_neq _ _) Hne). cbn.
  unfold Completer.completePlayerNames, Prompt.FilterHasPrefix.
  rewrite (proj2 (String.eqb_neq _ _) Hne).
  f_equal. f_equal.
  induction sessions as [|s l IH]; [reflexivity|].
  cbn [List.map List.filter Prompt.Text].
  destruct (HasPrefix (ToUpper (Engine.DisplayName s)) (ToUpper w));
    cbn [List.map]; rewrite IH; reflexivity.
Qed.

Lemma X6_complete_player_witness :
  Split (Prompt.TextBeforeCursor (Prompt.mkDocument "transfer b" 10)) " "
  = ["transfer"; "b"]
  /\ "b" <> EmptyString
  /\ Completer.Complete asciiUpper [Samples.alice; Samples.bob] ∅
       (Prompt.mkDocument "transfer b" 10)
     = ([Prompt.mkSuggest "Bob" "Connected player"], 9%Z, 10%Z).
Proof.
  assert (H1 : Split (Prompt.TextBeforeCursor (Prompt.mkDocument "transfer b" 10)) " "
               = ["transfer"; "b"]) by reflexivity.
  assert (H2 : "b" <> EmptyString) by discriminate.
  split; [exact H1|]. split; [exact H2|].
  exact (X6_complete_player_names asciiUpper [Samples.alice; Samples.bob] ∅
           (Prompt.mkDocument "transfer b" 10) "b" H1 H2).
Defined.

(** X7 — server names.  When the text before the cursor splits at its
    blanks into "transfer", any second piece and a word that is not
    empty, a suggestion is a candidate exactly when it names a
    configured server whose upper-cased name starts with the upper-cased
    word, described as "Available server"; no candidate occurs twice,
    and the span covers the word. *)
Theorem X7_complete_server_names :
  forall (ToUpper : string -> string) (sessions : list Engine.Session)
         (serverMap : gmap string string) (doc : Prompt.Document) (x w : string),
    Split (Prompt.TextBeforeCursor doc) " " = ["transfer"; x; w] ->
    w <> EmptyString ->
    (forall sug,
        In sug (Completer.Complete ToUpper sessions serverMap doc).1.1
        <-> exists name addr,
              serverMap !! name = Some addr
              /\ sug = Prompt.mkSuggest name "Available server"
              /\ HasPrefix (ToUpper name) (ToUpper w) = true)
    /\ List.NoDup (Completer.Complete ToUpper sessions serverMap doc).1.1
    /\ (Completer.Complete ToUpper sessions serverMap doc).1.2
       = (Prompt.CurrentRuneIndex doc - Z.of_nat (RuneCountInString w))%Z
    /\ (Completer.Complete ToUpper sessions serverMap doc).2
       = Prompt.CurrentRuneIndex doc.
Proof.
  intros ToUpper sessions serverMap doc x w Hs Hne.
  assert (E : Completer.Complete ToUpper sessions serverMap doc
              = (Completer.completeServerNames ToUpper serverMap w,
                 (Prompt.CurrentRuneIndex doc - Z.of_nat (RuneCountInString w))%Z,
                 Prompt.CurrentRuneIndex doc)).
  { unfold Completer.Complete.
    rewrite GetWordBeforeCursor_last, Hs. cbn [List.last].
    rewrite (proj2 (String.eqb_neq _ _) Hne). reflexivity. }
  rewrite E. cbn [fst snd]. split; [|split; [|split; reflexivity]].
  - intros sug. unfold Completer.completeServerNames.
    rewrite FilterHasPrefix_In by exact Hne. rewrite List.in_map_iff. split.
    + intros [([name addr] & <- & Hin) Hp].
      apply list_elem_of_In, elem_of_map_to_list in Hin.
      exists name, addr. auto.
    + intros (name & addr & Hl & -> & Hp). split; [|exact Hp].
      exists (name, addr). split; [reflexivity|].
      apply list_elem_of_In, elem_of_map_to_list. exact Hl.
  - unfold Completer.completeServerNames, Prompt.FilterHasPrefix.
    rewrite (proj2 (String.eqb_neq _ _) Hne).
    apply List.NoDup_filter.
    pose proof (NoDup_fst_map_to_list serverMap) as Hnd.
    apply NoDup_ListNoDup in Hnd.
    rewrite <- (List.map_map fst (fun n => Prompt.mkSuggest n "Available server")).
    apply Finite.Injective_map_NoDup; [|exact Hnd].
    intros a b [= ->]. reflexivity.
Qed.

Lemma X7_complete_server_witness :
  Split (Prompt.TextBeforeCursor (Prompt.mkDocument "transfer Alice is" 17)) " "
  = ["transfer"; "Alice"; "is"]
  /\ "is" <> EmptyString
  /\ List.NoDup (Completer.Complete asciiUpper [] (Main.serverMap Samples.console)
                   (Prompt.mkDocument "transfer Alice is" 17)).1.1.
Proof.
  assert (H1 : Split (Prompt.TextBeforeCursor
                        (Prompt.mkDocument "transfer Alice is" 17)) " "
               = ["transfer"; "Alice"; "is"]) by reflexivity.
  assert (H2 : "is" <> EmptyString) by discriminate.
  split; [exact H1|]. split; [exact H2|].
  exact (proj1 (proj2 (X7_complete_server_names asciiUpper []
                         (Main.serverMap Samples.console)
                         (Prompt.mkDocument "transfer Alice is" 17) "Alice" "is"
                         H1 H2))).
Defined.

(** X8 — where nothing is completed.  With two or more pieces before
    the cursor there is no candidate unless the first piece is exactly
    "transfer" and there are at most three pieces; in particular a text
    that begins with a blank is never completed, not even to a command
    name. *)
Theorem X8_complete_nothing_elsewhere :
  forall (ToUpper : string -> string) (sessions : list Engine.Session)
         (serverMap : gmap string string) (doc : Prompt.Document),
    ((2 <= length (Split (Prompt.TextBeforeCursor doc) " "))%nat ->
     List.nth 0 (Split (Prompt.TextBeforeCursor doc) " ") EmptyString <> "transfer"
     \/ (4 <= length (Split (Prompt.TextBeforeCursor doc) " "))%nat ->
     Completer.Complete ToUpper sessions serverMap doc = ([], 0%Z, 0%Z))
    /\ (forall t,
          Prompt.TextBeforeCursor doc = String " " t ->
          Completer.Complete ToUpper sessions serverMap doc = ([], 0%Z, 0%Z)).
Proof.
  intros ToUpper sessions serverMap doc.
  assert (H : (2 <= length (Split (Prompt.TextBeforeCursor doc) " "))%nat ->
              List.nth 0 (Split (Prompt.TextBeforeCursor doc) " ") EmptyString
              <> "transfer"
              \/ (4 <= length (Split (Prompt.TextBeforeCursor doc) " "))%nat ->
              Completer.Complete ToUpper sessions serverMap doc = ([], 0%Z, 0%Z)).
  { intros H2 H. unfold Completer.Complete.
    destruct (String.eqb (Prompt.GetWordBeforeCursor doc) EmptyString); [reflexivity|].
    destruct (Split (Prompt.TextBeforeCursor doc) " ") as [|a0 [|a1 [|a2 [|a3 rest]]]];
      cbn [length] in H2, H; try lia; cbn -[String.eqb].
    - destruct H as [H | H]; [|lia]. cbn in H.
      rewrite (proj2 (String.eqb_neq _ _) H).
      destruct (String.eqb a0 "players"); [reflexivity|].
      destruct (String.eqb a0 "info"); reflexivity.
    - destruct H as [H | H]; [|lia]. cbn in H.
      rewrite (proj2 (String.eqb_neq _ _) H).
      destruct (String.eqb a0 "players"); [reflexivity|].
      destruct (String.eqb a0 "info"); reflexivity.
    - destruct (String.eqb a0 "transfer"); [reflexivity|].
      destruct (String.eqb a0 "players"); [reflexivity|].
      destruct (String.eqb a0 "info"); reflexivity. }
  split; [exact H|].
  intros t Ht. apply H; rewrite Ht; cbn [Split]; rewrite Ascii.eqb_refl.
  - pose proof (Split_not_nil t " "). destruct (Split t " "); [congruence|].
    cbn [length]. lia.
  - left. cbn. discriminate.
Qed.

Lemma X8_complete_nothing_witness :
  Prompt.TextBeforeCursor (Prompt.mkDocument " tr" 3) = String " " "tr"
  /\ Completer.Complete asciiUpper [Samples.alice] ∅ (Prompt.mkDocument " tr" 3)
     = ([], 0%Z, 0%Z).
Proof.
  assert (H : Prompt.TextBeforeCursor (Prompt.mkDocument " tr" 3) = String " " "tr")
    by reflexivity.
  split; [exact H|].
  exact (proj2 (X8_complete_nothing_elsewhere asciiUpper [Samples.alice] ∅
                  (Prompt.mkDocument " tr" 3)) "tr" H).
Defined.

(** ** More on the resource pack server *)

Section ServerFacts.
Import Resource PackServer Serving.

Lemma cacheStep_fst st p :
  (cacheStep st p).1.1 = <[UUID p := p]> st.1.1
  /\ (cacheStep st p).1.2 = match ReadAt p with
                            | Ok c => <[UUID p := c]> st.1.2
                            | Err _ => st.1.2
                            end.
Proof.
  destruct st as [[pm cc] evs]. unfold cacheStep. destruct (ReadAt p); split; reflexivity.
Qed.

(** The pre-loading loop, for any list of packs: what is registered
    and cached afterwards comes from the accumulators or from [ps]. *)
Lemma fold_cacheStep_any ps : forall st,
  let r := List.fold_left cacheStep ps st in
  (forall id p, r.1.1 !! id = Some p ->
     (In p ps /\ UUID p = id) \/ st.1.1 !! id = Some p)
  /\ (forall id c, r.1.2 !! id = Some c ->
        (exists p, In p ps /\ UUID p = id /\ ReadAt p = Ok c) \/ st.1.2 !! id = Some c)
  /\ (forall id, In id (List.map UUID ps) -> is_Some (r.1.1 !! id))
  /\ (forall id, ~ In id (List.map UUID ps) ->
        r.1.1 !! id = st.1.1 !! id /\ r.1.2 !! id = st.1.2 !! id).
Proof.
  induction ps as [|q ps IH]; intros st.
  - cbn. repeat split; auto. intros id [].
  - cbn [List.fold_left].
    destruct (IH (cacheStep st q)) as (H1 & H2 & H3 & H4).
    destruct (cacheStep_fst st q) as [Hp Hc].
    cbn zeta. split; [|split; [|split]].
    + intros id p Hl. destruct (H1 id p Hl) as [[Hin Hid] | Hold].
      * left. split; [right; exact Hin | exact Hid].
      * rewrite Hp in Hold. destruct (decide (UUID q = id)) as [<- | Hne].
        -- rewrite lookup_insert_eq in Hold. injection Hold as <-.
           left. split; [left; reflexivity | reflexivity].
        -- rewrite lookup_insert_ne in Hold by exact Hne. right. exact Hold.
    + intros id c Hl. destruct (H2 id c Hl) as [(p & Hin & Hid & Hr) | Hold].
      * left. exists p. split; [right; exact Hin | auto].
      * rewrite Hc in Hold. destruct (ReadAt q) as [cq|e] eqn:Hq; [|right; exact Hold].
        destruct (decide (UUID q = id)) as [<- | Hne].
        -- rewrite lookup_insert_eq in Hold. injection Hold as <-.
           left. exists q. split; [left; reflexivity | auto].
        -- rewrite lookup_insert_ne in Hold by exact Hne. right. exact Hold.
    + intros id Hin.
      destruct (List.in_dec string_dec id (List.map UUID ps)) as [Hi | Hni].
      * apply H3. exact Hi.
      * destruct (H4 id Hni) as [E _]. rewrite E, Hp.
        destruct Hin as [<- | Hin]; [|contradiction].
        rewrite lookup_insert_eq. eauto.
    + intros id Hni.
      assert (Hne : UUID q <> id) by (intros E; apply Hni; left; exact E).
      destruct (H4 id) as [E1 E2]; [intros Hi; apply Hni; right; exact Hi|].
      rewrite E1, E2, Hp, Hc. rewrite lookup_insert_ne by exact Hne.
      destruct (ReadAt q); [rewrite lookup_insert_ne by exact Hne|]; split; reflexivity.
Qed.

(** The last pack with an identifier is the one registered. *)
Lemma fold_cacheStep_last pre p post : forall st,
  ~ In (UUID p) (List.map UUID post) ->
  (List.fold_left cacheStep (pre ++ p :: post) st).1.1 !! UUID p = Some p.
Proof.
  intros st Hni. rewrite List.fold_left_app. cbn [List.fold_left].
  destruct (fold_cacheStep_any post (cacheStep (List.fold_left cacheStep pre st) p))
    as (_ & _ & _ & H4).
  destruct (H4 (UUID p) Hni) as [E _]. cbn zeta in E. rewrite E.
  destruct (cacheStep_fst (List.fold_left cacheStep pre st) p) as [Hp _].
  rewrite Hp. apply lookup_insert_eq.
Qed.

End ServerFacts.

(** The server [NewResourcePackServer] builds from a list of packs. *)
Lemma NewResourcePackServer_holds :
  forall (wd : string) (ps : list Resource.Pack) (port : Z),
    (forall e, PackServer.NewResourcePackServer (Err e) ps port = ([], Err e))
    /\ exists evs s,
         PackServer.NewResourcePackServer (Ok wd) ps port = (evs, Ok s)
         /\ PackServer.ready s = PackServer.ChanOpen
         /\ PackServer.Addr s = ":" +:+ itoaZ port
         /\ (forall id, is_Some (PackServer.packs s !! id)
                        <-> In id (List.map Resource.UUID ps))
         /\ Serving.holdsOnly ps s
         /\ (forall id, is_Some (PackServer.contentCache s !! id) ->
                        is_Some (PackServer.packs s !! id))
         /\ (forall pre p post,
               ps = pre ++ p :: post ->
               ~ In (Resource.UUID p) (List.map Resource.UUID post) ->
               PackServer.packs s !! Resource.UUID p = Some p).
Proof.
  intros wd ps port. split; [reflexivity|].
  unfold PackServer.NewResourcePackServer.
  pose proof (fold_cacheStep_any ps (∅, ∅, [])) as (H1 & H2 & H3 & H4).
  pose proof (fun pre p post => fold_cacheStep_last pre p post (∅, ∅, [])) as H5.
  destruct (List.fold_left PackServer.cacheStep ps (∅, ∅, [])) as [[pm cc] evs] eqn:E.
  cbn [fst snd] in *.
  assert (Hp : forall id p, pm !! id = Some p -> In p ps /\ Resource.UUID p = id).
  { intros id p Hl. destruct (H1 id p Hl) as [H | H]; [exact H|].
    rewrite lookup_empty in H. discriminate. }
  assert (Hc : forall id c, cc !! id = Some c ->
                 exists p, In p ps /\ Resource.UUID p = id /\ Resource.ReadAt p = Ok c).
  { intros id c Hl. destruct (H2 id c Hl) as [H | H]; [exact H|].
    rewrite lookup_empty in H. discriminate. }
  eexists _, _. split; [reflexivity|]. cbn.
  split; [reflexivity|]. split; [reflexivity|]. split; [|split; [|split]].
  - intros id. split; [|apply H3].
    intros [p Hl]. destruct (Hp id p Hl) as [Hin <-]. apply List.in_map. exact Hin.
  - split; assumption.
  - intros id [c Hl]. destruct (Hc id c Hl) as (p & Hin & <- & _).
    apply H3, List.in_map. exact Hin.
  - intros pre p post -> Hni. specialize (H5 pre p post Hni). rewrite E in H5. exact H5.
Qed.

(** X9 — what a new server holds.  For any list of packs, also with
    repeated identifiers, [NewResourcePackServer] returns a server with
    an open readiness channel in which an identifier is registered
    exactly when a pack of the list has it, each registered pack is a
    pack of the list under its own identifier (the last one of the list
    when several share it), every cached content was read without error
    from a pack of the list with that identifier, and nothing is cached
    under an identifier that is not registered.  When the working
    directory cannot be determined no server is built. *)
Theorem X9_new_server_holds_given_packs :
  forall (wd : string) (ps : list Resource.Pack) (port : Z),
    (forall e, PackServer.NewResourcePackServer (Err e) ps port = ([], Err e))
    /\ exists evs s,
         PackServer.NewResourcePackServer (Ok wd) ps port = (evs, Ok s)
         /\ PackServer.ready s = PackServer.ChanOpen
         /\ PackServer.Addr s = ":" +:+ itoaZ port
         /\ (forall id, is_Some (PackServer.packs s !! id)
                        <-> In id (List.map Resource.UUID ps))
         /\ Serving.holdsOnly ps s
         /\ (forall id, is_Some (PackServer.contentCache s !! id) ->
                        is_Some (PackServer.packs s !! id))
         /\ (forall pre p post,
               ps = pre ++ p :: post ->
               ~ In (Resource.UUID p) (List.map Resource.UUID post) ->
               PackServer.packs s !! Resource.UUID p = Some p).
Proof. exact NewResourcePackServer_holds. Qed.

Lemma X9_new_server_witness :
  [Samples.texturePack; Samples.brokenPack; Serving.texturePackV2]
  = [Samples.texturePack; Samples.brokenPack] ++ Serving.texturePackV2 :: []
  /\ ~ In (Resource.UUID Serving.texturePackV2) (List.map Resource.UUID [])
  /\ exists evs s,
       PackServer.NewResourcePackServer (Ok "/srv/proxy")
         [Samples.texturePack; Samples.brokenPack; Serving.texturePackV2] 8080
       = (evs, Ok s)
       /\ PackServer.packs s !! Resource.UUID Serving.texturePackV2
          = Some Serving.texturePackV2.
Proof.
  assert (H1 : [Samples.texturePack; Samples.brokenPack; Serving.texturePackV2]
               = [Samples.texturePack; Samples.brokenPack]
                   ++ Serving.texturePackV2 :: []) by reflexivity.
  assert (H2 : ~ In (Resource.UUID Serving.texturePackV2) (List.map Resource.UUID []))
    by (intros []).
  split; [exact H1|]. split; [exact H2|].
  destruct (X9_new_server_holds_given_packs "/srv/proxy"
              [Samples.texturePack; Samples.brokenPack; Serving.texturePackV2] 8080)
    as (_ & evs & s & HN & _ & _ & _ & _ & _ & Hlast).
  exists evs, s. split; [exact HN|].
  exact (Hlast _ _ _ H1 H2).
Defined.

Section RequestMore.
Import Resource PackServer Serving.

(** The five ways a request ends. *)
Lemma handleRequest_cases s urlPath writeErr :
  let id := requested urlPath in
  let r := handleRequest s urlPath writeErr in
  (validId id = false /\ r.1.1 = s /\ r.2 = NotFound)
  \/ (validId id = true /\ packs s !! id = None /\ r.1.1 = s /\ r.2 = NotFound)
  \/ (exists p c,
        validId id = true /\ packs s !! id = Some p /\ contentCache s !! id = Some c
        /\ r = (s, [EvLog LevelDebug "Received request" [("path", id)];
                    EvPacksLookup id; EvCacheLookup id; served id c writeErr],
                packResponse id c))
  \/ (exists p c,
        validId id = true /\ packs s !! id = Some p /\ contentCache s !! id = None
        /\ ReadAt p = Ok c
        /\ r.1.1 = storeContent s id c /\ r.2 = packResponse id c)
  \/ (exists p e,
        validId id = true /\ packs s !! id = Some p /\ contentCache s !! id = None
        /\ ReadAt p = Err e
        /\ r.1.1 = s /\ r.2 = httpError "Internal server error" 500).
Proof.
  unfold requested, validId, handleRequest.
  destruct (String.eqb (TrimPrefix urlPath "/") EmptyString); cbn zeta.
  { left. repeat split. }
  destruct (Contains (TrimPrefix urlPath "/") ".." || Contains (TrimPrefix urlPath "/") "/").
  { left. repeat split. }
  destruct (packs s !! TrimPrefix urlPath "/") as [p|] eqn:Hp.
  2: { right; left. repeat split. }
  destruct (contentCache s !! TrimPrefix urlPath "/") as [c|] eqn:Hc.
  { right; right; left. exists p, c. repeat split; auto. }
  destruct (ReadAt p) as [c|e] eqn:Hr.
  - right; right; right; left. exists p, c. repeat split; auto.
  - right; right; right; right. exists p, e. repeat split; auto.
Qed.

Lemma UpdatePacks_lookup ps : forall (m : gmap string Pack),
  let m' := List.fold_left (fun m pack => <[UUID pack := pack]> m) ps m in
  (forall id p, m' !! id = Some p -> (In p ps /\ UUID p = id) \/ m !! id = Some p)
  /\ (forall id, In id (List.map UUID ps) -> is_Some (m' !! id))
  /\ (forall id, ~ In id (List.map UUID ps) -> m' !! id = m !! id).
Proof.
  induction ps as [|q ps IH]; intros m.
  - cbn. repeat split; auto. intros id [].
  - cbn [List.fold_left]. destruct (IH (<[UUID q := q]> m)) as (H1 & H2 & H3).
    cbn zeta. split; [|split].
    + intros id p Hl. destruct (H1 id p Hl) as [[Hin Hid] | Hold].
      * left. split; [right; exact Hin | exact Hid].
      * destruct (decide (UUID q = id)) as [<- | Hne].
        -- rewrite lookup_insert_eq in Hold. injection Hold as <-.
           left. split; [left; reflexivity | reflexivity].
        -- rewrite lookup_insert_ne in Hold by exact Hne. right. exact Hold.
    + intros id Hin.
      destruct (List.in_dec string_dec id (List.map UUID ps)) as [Hi | Hni].
      * apply H2. exact Hi.
      * rewrite (H3 id Hni). destruct Hin as [<- | Hin]; [|contradiction].
        rewrite lookup_insert_eq. eauto.
    + intros id Hni. rewrite H3 by (intros Hi; apply Hni; right; exact Hi).
      apply lookup_insert_ne. intros E. apply Hni. left. exact E.
Qed.

(** Handling a request keeps the link between the server and the
    packs it was built from. *)
Lemma handleRequest_holdsOnly ps s urlPath writeErr :
  holdsOnly ps s -> holdsOnly ps (handleRequest s urlPath writeErr).1.1.
Proof.
  intros [Hp Hc].
  destruct (handleRequest_cases s urlPath writeErr)
    as [(_ & -> & _) | [(_ & _ & -> & _) | [(p & c & _ & _ & _ & ->)
       | [(p & c & _ & Hl & _ & Hr & -> & _) | (p & e & _ & _ & _ & _ & -> & _)]]]];
    try (split; assumption).
  split; [exact Hp|]. intros id c' Hl'. cbn in Hl'.
  destruct (decide (requested urlPath = id)) as [<- | Hne].
  - rewrite lookup_insert_eq in Hl'. injection Hl' as <-.
    destruct (Hp _ _ Hl) as [Hin Hid]. exists p. auto.
  - rewrite lookup_insert_ne in Hl' by exact Hne. apply Hc. exact Hl'.
Qed.

End RequestMore.

(** X10 — a request only adds to the cache.  Handling a request
    changes neither the pack set, nor the address, nor the readiness
    channel; every cache entry is kept as it is; and the only entry
    that can appear is the one of the requested identifier, when that
    identifier passes the guards, is registered, was not cached, and
    its pack was read without error. *)
Theorem X10_request_only_adds_to_cache :
  forall (s : PackServer.ResourcePackServer) (urlPath : string)
         (writeErr : option string),
    let s' := (PackServer.handleRequest s urlPath writeErr).1.1 in
    PackServer.packs s' = PackServer.packs s
    /\ PackServer.Addr s' = PackServer.Addr s
    /\ PackServer.ready s' = PackServer.ready s
    /\ (forall id c,
          PackServer.contentCache s !! id = Some c ->
          PackServer.contentCache s' !! id = Some c)
    /\ (forall id c,
          PackServer.contentCache s' !! id = Some c ->
          PackServer.contentCache s !! id = Some c
          \/ (id = Serving.requested urlPath
              /\ Serving.validId id = true
              /\ PackServer.contentCache s !! id = None
              /\ exists p, PackServer.packs s !! id = Some p
                           /\ Resource.ReadAt p = Ok c)).
Proof.
  intros s urlPath writeErr s'. subst s'.
  destruct (handleRequest_cases s urlPath writeErr)
    as [(_ & -> & _) | [(_ & _ & -> & _) | [(p & c & _ & _ & _ & ->)
       | [(p & c & Hv & Hl & Hc & Hr & -> & _) | (p & e & _ & _ & _ & _ & -> & _)]]]];
    try (cbn; repeat split; auto; fail).
  cbn. repeat split.
  - intros id c' Hl'. destruct (decide (Serving.requested urlPath = id)) as [<- | Hne].
    + congruence.
    + rewrite lookup_insert_ne by exact Hne. exact Hl'.
  - intros id c' Hl'. destruct (decide (Serving.requested urlPath = id)) as [<- | Hne].
    + rewrite lookup_insert_eq in Hl'. injection Hl' as <-.
      right. repeat split; auto. exists p. auto.
    + rewrite lookup_insert_ne in Hl' by exact Hne. left. exact Hl'.
Qed.

Lemma X10_request_witness :
  PackServer.contentCache Samples.cachedServer !! Resource.UUID Samples.texturePack
  = Some (Resource.content Samples.texturePack)
  /\ PackServer.contentCache
       (PackServer.handleRequest Samples.cachedServer "/unknown" None).1.1
     !! Resource.UUID Samples.texturePack
     = Some (Resource.content Samples.texturePack).
Proof.
  assert (H : PackServer.contentCache Samples.cachedServer
              !! Resource.UUID Samples.texturePack
              = Some (Resource.content Samples.texturePack)) by reflexivity.
  split; [exact H|].
  exact (proj1 (proj2 (proj2 (proj2 (X10_request_only_adds_to_cache
                                       Samples.cachedServer "/unknown" None))))
               _ _ H).
Defined.

(** The three answers of [handleRequest] and what each one tells. *)
Lemma handleRequest_status :
  forall (s : PackServer.ResourcePackServer) (urlPath : string)
         (writeErr : option string),
    let id := Serving.requested urlPath in
    let r := PackServer.handleRequest s urlPath writeErr in
    (PackServer.Status r.2 = 200%Z \/ PackServer.Status r.2 = 404%Z
     \/ PackServer.Status r.2 = 500%Z)
    /\ (PackServer.Status r.2 = 200%Z ->
        Serving.validId id = true
        /\ r.2 = PackServer.packResponse id (PackServer.Body r.2)
        /\ exists p,
             PackServer.packs s !! id = Some p
             /\ (PackServer.contentCache s !! id = Some (PackServer.Body r.2)
                 \/ (PackServer.contentCache s !! id = None
                     /\ Resource.ReadAt p = Ok (PackServer.Body r.2))))
    /\ (PackServer.Status r.2 = 500%Z ->
        r.1.1 = s /\ Serving.validId id = true
        /\ exists p e,
             PackServer.packs s !! id = Some p
             /\ PackServer.contentCache s !! id = None
             /\ Resource.ReadAt p = Err e)
    /\ (PackServer.Status r.2 = 404%Z ->
        r.1.1 = s
        /\ (Serving.validId id = false \/ PackServer.packs s !! id = None)).
Proof.
  intros s urlPath writeErr id r. subst id r.
  destruct (handleRequest_cases s urlPath writeErr)
    as [(Hv & Hs & Hr) | [(Hv & Hl & Hs & Hr) | [(p & c & Hv & Hl & Hc & E)
       | [(p & c & Hv & Hl & Hc & Hrd & Hs & Hr)
         | (p & e & Hv & Hl & Hc & Hrd & Hs & Hr)]]]].
  - rewrite Hr, Hs. cbn. repeat split; auto; discriminate.
  - rewrite Hr, Hs. cbn. repeat split; auto; discriminate.
  - rewrite E. cbn. repeat split; try discriminate; auto.
    exists p. auto.
  - rewrite Hr. cbn. repeat split; try discriminate; auto.
    exists p. auto.
  - rewrite Hr, Hs. cbn. repeat split; try discriminate; auto.
    exists p, e. auto.
Qed.

(** X11 — what the three answers mean.  A request is answered 200,
    404 or 500.  It is answered 200 only for an identifier that passes
    the guards and is registered, with the cached bytes or, when
    nothing was cached, the bytes just read; 500 only for such an
    identifier whose bytes are not cached and cannot be read; 404 only
    for an identifier that fails the guards or is not registered.  On
    404 and 500 the server is left as it was. *)
Theorem X11_request_status_meaning :
  forall (s : PackServer.ResourcePackServer) (urlPath : string)
         (writeErr : option string),
    let id := Serving.requested urlPath in
    let r := PackServer.handleRequest s urlPath writeErr in
    (PackServer.Status r.2 = 200%Z \/ PackServer.Status r.2 = 404%Z
     \/ PackServer.Status r.2 = 500%Z)
    /\ (PackServer.Status r.2 = 200%Z ->
        Serving.validId id = true
        /\ r.2 = PackServer.packResponse id (PackServer.Body r.2)
        /\ exists p,
             PackServer.packs s !! id = Some p
             /\ (PackServer.contentCache s !! id = Some (PackServer.Body r.2)
                 \/ (PackServer.contentCache s !! id = None
                     /\ Resource.ReadAt p = Ok (PackServer.Body r.2))))
    /\ (PackServer.Status r.2 = 500%Z ->
        r.1.1 = s /\ Serving.validId id = true
        /\ exists p e,
             PackServer.packs s !! id = Some p
             /\ PackServer.contentCache s !! id = None
             /\ Resource.ReadAt p = Err e)
    /\ (PackServer.Status r.2 = 404%Z ->
        r.1.1 = s
        /\ (Serving.validId id = false \/ PackServer.packs s !! id = None)).
Proof. exact handleRequest_status. Qed.

Lemma X11_request_status_witness :
  PackServer.Status
    (PackServer.handleRequest Samples.cachedServer
       ("/" +:+ Resource.UUID Samples.texturePack) None).2 = 200%Z
  /\ Serving.validId (Serving.requested ("/" +:+ Resource.UUID Samples.texturePack))
     = true.
Proof.
  assert (H : PackServer.Status
                (PackServer.handleRequest Samples.cachedServer
                   ("/" +:+ Resource.UUID Samples.texturePack) None).2 = 200%Z)
    by reflexivity.
  split; [exact H|].
  exact (proj1 (proj1 (proj2 (X11_request_status_meaning Samples.cachedServer
                                ("/" +:+ Resource.UUID Samples.texturePack) None)) H)).
Defined.

(** X12 — the second request is served from the cache.  After a
    request answered 200, the same request is answered with the same
    response, and this time the handler only looks the identifier up in
    the pack set and in the cache: it reads no pack, stores nothing and
    leaves the server as it is. *)
Theorem X12_repeated_request_hits_cache :
  forall (s : PackServer.ResourcePackServer) (urlPath : string)
         (writeErr writeErr' : option string),
    let r := PackServer.handleRequest s urlPath writeErr in
    let id := Serving.requested urlPath in
    PackServer.Status r.2 = 200%Z ->
    PackServer.handleRequest r.1.1 urlPath writeErr'
    = (r.1.1,
       [EvLog LevelDebug "Received request" [("path", id)];
        EvPacksLookup id; EvCacheLookup id;
        PackServer.served id (PackServer.Body r.2) writeErr'],
       r.2).
Proof.
  intros s urlPath writeErr writeErr' r id H200. subst r id.
  destruct (handleRequest_cases s urlPath writeErr)
    as [(Hv & Hs & Hr) | [(Hv & Hl & Hs & Hr) | [(p & c & Hv & Hl & Hc & E)
       | [(p & c & Hv & Hl & Hc & Hrd & Hs & Hr)
         | (p & e & Hv & Hl & Hc & Hrd & Hs & Hr)]]]];
    try (rewrite Hr in H200; discriminate).
  - rewrite E. cbn [fst snd PackServer.Body PackServer.packResponse].
    destruct (handleRequest_cases s urlPath writeErr')
      as [(Hv' & _) | [(_ & Hl' & _) | [(p' & c' & _ & _ & Hc' & E')
         | [(p' & c' & _ & _ & Hc' & _) | (p' & e' & _ & _ & Hc' & _)]]]];
      congruence.
  - rewrite Hs, Hr. cbn [PackServer.Body PackServer.packResponse].
    destruct (handleRequest_cases (PackServer.storeContent s (Serving.requested urlPath) c)
                urlPath writeErr')
      as [(Hv' & _) | [(_ & Hl' & _) | [(p' & c' & _ & _ & Hc' & E')
         | [(p' & c' & _ & _ & Hc' & _) | (p' & e' & _ & _ & Hc' & _)]]]];
      cbn [PackServer.packs PackServer.contentCache PackServer.storeContent] in *;
      rewrite ?lookup_insert_eq in *; congruence.
Qed.

Lemma X12_repeated_request_witness :
  PackServer.Status
    (PackServer.handleRequest
       (PackServer.mkServer {[ Resource.UUID Samples.texturePack := Samples.texturePack ]}
                            ∅ ":8080" PackServer.ChanClosed)
       ("/" +:+ Resource.UUID Samples.texturePack) None).2 = 200%Z
  /\ (PackServer.handleRequest
        (PackServer.handleRequest
           (PackServer.mkServer
              {[ Resource.UUID Samples.texturePack := Samples.texturePack ]}
              ∅ ":8080" PackServer.ChanClosed)
           ("/" +:+ Resource.UUID Samples.texturePack) None).1.1
        ("/" +:+ Resource.UUID Samples.texturePack) None).2
     = (PackServer.handleRequest
          (PackServer.mkServer
             {[ Resource.UUID Samples.texturePack := Samples.texturePack ]}
             ∅ ":8080" PackServer.ChanClosed)
          ("/" +:+ Resource.UUID Samples.texturePack) None).2.
Proof.
  assert (H : PackServer.Status
    (PackServer.handleRequest
       (PackServer.mkServer {[ Resource.UUID Samples.texturePack := Samples.texturePack ]}
                            ∅ ":8080" PackServer.ChanClosed)
       ("/" +:+ Resource.UUID Samples.texturePack) None).2 = 200%Z) by reflexivity.
  split; [exact H|].
  rewrite (X12_repeated_request_hits_cache _ _ None None H). reflexivity.
Defined.

(** X13 — replacing the pack set.  [UpdatePacks] registers exactly
    the packs it is given and touches neither the content cache, nor
    the address, nor the readiness channel.  Afterwards a request for
    an identifier that none of the new packs has is answered 404, also
    when bytes are cached under it; and a request for an identifier
    that a new pack has and under which bytes were cached before is
    answered with those cached bytes, whatever the new pack holds. *)
Theorem X13_update_packs_keeps_cache :
  forall (s : PackServer.ResourcePackServer) (ps : list Resource.Pack),
    let s' := PackServer.UpdatePacks s ps in
    PackServer.contentCache s' = PackServer.contentCache s
    /\ PackServer.ready s' = PackServer.ready s
    /\ PackServer.Addr s' = PackServer.Addr s
    /\ (forall id, is_Some (PackServer.packs s' !! id)
                   <-> In id (List.map Resource.UUID ps))
    /\ (forall id p, PackServer.packs s' !! id = Some p ->
                     In p ps /\ Resource.UUID p = id)
    /\ (forall urlPath writeErr,
          ~ In (Serving.requested urlPath) (List.map Resource.UUID ps) ->
          (PackServer.handleRequest s' urlPath writeErr).2 = PackServer.NotFound)
    /\ (forall urlPath writeErr c,
          Serving.validId (Serving.requested urlPath) = true ->
          In (Serving.requested urlPath) (List.map Resource.UUID ps) ->
          PackServer.contentCache s !! Serving.requested urlPath = Some c ->
          (PackServer.handleRequest s' urlPath writeErr).2
          = PackServer.packResponse (Serving.requested urlPath) c).
Proof.
  intros s ps s'. subst s'.
  destruct (UpdatePacks_lookup ps ∅) as (H1 & H2 & H3). cbn zeta in *.
  assert (Hp : forall id p, PackServer.packs (PackServer.UpdatePacks s ps) !! id = Some p ->
                            In p ps /\ Resource.UUID p = id).
  { intros id p Hl. destruct (H1 id p Hl) as [H | H]; [exact H|].
    rewrite lookup_empty in H. discriminate. }
  split; [reflexivity|]. split; [reflexivity|]. split; [reflexivity|].
  split; [|split; [exact Hp|split]].
  - intros id. split; [|apply H2].
    intros [p Hl]. destruct (Hp id p Hl) as [Hin <-]. apply List.in_map. exact Hin.
  - intros urlPath writeErr Hni.
    destruct (handleRequest_cases (PackServer.UpdatePacks s ps) urlPath writeErr)
      as [(_ & _ & Hr) | [(_ & _ & _ & Hr) | [(p & c & _ & Hl & _)
         | [(p & c & _ & Hl & _) | (p & e & _ & Hl & _)]]]];
      try exact Hr;
      exfalso; destruct (Hp _ _ Hl) as [Hin Hid]; apply Hni; rewrite <- Hid;
      apply List.in_map; exact Hin.
  - intros urlPath writeErr c Hv Hin Hc.
    destruct (H2 _ Hin) as [p0 Hl0].
    destruct (handleRequest_cases (PackServer.UpdatePacks s ps) urlPath writeErr)
      as [(Hv' & _) | [(_ & Hl & _) | [(p & c' & _ & _ & Hc' & E)
         | [(p & c' & _ & _ & Hc' & _) | (p & e & _ & _ & Hc' & _)]]]];
      cbn [PackServer.packs PackServer.contentCache PackServer.UpdatePacks] in *;
      try congruence.
    rewrite E. cbn [snd]. congruence.
Qed.

Lemma X13_update_packs_witness :
  Serving.validId
    (Serving.requested ("/" +:+ Resource.UUID Samples.texturePack)) = true
  /\ In (Serving.requested ("/" +:+ Resource.UUID Samples.texturePack))
        (List.map Resource.UUID [Serving.texturePackV2])
  /\ PackServer.contentCache Samples.cachedServer
       !! Serving.requested ("/" +:+ Resource.UUID Samples.texturePack)
     = Some (Resource.content Samples.texturePack)
  /\ PackServer.Body
       (PackServer.handleRequest
          (PackServer.UpdatePacks Samples.cachedServer [Serving.texturePackV2])
          ("/" +:+ Resource.UUID Samples.texturePack) None).2
     = Resource.content Samples.texturePack
  /\ Resource.content Serving.texturePackV2 <> Resource.content Samples.texturePack.
Proof.
  assert (H1 : Serving.validId
                 (Serving.requested ("/" +:+ Resource.UUID Samples.texturePack)) = true)
    by reflexivity.
  assert (H2 : In (Serving.requested ("/" +:+ Resource.UUID Samples.texturePack))
                  (List.map Resource.UUID [Serving.texturePackV2]))
    by (left; reflexivity).
  assert (H3 : PackServer.contentCache Samples.cachedServer
                 !! Serving.requested ("/" +:+ Resource.UUID Samples.texturePack)
               = Some (Resource.content Samples.texturePack)) by reflexivity.
  split; [exact H1|]. split; [exact H2|]. split; [exact H3|].
  split; [|discriminate].
  rewrite (proj2 (proj2 (proj2 (proj2 (proj2 (proj2
             (X13_update_packs_keeps_cache Samples.cachedServer
                [Serving.texturePackV2]))))))
             ("/" +:+ Resource.UUID Samples.texturePack) None _ H1 H2 H3).
  reflexivity.
Defined.

Section ServingFacts.
Import Resource PackServer Serving.

Lemma serveAll_sound ps reqs : forall s,
  holdsOnly ps s ->
  holdsOnly ps (serveAll s reqs).1
  /\ List.Forall2
       (fun req resp =>
          Status resp = 200%Z ->
          exists p, In p ps /\ UUID p = requested req.1 /\ ReadAt p = Ok (Body resp))
       reqs (serveAll s reqs).2.
Proof.
  induction reqs as [|[urlPath writeErr] reqs IH]; intros s Hs.
  - split; [exact Hs | constructor].
  - cbn [serveAll].
    pose proof (handleRequest_holdsOnly ps s urlPath writeErr Hs) as Hs'.
    pose proof (handleRequest_status s urlPath writeErr) as (_ & H200 & _).
    cbn zeta in H200.
    destruct (handleRequest s urlPath writeErr) as [[s' evs] resp]. cbn [fst snd] in *.
    destruct (IH s' Hs') as [Hfin Hall].
    destruct (serveAll s' reqs) as [s'' resps]. cbn [fst snd] in *.
    split; [exact Hfin|]. constructor; [|exact Hall].
    intros Hst. destruct (H200 Hst) as (_ & _ & p & Hl & [Hc | [_ Hr]]).
    + destruct Hs as [_ Hcache]. apply Hcache. exact Hc.
    + destruct Hs as [Hpacks _]. destruct (Hpacks _ _ Hl) as [Hin Hid].
      exists p. auto.
Qed.

End ServingFacts.

(** X14 — served bytes are pack bytes.  On a server built by
    [NewResourcePackServer] from any list of packs, through any run of
    requests, every answer with status 200 carries exactly the bytes
    that reading a pack of that list with the requested identifier
    yields. *)
Theorem X14_served_bytes_are_pack_bytes :
  forall (wd : string) (ps : list Resource.Pack) (port : Z)
         (reqs : list (string * option string)),
    exists evs s,
      PackServer.NewResourcePackServer (Ok wd) ps port = (evs, Ok s)
      /\ Serving.holdsOnly ps (Serving.serveAll s reqs).1
      /\ List.Forall2
           (fun req resp =>
              PackServer.Status resp = 200%Z ->
              exists p,
                In p ps /\ Resource.UUID p = Serving.requested req.1
                /\ Resource.ReadAt p = Ok (PackServer.Body resp))
           reqs (Serving.serveAll s reqs).2.
Proof.
  intros wd ps port reqs.
  destruct (NewResourcePackServer_holds wd ps port)
    as (_ & evs & s & HN & _ & _ & _ & Hh & _).
  exists evs, s. split; [exact HN|]. apply serveAll_sound. exact Hh.
Qed.

Lemma X14_served_bytes_witness :
  exists evs s,
    PackServer.NewResourcePackServer (Ok "/srv/proxy")
      [Samples.texturePack; Samples.brokenPack] 8080 = (evs, Ok s)
    /\ List.Forall2
         (fun req resp =>
            PackServer.Status resp = 200%Z ->
            exists p,
              In p [Samples.texturePack; Samples.brokenPack]
              /\ Resource.UUID p = Serving.requested req.1
              /\ Resource.ReadAt p = Ok (PackServer.Body resp))
         [("/" +:+ Resource.UUID Samples.texturePack, @None string);
          ("/" +:+ Resource.UUID Samples.brokenPack, None); ("/../x", None)]
         (Serving.serveAll s
            [("/" +:+ Resource.UUID Samples.texturePack, @None string);
             ("/" +:+ Resource.UUID Samples.brokenPack, None); ("/../x", None)]).2.
Proof.
  destruct (X14_served_bytes_are_pack_bytes "/srv/proxy"
              [Samples.texturePack; Samples.brokenPack] 8080
              [("/" +:+ Resource.UUID Samples.texturePack, @None string);
               ("/" +:+ Resource.UUID Samples.brokenPack, None); ("/../x", None)])
    as (evs & s & HN & _ & HF).
  exists evs, s. split; [exact HN | exact HF].
Defined.

(** ** More on the readiness gate *)

Section GateMore.
Import Resource PackServer Gate.

Lemma run_app a : forall st b,
  run st (a ++ b) = match run st a with
                    | Returns st' => run st' b
                    | Panics m => Panics m
                    end.
Proof.
  induction a as [|op a IH]; intros st b; [reflexivity|].
  cbn [List.app run]. destruct (step st op); [apply IH | reflexivity].
Qed.

Lemma waitersOf_app a b : waitersOf (a ++ b) = waitersOf a ++ waitersOf b.
Proof. unfold waitersOf. apply List.flat_map_app. Qed.

Lemma count_occ_none (l : list Event) :
  ~ In EvCloseReady l -> List.count_occ Event_eq_dec l EvCloseReady = 0%nat.
Proof. apply List.count_occ_not_In. Qed.

Lemma step_gateInv st op st' W :
  gateInv st W -> step st op = Returns st' ->
  gateInv st' (W ++ waitersOf [op]).
Proof.
  intros HG Hstep.
  destruct op as [g | [e|] serveErr | urlPath writeErr | ps | closeErr];
    cbn [waitersOf List.flat_map List.app]; rewrite ?app_nil_r.
  - cbn in Hstep. unfold WaitForReady in Hstep.
    destruct HG as [(Ho & Hp & Hb & Hc) | (Hcl & Hb & Hp & Hc & Hl)];
      [rewrite Ho in Hstep | rewrite Hcl in Hstep]; injection Hstep as <-; cbn.
    + left. cbn. rewrite Hb. auto.
    + right. cbn. rewrite Hp. auto.
  - cbn in Hstep. injection Hstep as <-.
    destruct HG as [(Ho & Hp & Hb & Hc) | (Hcl & Hb & Hp & Hc & (pre & post & Hl))];
      [left | right];
      cbn; rewrite List.count_occ_app, Hc; cbn; repeat split; auto.
    exists pre. eexists. rewrite Hl, <- app_assoc. cbn. reflexivity.
  - cbn in Hstep. unfold Start in Hstep.
    destruct HG as [(Ho & Hp & Hb & Hc) | (Hcl & Hb & Hp & Hc & Hl)].
    + rewrite Ho in Hstep. cbn in Hstep. injection Hstep as <-. right. cbn.
      rewrite Hp, List.count_occ_app, Hc. cbn. repeat split; auto.
      exists (trace st ++ [EvLog LevelInfo "Starting resource pack HTTP server"
                                 [("address", Addr (srv st))]]), [EvServe].
      rewrite <- app_assoc. reflexivity.
    + rewrite Hcl in Hstep. cbn in Hstep. discriminate.
  - cbn in Hstep.
    pose proof (handleRequest_gate (srv st) urlPath writeErr) as [Hr Hn].
    pose proof (handleRequest_Addr (srv st) urlPath writeErr) as Ha.
    destruct (handleRequest (srv st) urlPath writeErr) as [[s1 evs] resp].
    cbn [fst snd] in *. injection Hstep as <-.
    destruct HG as [(Ho & Hp & Hb & Hc) | (Hcl & Hb & Hp & Hc & (pre & post & Hl))];
      [left | right];
      cbn; rewrite List.count_occ_app, Hc, (count_occ_none evs Hn); repeat split; auto;
      try congruence.
    exists pre. eexists. rewrite Ha, Hl, <- app_assoc. cbn. reflexivity.
  - cbn in Hstep. injection Hstep as <-.
    destruct HG as [(Ho & Hp & Hb & Hc) | (Hcl & Hb & Hp & Hc & Hl)]; [left | right];
      cbn; repeat split; auto.
  - cbn in Hstep. injection Hstep as <-.
    destruct HG as [(Ho & Hp & Hb & Hc) | (Hcl & Hb & Hp & Hc & (pre & post & Hl))];
      [left | right];
      cbn; rewrite List.count_occ_app, Hc; cbn; repeat split; auto.
    exists pre. eexists. rewrite Hl, <- app_assoc. cbn. reflexivity.
Qed.

Lemma run_gateInv ops : forall st st' W,
  gateInv st W -> run st ops = Returns st' ->
  gateInv st' (W ++ waitersOf ops).
Proof.
  induction ops as [|op ops IH]; intros st st' W HG Hrun.
  - cbn in Hrun. injection Hrun as <-. cbn. rewrite app_nil_r. exact HG.
  - cbn [run] in Hrun. destruct (step st op) as [st1|m] eqn:Hs; [|discriminate].
    pose proof (step_gateInv st op st1 W HG Hs) as HG1.
    specialize (IH st1 st' _ HG1 Hrun).
    rewrite <- app_assoc, <- waitersOf_app in IH. exact IH.
Qed.

(** A step panics exactly when a [Start] binds on a closed channel. *)
Lemma step_outcome st op :
  (binds op = true /\ ready (srv st) = ChanClosed /\ exists m, step st op = Panics m)
  \/ (binds op = true /\ ready (srv st) = ChanOpen
      /\ exists st', step st op = Returns st' /\ ready (srv st') = ChanClosed)
  \/ (binds op = false
      /\ exists st', step st op = Returns st' /\ ready (srv st') = ready (srv st)).
Proof.
  destruct op as [g | [e|] serveErr | urlPath writeErr | ps | closeErr]; cbn [binds].
  - right; right. split; [reflexivity|]. cbn. unfold WaitForReady.
    destruct (ready (srv st)) eqn:Hr; eexists; (split; [reflexivity | cbn; congruence]).
  - right; right. split; [reflexivity|]. eexists. split; reflexivity.
  - destruct (ready (srv st)) eqn:Hr.
    + right; left. repeat split. cbn. unfold Start. rewrite Hr. cbn.
      eexists. split; reflexivity.
    + left. repeat split. cbn. unfold Start. rewrite Hr. cbn. eexists. reflexivity.
  - right; right. split; [reflexivity|]. cbn.
    pose proof (handleRequest_gate (srv st) urlPath writeErr) as [Hr _].
    destruct (handleRequest (srv st) urlPath writeErr) as [[s1 evs] resp].
    eexists. split; [reflexivity | exact Hr].
  - right; right. split; [reflexivity|]. eexists. split; reflexivity.
  - right; right. split; [reflexivity|]. eexists. split; reflexivity.
Qed.

Lemma run_returns_iff ops : forall st,
  (ready (srv st) = ChanOpen ->
     ((exists st', run st ops = Returns st')
      <-> (length (List.filter binds ops) <= 1)%nat))
  /\ (ready (srv st) = ChanClosed ->
        ((exists st', run st ops = Returns st')
         <-> length (List.filter binds ops) = 0%nat)).
Proof.
  induction ops as [|op ops IH]; intros st.
  - cbn. split; intros _; split; eauto.
  - cbn [run List.filter].
    destruct (step_outcome st op)
      as [(Hb & Hr & m & Hs) | [(Hb & Hr & st1 & Hs & Hr1) | (Hb & st1 & Hs & Hr1)]];
      rewrite Hb, Hs.
    + split; intros Ho; [congruence|]. cbn [length].
      split; [intros [st' H]; discriminate | lia].
    + destruct (IH st1) as [_ IHc]. specialize (IHc Hr1).
      split; intros Ho; [|congruence]. cbn [length]. rewrite IHc. lia.
    + destruct (IH st1) as [IHo IHc].
      split; intros Ho; [apply IHo | apply IHc]; congruence.
Qed.

End GateMore.

(** X15 — the gate along a run.  Take a server whose readiness
    channel is open and any run of waits, starts, requests, pack
    updates and closes that returns, and let W be the goroutines that
    called [WaitForReady] in it, in call order.  Either no signal was
    recorded, the channel is open, nobody got through and exactly W are
    parked; or exactly one signal was recorded, and it directly follows
    the record of a successful listen on the server's address, the
    channel is closed, nobody is parked and exactly W got through. *)
Theorem X15_gate_opens_once_for_everyone :
  forall (s : PackServer.ResourcePackServer) (ops : list PackServer.Op)
         (st : PackServer.Sys),
    PackServer.ready s = PackServer.ChanOpen ->
    PackServer.run (PackServer.boot s) ops = Returns st ->
    (PackServer.ready (PackServer.srv st) = PackServer.ChanOpen
     /\ PackServer.passed st = []
     /\ PackServer.blocked st = PackServer.waitersOf ops
     /\ List.count_occ Event_eq_dec (PackServer.trace st) EvCloseReady = 0%nat)
    \/ (PackServer.ready (PackServer.srv st) = PackServer.ChanClosed
        /\ PackServer.blocked st = []
        /\ PackServer.passed st = PackServer.waitersOf ops
        /\ List.count_occ Event_eq_dec (PackServer.trace st) EvCloseReady = 1%nat
        /\ exists pre post,
             PackServer.trace st
             = pre ++ EvListen (PackServer.Addr s) true :: EvCloseReady :: post
             /\ ~ In EvCloseReady pre /\ ~ In EvCloseReady post).
Proof.
  intros s ops st Hopen Hrun.
  pose proof (run_Addr ops _ _ Hrun) as Ha. cbn in Ha.
  destruct (run_gateInv ops (PackServer.boot s) st [] (or_introl
              (conj Hopen (conj eq_refl (conj eq_refl eq_refl)))) Hrun)
    as [H | (H1 & H2 & H3 & H4 & pre & post & Htr)]; [left; exact H|].
  right. split; [exact H1|]. split; [exact H2|]. split; [exact H3|].
  split; [exact H4|]. exists pre, post. rewrite <- Ha. split; [exact Htr|].
  rewrite Htr, List.count_occ_app in H4. cbn in H4.
  destruct (Event_eq_dec EvCloseReady EvCloseReady) as [_|Hne]; [|congruence].
  destruct (Event_eq_dec (EvListen (PackServer.Addr (PackServer.srv st)) true)
                         EvCloseReady) as [Heq|_]; [discriminate|].
  split; intros Hin; apply (List.count_occ_In Event_eq_dec) in Hin; lia.
Qed.

Lemma X15_gate_witness :
  PackServer.ready (PackServer.mkServer ∅ ∅ ":8080" PackServer.ChanOpen)
  = PackServer.ChanOpen
  /\ exists st,
       PackServer.run
         (PackServer.boot (PackServer.mkServer ∅ ∅ ":8080" PackServer.ChanOpen))
         [PackServer.OpWait 1; PackServer.OpStart (Some "bind: address already in use") "http: Server closed";
          PackServer.OpWait 2; PackServer.OpStart None "http: Server closed";
          PackServer.OpWait 3] = Returns st
       /\ PackServer.passed st = [1; 2; 3]%nat.
Proof.
  split; [reflexivity|]. eexists. split; [reflexivity|].
  destruct (X15_gate_opens_once_for_everyone
              (PackServer.mkServer ∅ ∅ ":8080" PackServer.ChanOpen)
              [PackServer.OpWait 1;
               PackServer.OpStart (Some "bind: address already in use") "http: Server closed";
               PackServer.OpWait 2; PackServer.OpStart None "http: Server closed";
               PackServer.OpWait 3] _ eq_refl eq_refl)
    as [(Ho & _) | (_ & _ & Hp & _)]; [discriminate | exact Hp].
Defined.

(** X16 — a second bind panics.  On a server whose readiness channel
    is open, a run of operations returns exactly when at most one of
    its [Start] calls binds: the first one closes the channel, and any
    later [Start] that binds panics on closing it again. *)
Theorem X16_second_bind_panics :
  forall (s : PackServer.ResourcePackServer) (ops : list PackServer.Op),
    PackServer.ready s = PackServer.ChanOpen ->
    ((exists st, PackServer.run (PackServer.boot s) ops = Returns st)
     <-> (length (List.filter PackServer.binds ops) <= 1)%nat).
Proof.
  intros s ops Hopen.
  destruct (run_returns_iff ops (PackServer.boot s)) as [H _]. apply H. exact Hopen.
Qed.

Lemma X16_second_bind_witness :
  PackServer.ready (PackServer.mkServer ∅ ∅ ":8080" PackServer.ChanOpen)
  = PackServer.ChanOpen
  /\ ~ (exists st,
          PackServer.run
            (PackServer.boot (PackServer.mkServer ∅ ∅ ":8080" PackServer.ChanOpen))
            [PackServer.OpStart None "http: Server closed"; PackServer.OpClose None;
             PackServer.OpStart None "http: Server closed"] = Returns st).
Proof.
  split; [reflexivity|]. intros H.
  apply (X16_second_bind_panics
           (PackServer.mkServer ∅ ∅ ":8080" PackServer.ChanOpen)
           [PackServer.OpStart None "http: Server closed"; PackServer.OpClose None;
            PackServer.OpStart None "http: Server closed"] eq_refl) in H.
  cbn in H. lia.
Defined.

(** X17 — the rewrite stops at the first failure.  When the fetch of
    one pack's URL fails and the fetches of all packs before it
    succeed, [ModifyResourcePackForCDN] panics with that failure after
    having fetched exactly the URLs of the packs up to and including
    that one, in order; no list is returned and no later URL is
    fetched. *)
Theorem X17_rewrite_stops_at_first_failure :
  forall (httpGet : string -> Result (Z * list byte))
         (Read : list byte -> Result Resource.Pack)
         (pre : list Resource.Pack) (p : Resource.Pack) (post : list Resource.Pack)
         (baseURL m : string),
    (forall q, In q pre ->
       exists q', Resource.MustReadURL httpGet Read (PackServer.cdnURL baseURL q)
                  = Returns q') ->
    Resource.MustReadURL httpGet Read (PackServer.cdnURL baseURL p) = Panics m ->
    PackServer.ModifyResourcePackForCDN httpGet Read (pre ++ p :: post) baseURL
    = (List.map (fun q => EvHttpGet (PackServer.cdnURL baseURL q)) (pre ++ [p]),
       Panics m).
Proof.
  intros httpGet Read pre p post baseURL m Hpre Hp.
  induction pre as [|q pre IH]; cbn [List.app PackServer.ModifyResourcePackForCDN List.map].
  - rewrite Hp. reflexivity.
  - destruct (Hpre q) as [q' Hq]; [left; reflexivity|]. rewrite Hq.
    rewrite IH by (intros q0 Hq0; apply Hpre; right; exact Hq0). reflexivity.
Qed.

Lemma X17_rewrite_stops_witness :
  (forall q, In q [Samples.texturePack] ->
     exists q', Resource.MustReadURL Samples.frontGet Samples.sampleRead
                  (PackServer.cdnURL Samples.cdnBase q) = Returns q')
  /\ Resource.MustReadURL Samples.frontGet Samples.sampleRead
       (PackServer.cdnURL Samples.cdnBase Samples.brokenPack)
     = Panics "download resource pack: bad status"
  /\ PackServer.ModifyResourcePackForCDN Samples.frontGet Samples.sampleRead
       ([Samples.texturePack] ++ Samples.brokenPack :: [Samples.otherPack])
       Samples.cdnBase
     = (List.map (fun q => EvHttpGet (PackServer.cdnURL Samples.cdnBase q))
                 ([Samples.texturePack] ++ [Samples.brokenPack]),
        Panics "download resource pack: bad status").
Proof.
  assert (H1 : forall q, In q [Samples.texturePack] ->
     exists q', Resource.MustReadURL Samples.frontGet Samples.sampleRead
                  (PackServer.cdnURL Samples.cdnBase q) = Returns q').
  { intros q [<- | []]. eexists. reflexivity. }
  assert (H2 : Resource.MustReadURL Samples.frontGet Samples.sampleRead
                 (PackServer.cdnURL Samples.cdnBase Samples.brokenPack)
               = Panics "download resource pack: bad status") by reflexivity.
  split; [exact H1|]. split; [exact H2|].
  exact (X17_rewrite_stops_at_first_failure Samples.frontGet Samples.sampleRead
           [Samples.texturePack] Samples.brokenPack [Samples.otherPack]
           Samples.cdnBase _ H1 H2).
Defined.

(** ** More on the command dispatcher *)

Section DispatchFacts.
Import Engine Main Dispatch.

Lemma handleCommand_other command w conf cmd args :
  Fields command = cmd :: args ->
  String.eqb cmd "transfer" = false -> isStop cmd = false ->
  Forall isLog (handleCommand command w conf).1
  /\ (handleCommand command w conf).2 = Running.
Proof.
  intros HF Ht Hs. unfold handleCommand. rewrite HF, Ht.
  unfold isStop in Hs. rewrite Hs.
  destruct (String.eqb cmd "players").
  - destruct (sessions w) as [|s0 ss]; cbn [fst snd].
    + split; [repeat constructor | reflexivity].
    + split; [|reflexivity]. constructor; [exact I|]. constructor; [exact I|].
      apply List.Forall_forall. intros ev Hin.
      apply List.in_map_iff in Hin as (x & <- & _). exact I.
  - destruct (String.eqb cmd "info"); cbn [fst snd].
    + split; [|reflexivity]. repeat (constructor; [exact I|]).
      apply Forall_app. split.
      * apply List.Forall_forall. intros ev Hin.
        apply List.in_map_iff in Hin as (x & <- & _). exact I.
      * repeat constructor.
    + split; [repeat constructor | reflexivity].
Qed.

Lemma handleCommand_stop command w conf cmd args :
  Fields command = cmd :: args -> isStop cmd = true ->
  (handleCommand command w conf).2 = Exited 0
  /\ In EvProxyClose (handleCommand command w conf).1
  /\ ~ (exists n a t, In (EvTransfer n a t) (handleCommand command w conf).1).
Proof.
  intros HF Hs. unfold handleCommand. rewrite HF.
  unfold isStop in Hs.
  assert (Hp : String.eqb cmd "players" = false).
  { destruct (String.eqb_spec cmd "players") as [-> |]; [discriminate | reflexivity]. }
  assert (Ht : String.eqb cmd "transfer" = false).
  { destruct (String.eqb_spec cmd "transfer") as [-> |]; [discriminate | reflexivity]. }
  assert (Hi : String.eqb cmd "info" = false).
  { destruct (String.eqb_spec cmd "info") as [-> |]; [discriminate | reflexivity]. }
  rewrite Hp, Ht, Hi, Hs. cbn [fst snd]. split; [reflexivity|]. split.
  - rewrite in_app_iff. right. left. reflexivity.
  - intros (n & a & t & Hin). rewrite in_app_iff in Hin.
    destruct Hin as [Hin | Hin].
    + destruct (resourcePackServer w) as [[e|]|]; cbn in Hin;
        intuition discriminate.
    + cbn in Hin. intuition discriminate.
Qed.

(** The four ways a [transfer] line ends. *)
Lemma handleCommand_transfer command w conf args :
  Fields command = "transfer" :: args ->
  let r := handleCommand command w conf in
  r.2 = Running
  /\ ((exists playerName serverName rest target addr,
         args = playerName :: serverName :: rest
         /\ findSession w playerName = Some target
         /\ serverMap w !! serverName = Some addr /\ addr <> EmptyString
         /\ (r.1 = [EvTransfer (sid target) addr 10;
                    info ("Transferred " +:+ playerName +:+ " to " +:+ serverName)]
             /\ TransferTimeout target addr 10 = None
             \/ exists e,
                  r.1 = [EvTransfer (sid target) addr 10;
                         EvLog LevelError "Failed to transfer player"
                               [("player", playerName); ("server", serverName);
                                ("error", e)]]
                  /\ TransferTimeout target addr 10 = Some e))
      \/ (Forall isLog r.1
          /\ ~ (exists playerName serverName rest target addr,
                  args = playerName :: serverName :: rest
                  /\ findSession w playerName = Some target
                  /\ serverMap w !! serverName = Some addr /\ addr <> EmptyString))).
Proof.
  intros HF r. subst r. unfold handleCommand. rewrite HF.
  change (String.eqb "transfer" "players") with false.
  change (String.eqb "transfer" "transfer") with true. cbv beta iota.
  destruct args as [|playerName [|serverName rest]].
  - split; [reflexivity|]. right. split; [repeat constructor|].
    intros (? & ? & ? & ? & ? & H & _). discriminate.
  - split; [reflexivity|]. right. split; [repeat constructor|].
    intros (? & ? & ? & ? & ? & H & _). discriminate.
  - destruct (findSession w playerName) as [target|] eqn:Hf.
    2: { split; [reflexivity|]. right. split; [repeat constructor|].
         intros (? & ? & ? & ? & ? & H & Hf' & _). injection H as <- <- <-.
         congruence. }
    unfold findServer.
    destruct (serverMap w !! serverName) as [addr|] eqn:Hm;
      cbn [default from_option]; unfold id.
    2: { split; [reflexivity|]. right. split; [repeat constructor|].
         intros (? & ? & ? & ? & ? & H & _ & Hm' & _). injection H as <- <- <-.
         congruence. }
    destruct (String.eqb_spec addr EmptyString) as [-> | Hne].
    { split; [reflexivity|]. right. split; [repeat constructor|].
      intros (? & ? & ? & ? & ? & H & _ & Hm' & Hne'). injection H as <- <- <-.
      congruence. }
    destruct (TransferTimeout target addr 10) as [e|] eqn:Ht.
    + split; [reflexivity|]. left.
      exists playerName, serverName, rest, target, addr.
      split; [reflexivity|]. split; [exact Hf|]. split; [exact Hm|].
      split; [exact Hne|]. right. exists e. split; [reflexivity | exact Ht].
    + split; [reflexivity|]. left.
      exists playerName, serverName, rest, target, addr.
      split; [reflexivity|]. split; [exact Hf|]. split; [exact Hm|].
      split; [exact Hne|]. left. split; [reflexivity | exact Ht].
Qed.

Lemma isLog_not_transfer evs :
  Forall isLog evs -> ~ (exists n a t, In (EvTransfer n a t) evs).
Proof.
  intros H (n & a & t & Hin).
  apply (proj1 (List.Forall_forall _ _) H) in Hin. exact Hin.
Qed.

Lemma isLog_not_shutsDown evs :
  Forall isLog evs -> List.existsb shutsDown evs = false.
Proof.
  induction 1 as [|ev evs Hev _ IH]; [reflexivity|].
  cbn. rewrite IH. destruct ev; cbn in *; try contradiction; reflexivity.
Qed.

End DispatchFacts.

Section DispatchMore.
Import Engine Main Dispatch.

Lemma isStop_iff cmd : isStop cmd = true <-> cmd = "stop" \/ cmd = "end".
Proof.
  unfold isStop. rewrite orb_true_iff, !String.eqb_eq. reflexivity.
Qed.

(** What any line does, by its fields. *)
Lemma handleCommand_shape command w conf :
  let r := handleCommand command w conf in
  (Fields command = [] /\ r = ([], Running))
  \/ (exists cmd args,
        Fields command = cmd :: args /\ isStop cmd = true
        /\ r.2 = Exited 0 /\ In EvProxyClose r.1
        /\ ~ (exists n a t, In (EvTransfer n a t) r.1))
  \/ (exists args,
        Fields command = "transfer" :: args /\ r.2 = Running
        /\ List.existsb shutsDown r.1 = false)
  \/ (exists cmd args,
        Fields command = cmd :: args /\ cmd <> "transfer" /\ isStop cmd = false
        /\ r.2 = Running /\ Forall isLog r.1).
Proof.
  cbn zeta. destruct (Fields command) as [|cmd args] eqn:HF.
  - left. unfold handleCommand. rewrite HF. auto.
  - right. destruct (isStop cmd) eqn:Hs.
    + left. exists cmd, args.
      destruct (handleCommand_stop command w conf cmd args HF Hs) as (H1 & H2 & H3).
      auto.
    + right. destruct (String.eqb_spec cmd "transfer") as [-> | Hne].
      * left. exists args.
        destruct (handleCommand_transfer command w conf args HF) as [Hr Hev].
        split; [reflexivity|]. split; [exact Hr|].
        destruct Hev as [(p & sv & rest & tg & addr & _ & _ & _ & _ & [[-> _] | (e & -> & _)])
                        | [Hlog _]]; try reflexivity.
        apply isLog_not_shutsDown. exact Hlog.
      * right. exists cmd, args.
        destruct (handleCommand_other command w conf cmd args HF) as [Hl Hr]; auto.
        apply String.eqb_neq. exact Hne.
Qed.

End DispatchMore.

Section DispatchStop.
Import Engine Main Dispatch.

(** What a "stop" or "end" line does, in order. *)
Lemma handleCommand_stop_events command w conf cmd args :
  Fields command = cmd :: args -> isStop cmd = true ->
  handleCommand command w conf
  = (match resourcePackServer w with
     | None => []
     | Some None => [EvServerClose]
     | Some (Some e) =>
         [EvServerClose;
          EvLog LevelError "Failed to close resource pack HTTP server"
                [("error", e)]]
     end ++ [EvProxyClose; info "Stopped proxy"; EvExit 0],
     Exited 0).
Proof.
  intros HF Hs. unfold handleCommand. rewrite HF.
  unfold isStop in Hs.
  assert (Hp : String.eqb cmd "players" = false).
  { destruct (String.eqb_spec cmd "players") as [-> |]; [discriminate | reflexivity]. }
  assert (Ht : String.eqb cmd "transfer" = false).
  { destruct (String.eqb_spec cmd "transfer") as [-> |]; [discriminate | reflexivity]. }
  assert (Hi : String.eqb cmd "info" = false).
  { destruct (String.eqb_spec cmd "info") as [-> |]; [discriminate | reflexivity]. }
  rewrite Hp, Ht, Hi, Hs. reflexivity.
Qed.

End DispatchStop.

(** X18 — only stop and end shut down.  A line makes the process exit
    exactly when its first field is "stop" or "end", and then with
    status 0.  Such a line closes the pack server when there is one
    (logging the error of that close, if any), then closes the proxy,
    then writes "Stopped proxy", and exits last; for every other line
    nothing is closed and the process keeps running. *)
Theorem X18_only_stop_and_end_exit :
  forall (command : string) (w : Main.Console) (conf : Main.ServerConfig),
    ((Main.handleCommand command w conf).2 = Main.Exited 0
     <-> exists cmd args,
           Fields command = cmd :: args /\ (cmd = "stop" \/ cmd = "end"))
    /\ (forall code, (Main.handleCommand command w conf).2 = Main.Exited code ->
                     code = 0%Z)
    /\ (List.existsb Main.shutsDown (Main.handleCommand command w conf).1 = true
        <-> (Main.handleCommand command w conf).2 = Main.Exited 0)
    /\ ((Main.handleCommand command w conf).2 = Main.Exited 0 ->
        (Main.handleCommand command w conf).1
        = match Main.resourcePackServer w with
          | None => []
          | Some None => [EvServerClose]
          | Some (Some e) =>
              [EvServerClose;
               EvLog LevelError "Failed to close resource pack HTTP server"
                     [("error", e)]]
          end ++ [EvProxyClose; Main.info "Stopped proxy"; EvExit 0]).
Proof.
  intros command w conf.
  destruct (handleCommand_shape command w conf)
    as [[HF E] | [(cmd & args & HF & Hs & Hr & Hc & _)
       | [(args & HF & Hr & Hq) | (cmd & args & HF & Hne & Hs & Hr & Hl)]]].
  - rewrite E. cbn. split; [|split; [|split]].
    + split; [discriminate|]. intros (c & a & H & _). congruence.
    + intros code H. discriminate.
    + split; discriminate.
    + discriminate.
  - rewrite Hr. split; [|split; [|split]].
    + split; [|reflexivity]. intros _. exists cmd, args.
      split; [exact HF | apply isStop_iff; exact Hs].
    + intros code [= <-]. reflexivity.
    + split; [reflexivity|]. intros _. apply List.existsb_exists.
      exists EvProxyClose. split; [exact Hc | reflexivity].
    + intros _. rewrite (handleCommand_stop_events command w conf cmd args HF Hs).
      reflexivity.
  - rewrite Hr, Hq. split; [|split; [|split]].
    + split; [discriminate|]. intros (c & a & H & [-> | ->]); rewrite HF in H; discriminate.
    + intros code H. discriminate.
    + split; discriminate.
    + discriminate.
  - rewrite Hr, (isLog_not_shutsDown _ Hl). split; [|split; [|split]].
    + split; [discriminate|]. intros (c & a & H & Hc). rewrite HF in H.
      injection H as <- <-. apply isStop_iff in Hc. congruence.
    + intros code H. discriminate.
    + split; discriminate.
    + discriminate.
Qed.

Lemma X18_only_stop_witness :
  (exists cmd args, Fields "  end now" = cmd :: args /\ (cmd = "stop" \/ cmd = "end"))
  /\ (Main.handleCommand "  end now" Samples.console Samples.defaultConfig).2
     = Main.Exited 0.
Proof.
  assert (H : exists cmd args,
             Fields "  end now" = cmd :: args /\ (cmd = "stop" \/ cmd = "end")).
  { exists "end", ["now"]. split; [reflexivity | right; reflexivity]. }
  split; [exact H|].
  exact (proj2 (proj1 (X18_only_stop_and_end_exit "  end now" Samples.console
                         Samples.defaultConfig)) H).
Defined.

(** X19 — when a transfer is requested.  The engine is asked to
    transfer session n to an address exactly when the line's fields are
    "transfer", a player and a server (anything after them is ignored),
    n is the first session of the registry whose display name equals
    the player, and the address is the one configured under the server
    name and is not empty; the timeout is always 10 seconds.  A server
    configured with an empty address counts as not found. *)
Theorem X19_transfer_only_for_known_player_and_server :
  forall (command : string) (w : Main.Console) (conf : Main.ServerConfig)
         (n : nat) (addr : string) (t : Z),
    In (EvTransfer n addr t) (Main.handleCommand command w conf).1
    <-> exists playerName serverName rest target,
          Fields command = "transfer" :: playerName :: serverName :: rest
          /\ List.find (fun s => String.eqb (Engine.DisplayName s) playerName)
                       (Main.sessions w) = Some target
          /\ Engine.sid target = n
          /\ Main.serverMap w !! serverName = Some addr
          /\ addr <> EmptyString /\ t = 10%Z.
Proof.
  intros command w conf n addr t.
  destruct (handleCommand_shape command w conf)
    as [[HF E] | [(cmd & args & HF & Hs & _ & _ & Hnt)
       | [(args & HF & _ & _) | (cmd & args & HF & Hne & _ & _ & Hl)]]].
  - rewrite E. split; [intros [] | intros (? & ? & ? & ? & H & _); congruence].
  - split; [intros Hin; exfalso; apply Hnt; eauto|].
    intros (p & sv & rest & tg & H & _). rewrite HF in H. injection H as -> _.
    discriminate.
  - destruct (handleCommand_transfer command w conf args HF) as [_ Hev].
    cbn zeta in Hev.
    destruct Hev as [(p & sv & rest & tg & a & -> & Hf & Hm & Hna & Hcase) | [Hlog Hno]].
    + assert (Hev : forall ev2,
                 In (EvTransfer n addr t) [EvTransfer (Engine.sid tg) a 10; ev2]
                 -> ev2 <> EvTransfer n addr t
                 -> Engine.sid tg = n /\ a = addr /\ t = 10%Z).
      { intros ev2 [H | [H | []]] Hne2; [injection H as <- <- <-; auto | congruence]. }
      split.
      * intros Hin. exists p, sv, rest, tg.
        assert (Hres : Engine.sid tg = n /\ a = addr /\ t = 10%Z).
        { destruct Hcase as [[E _] | (e & E & _)]; rewrite E in Hin;
            (apply Hev in Hin; [exact Hin | unfold Main.info; discriminate]). }
        destruct Hres as (<- & <- & ->). auto 10.
      * intros (p' & sv' & rest' & tg' & H & Hf' & <- & Hm' & _ & ->).
        rewrite HF in H. injection H as <- <- <-.
        unfold Main.findSession in Hf. rewrite Hf in Hf'. injection Hf' as <-.
        rewrite Hm in Hm'. injection Hm' as <-.
        destruct Hcase as [[E _] | (e & E & _)]; rewrite E; left; reflexivity.
    + split.
      * intros Hin. exfalso. apply (isLog_not_transfer _ Hlog). eauto.
      * intros (p' & sv' & rest' & tg' & H & Hf' & _ & Hm' & Hna & _).
        exfalso. apply Hno. rewrite HF in H. injection H as ->.
        exists p', sv', rest', tg', addr. auto.
  - split; [intros Hin; exfalso; apply (isLog_not_transfer _ Hl); eauto|].
    intros (p & sv & rest & tg & H & _). rewrite HF in H. injection H as -> _.
    congruence.
Qed.

Lemma X19_transfer_witness :
  In (EvTransfer 1 "127.0.0.1:19134" 10)
     (Main.handleCommand "transfer Alice island1 now" Samples.console
                         Samples.defaultConfig).1
  /\ exists playerName serverName rest target,
       Fields "transfer Alice island1 now"
       = "transfer" :: playerName :: serverName :: rest
       /\ Engine.sid target = 1%nat.
Proof.
  assert (H : In (EvTransfer 1 "127.0.0.1:19134" 10)
                (Main.handleCommand "transfer Alice island1 now" Samples.console
                                    Samples.defaultConfig).1)
    by (left; reflexivity).
  split; [exact H|].
  destruct (proj1 (X19_transfer_only_for_known_player_and_server
                     "transfer Alice island1 now" Samples.console
                     Samples.defaultConfig 1 "127.0.0.1:19134" 10) H)
    as (p & sv & rest & tg & HF & _ & Hsid & _).
  exists p, sv, rest, tg. split; [exact HF | exact Hsid].
Defined.

(** X20 — every other line only logs.  A line whose first field is
    neither "transfer" nor "stop" nor "end" (players, info, or any
    unknown word) only writes log records: no session is transferred,
    nothing is closed, and the process keeps running.  A line without
    fields does nothing at all. *)
Theorem X20_other_lines_only_log :
  forall (command : string) (w : Main.Console) (conf : Main.ServerConfig),
    (Fields command = [] -> Main.handleCommand command w conf = ([], Main.Running))
    /\ (forall cmd args,
          Fields command = cmd :: args ->
          cmd <> "transfer" -> cmd <> "stop" -> cmd <> "end" ->
          Forall isLog (Main.handleCommand command w conf).1
          /\ (Main.handleCommand command w conf).2 = Main.Running
          /\ List.existsb Main.invokesTransfer (Main.handleCommand command w conf).1
             = false
          /\ List.existsb Main.shutsDown (Main.handleCommand command w conf).1
             = false).
Proof.
  intros command w conf. split.
  - intros HF. unfold Main.handleCommand. rewrite HF. reflexivity.
  - intros cmd args HF Ht Hs He.
    destruct (handleCommand_other command w conf cmd args HF) as [Hl Hr].
    + apply String.eqb_neq. exact Ht.
    + unfold Dispatch.isStop. apply orb_false_iff.
      split; apply String.eqb_neq; assumption.
    + split; [exact Hl|]. split; [exact Hr|].
      split; [|apply isLog_not_shutsDown; exact Hl].
      clear Hr. induction Hl as [|ev evs Hev _ IH]; [reflexivity|].
      cbn. rewrite IH. destruct ev; cbn in *; try contradiction; reflexivity.
Qed.

Lemma X20_other_lines_witness :
  Fields "Transfer Alice lobby" = "Transfer" :: ["Alice"; "lobby"]
  /\ "Transfer" <> "transfer" /\ "Transfer" <> "stop" /\ "Transfer" <> "end"
  /\ (Main.handleCommand "Transfer Alice lobby" Samples.console
                         Samples.defaultConfig).2 = Main.Running.
Proof.
  assert (H1 : Fields "Transfer Alice lobby" = "Transfer" :: ["Alice"; "lobby"])
    by reflexivity.
  assert (H2 : "Transfer" <> "transfer") by discriminate.
  assert (H3 : "Transfer" <> "stop") by discriminate.
  assert (H4 : "Transfer" <> "end") by discriminate.
  split; [exact H1|]. split; [exact H2|]. split; [exact H3|]. split; [exact H4|].
  exact (proj1 (proj2 (proj2 (X20_other_lines_only_log "Transfer Alice lobby"
                                Samples.console Samples.defaultConfig)
                             "Transfer" ["Alice"; "lobby"] H1 H2 H3 H4))).
Defined.

(** X21 — the executor.  A blank line changes nothing: no history
    entry, no event.  Any other line has at least one field once
    stripped, so the dispatcher never sees a line without a command;
    with a history file whose bound is not negative the outcome is that
    of [Append] on the line, an error record when saving failed, and
    then the dispatch of the stripped line: the history is updated
    before the command runs, whatever the command is. *)
Theorem X21_executor_appends_then_dispatches :
  forall (line : string) (h : History.HistoryFile) (ioerr : option string)
         (w : Main.Console) (conf : Main.ServerConfig),
    (0 <= History.maxSize h)%Z ->
    (TrimSpace line = EmptyString ->
     forall hist, Main.executor line hist ioerr w conf = Returns (hist, [], Main.Running))
    /\ (TrimSpace line <> EmptyString ->
        Fields (TrimSpace line) <> []
        /\ Main.executor line None ioerr w conf
           = Returns (None, (Main.handleCommand (TrimSpace line) w conf).1,
                      (Main.handleCommand (TrimSpace line) w conf).2)
        /\ exists h' evs err,
             History.Append h line ioerr = Returns (h', evs, err)
             /\ Main.executor line (Some h) ioerr w conf
                = Returns
                    (Some h',
                     (evs ++ match err with
                             | Some e =>
                                 [EvLog LevelError "Failed to save command to history"
                                        [("error", e)]]
                             | None => []
                             end)
                       ++ (Main.handleCommand (TrimSpace line) w conf).1,
                     (Main.handleCommand (TrimSpace line) w conf).2)).
Proof.
  intros line h ioerr w conf HN. split.
  - intros He hist. unfold Main.executor. rewrite He. reflexivity.
  - intros Hne. split; [apply Fields_TrimSpace_nonempty; exact Hne|].
    unfold Main.executor. rewrite (proj2 (String.eqb_neq _ _) Hne). split.
    + destruct (Main.handleCommand (TrimSpace line) w conf). reflexivity.
    + assert (HA : History.Append h (TrimSpace line) ioerr = History.Append h line ioerr).
      { unfold History.Append. rewrite TrimSpace_idem. reflexivity. }
      rewrite HA.
      destruct (Append_spec h line ioerr HN) as (h' & evs & err & HAp & _).
      exists h', evs, err. split; [exact HAp|]. rewrite HAp.
      destruct (Main.handleCommand (TrimSpace line) w conf) as [evs2 p].
      destruct err; [reflexivity|]. rewrite app_nil_r. reflexivity.
Qed.

Lemma X21_executor_witness :
  (0 <= History.maxSize (History.mkHistoryFile "command_history.txt" 100 ["info"]))%Z
  /\ TrimSpace "  players " <> EmptyString
  /\ Fields (TrimSpace "  players ") <> [].
Proof.
  assert (H0 : (0 <= History.maxSize
                      (History.mkHistoryFile "command_history.txt" 100 ["info"]))%Z)
    by (simpl; lia).
  assert (H1 : TrimSpace "  players " <> EmptyString) by (vm_compute; discriminate).
  split; [exact H0|]. split; [exact H1|].
  exact (proj1 (proj2 (X21_executor_appends_then_dispatches "  players "
                         (History.mkHistoryFile "command_history.txt" 100 ["info"])
                         None Samples.console Samples.defaultConfig H0) H1)).
Defined.

Section ParseFacts.
Import Resource Main.

Lemma parseEntries_ok keys d entries ps0 : forall acc,
  Forall2 (fun n p => readPath d n = Ok p) entries ps0 ->
  (parseEntries keys d entries acc).2
  = Ok (acc ++ List.map (fun p => match keys !! UUID p with
                                  | Some key => WithContentKey p key
                                  | None => p
                                  end) ps0)
  /\ length (parseEntries keys d entries acc).1 = length ps0.
Proof.
  intros acc H. revert acc.
  induction H as [|n p entries ps0 Hp _ IH]; intros acc.
  - cbn. rewrite app_nil_r. split; reflexivity.
  - cbn [parseEntries]. rewrite Hp.
    specialize (IH (acc ++ [match keys !! UUID p with
                            | Some key => WithContentKey p key
                            | None => p
                            end])).
    destruct (parseEntries keys d entries _) as [evs r]. cbn [fst snd] in *.
    destruct IH as [-> Hlen]. rewrite <- app_assoc. cbn. rewrite Hlen.
    split; reflexivity.
Qed.

End ParseFacts.

(** X22 — parse on a clean directory.  When the working directory is
    known, the pack directory exists or can be created, and every entry
    of it decodes, [parse] returns the decoded packs in directory
    order, each with the content key registered for its identifier
    (with no keys, as [main] calls it, the packs themselves), and
    writes one record per pack. *)
Theorem X22_parse_returns_packs_in_directory_order :
  forall (keys : gmap string string) (d : Main.Disk) (wd : string)
         (entries : list string) (ps0 : list Resource.Pack),
    Main.getwd d = Ok wd ->
    (Main.dirMissing d = true -> Main.mkdirErr d = None) ->
    Main.readDir d = Ok entries ->
    Forall2 (fun n p => Main.readPath d n = Ok p) entries ps0 ->
    (Main.parse keys d).2
    = Ok (List.map (fun p => match keys !! Resource.UUID p with
                             | Some key => Resource.WithContentKey p key
                             | None => p
                             end) ps0)
    /\ length (Main.parse keys d).1 = length ps0
    /\ Forall isLog (Main.parse keys d).1
    /\ (Main.parse ∅ d).2 = Ok ps0.
Proof.
  intros keys d wd entries ps0 Hwd Hmk Hrd Hall.
  assert (Hdir : (if Main.dirMissing d then Main.mkdirErr d else None) = None).
  { destruct (Main.dirMissing d); [apply Hmk; reflexivity | reflexivity]. }
  split; [|split; [|split]].
  - unfold Main.parse. rewrite Hwd, Hdir, Hrd.
    apply (parseEntries_ok keys d entries ps0 [] Hall).
  - unfold Main.parse. rewrite Hwd, Hdir, Hrd.
    apply (parseEntries_ok keys d entries ps0 [] Hall).
  - apply parse_logs.
  - unfold Main.parse. rewrite Hwd, Hdir, Hrd.
    rewrite (proj1 (parseEntries_ok ∅ d entries ps0 [] Hall)).
    cbn [app]. f_equal. clear. induction ps0 as [|p ps0 IH]; [reflexivity|].
    cbn [List.map]. rewrite lookup_empty, IH. reflexivity.
Qed.

Lemma X22_parse_witness :
  (Main.parse ∅ Samples.packDisk).2 = Ok [Samples.texturePack]
  /\ length (Main.parse ∅ Samples.packDisk).1 = 1%nat.
Proof.
  assert (H : Forall2 (fun n p => Main.readPath Samples.packDisk n = Ok p)
                      ["textures.mcpack"] [Samples.texturePack]).
  { constructor; [reflexivity | constructor]. }
  pose proof (X22_parse_returns_packs_in_directory_order
                ∅ Samples.packDisk "/srv/proxy" ["textures.mcpack"]
                [Samples.texturePack] eq_refl (fun _ => eq_refl) eq_refl H)
    as (_ & Hlen & _ & Hps).
  split; [exact Hps | exact Hlen].
Defined.

Section TableFacts.
Import Main.

Lemma find_app_first (f : Server -> bool) l1 l2 :
  List.find f (l1 ++ l2)
  = match List.find f l1 with
    | Some s => Some s
    | None => List.find f l2
    end.
Proof.
  induction l1 as [|x l1 IH]; [reflexivity|].
  cbn. destruct (f x); [reflexivity | exact IH].
Qed.

Lemma loadServers_fold conf servers : forall sm a2n lobby evs,
  let r := List.fold_left (loadServer conf) servers (sm, a2n, lobby, evs) in
  (forall name,
      r.1.1.1 !! name
      = match List.find (fun s => String.eqb (srvName s) name) (rev servers) with
        | Some s => Some (srvAddr s)
        | None => sm !! name
        end)
  /\ r.1.2
     = match List.find (fun s => String.eqb (srvName s) (DefaultServer conf))
                       (rev servers) with
       | Some s => srvAddr s
       | None => lobby
       end
  /\ r.2 = evs ++ List.map (fun srv => EvLog LevelInfo "Loaded server"
                                             [("name", srvName srv);
                                              ("address", srvAddr srv)]) servers.
Proof.
  induction servers as [|srv servers IH]; intros sm a2n lobby evs.
  - cbn. rewrite app_nil_r. auto.
  - cbn [List.fold_left].
    change (loadServer conf (sm, a2n, lobby, evs) srv)
      with (<[srvName srv := srvAddr srv]> sm,
            <[srvAddr srv := srvName srv]> a2n,
            (if String.eqb (srvName srv) (DefaultServer conf)
             then srvAddr srv else lobby),
            evs ++ [EvLog LevelInfo "Loaded server"
                          [("name", srvName srv); ("address", srvAddr srv)]]).
    specialize (IH (<[srvName srv := srvAddr srv]> sm)
                   (<[srvAddr srv := srvName srv]> a2n)
                   (if String.eqb (srvName srv) (DefaultServer conf)
                    then srvAddr srv else lobby)
                   (evs ++ [EvLog LevelInfo "Loaded server"
                                  [("name", srvName srv); ("address", srvAddr srv)]])).
    cbn zeta in *. destruct IH as (IH1 & IH2 & IH3).
    split; [|split].
    + intros name. rewrite IH1. cbn [rev]. rewrite find_app_first.
      destruct (List.find (fun s => String.eqb (srvName s) name) (rev servers));
        [reflexivity|].
      cbn [List.find]. destruct (String.eqb_spec (srvName srv) name) as [<- | Hne].
      * apply lookup_insert_eq.
      * apply lookup_insert_ne. exact Hne.
    + rewrite IH2. cbn [rev]. rewrite find_app_first.
      destruct (List.find (fun s => String.eqb (srvName s) (DefaultServer conf))
                          (rev servers)); [reflexivity|].
      cbn [List.find]. destruct (String.eqb (srvName srv) (DefaultServer conf));
        reflexivity.
    + rewrite IH3, <- app_assoc. reflexivity.
Qed.

Lemma find_rev_last (f : Server -> bool) pre srv post :
  f srv = true -> (forall s, In s post -> f s = false) ->
  List.find f (rev (pre ++ srv :: post)) = Some srv.
Proof.
  intros Hs Hpost. rewrite rev_app_distr. cbn [rev]. rewrite <- app_assoc.
  rewrite find_app_first.
  assert (Hn : List.find f (rev post) = None).
  { destruct (List.find f (rev post)) as [s|] eqn:E; [|reflexivity].
    apply List.find_some in E as [Hin Hf]. apply in_rev in Hin.
    rewrite (Hpost s Hin) in Hf. discriminate. }
  rewrite Hn. cbn. rewrite Hs. reflexivity.
Qed.

Lemma find_none_all (f : Server -> bool) l :
  (forall s, In s l -> f s = false) -> List.find f (rev l) = None.
Proof.
  intros H. destruct (List.find f (rev l)) as [s|] eqn:E; [|reflexivity].
  apply List.find_some in E as [Hin Hf]. apply in_rev in Hin.
  rewrite (H s Hin) in Hf. discriminate.
Qed.

End TableFacts.

(** X23 — the server table.  Of several entries with one name the last
    one counts: the table maps the name to the address of its last
    entry, and the lobby address is that of the last entry named as the
    default server.  A name no entry carries is not in the table. *)
Theorem X23_server_table_last_entry_wins :
  forall (conf : Main.ServerConfig) (pre post : list Main.Server) (srv : Main.Server),
    Main.Servers conf = pre ++ srv :: post ->
    (forall s, In s post -> Main.srvName s <> Main.srvName srv) ->
    (Main.loadServers conf).1.1.1 !! Main.srvName srv = Some (Main.srvAddr srv)
    /\ (Main.srvName srv = Main.DefaultServer conf ->
        Main.lobbyAddress conf = Main.srvAddr srv)
    /\ (forall name,
          (forall s, In s (Main.Servers conf) -> Main.srvName s <> name) ->
          (Main.loadServers conf).1.1.1 !! name = None).
Proof.
  intros conf pre post srv HS Hpost.
  destruct (loadServers_fold conf (Main.Servers conf) ∅ ∅ EmptyString [])
    as (H1 & H2 & _).
  fold (Main.loadServers conf) in H1, H2.
  split; [|split].
  - rewrite H1, HS.
    rewrite (find_rev_last (fun s => String.eqb (Main.srvName s) (Main.srvName srv))
               pre srv post); [reflexivity | apply String.eqb_refl |].
    intros s Hin. apply String.eqb_neq. apply Hpost. exact Hin.
  - intros Hd. unfold Main.lobbyAddress. rewrite H2, HS, <- Hd.
    rewrite (find_rev_last (fun s => String.eqb (Main.srvName s) (Main.srvName srv))
               pre srv post); [reflexivity | apply String.eqb_refl |].
    intros s Hin. apply String.eqb_neq. apply Hpost. exact Hin.
  - intros name Hno. rewrite H1.
    rewrite find_none_all; [apply lookup_empty|].
    intros s Hin. apply String.eqb_neq. apply Hno. exact Hin.
Qed.

Lemma X23_server_table_witness :
  (Main.loadServers
     (Main.mkConfig "Spectrum Proxy" "0.0.0.0:19132" "lobby"
        [Main.mkServerEntry "lobby" "127.0.0.1:19133";
         Main.mkServerEntry "lobby" "10.0.0.7:19133";
         Main.mkServerEntry "island1" "127.0.0.1:19134"]
        "Proxy shutdown" false (Main.mkCdn false "0.0.0.0" 8080) false)).1.1.1
    !! "lobby" = Some "10.0.0.7:19133".
Proof.
  refine (proj1 (X23_server_table_last_entry_wins
            (Main.mkConfig "Spectrum Proxy" "0.0.0.0:19132" "lobby"
               [Main.mkServerEntry "lobby" "127.0.0.1:19133";
                Main.mkServerEntry "lobby" "10.0.0.7:19133";
                Main.mkServerEntry "island1" "127.0.0.1:19134"]
               "Proxy shutdown" false (Main.mkCdn false "0.0.0.0" 8080) false)
            [Main.mkServerEntry "lobby" "127.0.0.1:19133"]
            [Main.mkServerEntry "island1" "127.0.0.1:19134"]
            (Main.mkServerEntry "lobby" "10.0.0.7:19133") eq_refl _)).
  intros s [<- | []]. simpl. discriminate.
Defined.

(** X24 — no default server.  When no configured server carries the
    name of the default server (or the last one that does has an empty
    address), startup writes one record per configured server and then
    "No default server found", and returns: the pack directory is not
    parsed and no listener is opened, whatever the rest of the
    environment is. *)
Theorem X24_no_default_server_stops_startup :
  forall (env : Main.Env) (conf : Main.ServerConfig),
    Main.readConfig env = Ok conf ->
    ((forall s, In s (Main.Servers conf) -> Main.srvName s <> Main.DefaultServer conf) ->
     Main.lobbyAddress conf = EmptyString)
    /\ (Main.lobbyAddress conf = EmptyString ->
        Main.main env
        = (List.map (fun srv => EvLog LevelInfo "Loaded server"
                                      [("name", Main.srvName srv);
                                       ("address", Main.srvAddr srv)])
                    (Main.Servers conf)
             ++ [EvLog LevelError "No default server found" []],
           Main.StartupReturns)).
Proof.
  intros env conf Hc.
  destruct (loadServers_fold conf (Main.Servers conf) ∅ ∅ EmptyString [])
    as (_ & H2 & H3).
  fold (Main.loadServers conf) in H2, H3.
  split.
  - intros Hno. unfold Main.lobbyAddress. rewrite H2.
    rewrite find_none_all; [reflexivity|].
    intros s Hin. apply String.eqb_neq. apply Hno. exact Hin.
  - intros Hl. unfold Main.main. rewrite Hc.
    unfold Main.lobbyAddress in Hl.
    destruct (Main.loadServers conf) as [[[sm a2n] lobby] evs0].
    cbn [fst snd] in *. rewrite Hl in H2. subst lobby evs0. reflexivity.
Qed.

Lemma X24_no_default_witness :
  (Main.main
     (Main.mkEnv
        (Ok (Main.mkConfig "Spectrum Proxy" "0.0.0.0:19132" "hub"
               [Main.mkServerEntry "lobby" "127.0.0.1:19133"]
               "Proxy shutdown" false (Main.mkCdn true "0.0.0.0" 8080) false))
        Samples.packDisk None Samples.frontGet Samples.sampleRead None)).2
  = Main.StartupReturns.
Proof.
  pose (conf := Main.mkConfig "Spectrum Proxy" "0.0.0.0:19132" "hub"
                  [Main.mkServerEntry "lobby" "127.0.0.1:19133"]
                  "Proxy shutdown" false (Main.mkCdn true "0.0.0.0" 8080) false).
  pose (env := Main.mkEnv (Ok conf) Samples.packDisk None Samples.frontGet
                          Samples.sampleRead None).
  destruct (X24_no_default_server_stops_startup env conf eq_refl) as [H1 H2].
  assert (Hno : forall s, In s (Main.Servers conf) ->
                          Main.srvName s <> Main.DefaultServer conf).
  { intros s [<- | []]. simpl. discriminate. }
  change (snd (Main.main env) = Main.StartupReturns).
  rewrite (H2 (H1 Hno)). reflexivity.
Defined.

(** X25 — startup without the pack server.  With the CDN disabled, or
    with no pack in the directory, no pack server is created, no pack
    is read and nothing is downloaded: besides log records the only
    event is the proxy's listen, which gets the packs as parsed and
    requires them exactly when there is one.  Startup then runs with
    the loaded server table and no pack server, or returns when the
    proxy cannot listen. *)
Theorem X25_startup_without_pack_server :
  forall (env : Main.Env) (conf : Main.ServerConfig) (ps : list Resource.Pack),
    Main.readConfig env = Ok conf ->
    Main.lobbyAddress conf <> EmptyString ->
    (Main.parse ∅ (Main.disk env)).2 = Ok ps ->
    Main.Enabled (Main.Cdn conf) = false \/ ps = [] ->
    (forall ev, In ev (Main.main env).1 ->
                isLog ev
                \/ ev = EvProxyListen (List.map Resource.UUID ps)
                                      (negb (Nat.eqb (length ps) 0)))
    /\ In (EvProxyListen (List.map Resource.UUID ps) (negb (Nat.eqb (length ps) 0)))
          (Main.main env).1
    /\ (Main.main env).2
       = match Main.listenErr env with
         | Some _ => Main.StartupReturns
         | None => Main.StartupRuns (Main.loadServers conf).1.1.1
                                    (Main.lobbyAddress conf) ps None
         end.
Proof.
  intros env conf ps Hc Hlobby Hp Hoff.
  unfold Main.main. rewrite Hc.
  pose proof (loadServer_logs conf (Main.Servers conf) ∅ ∅ EmptyString []
                (List.Forall_nil _)) as Hl.
  fold (Main.loadServers conf) in Hl.
  unfold Main.lobbyAddress in *.
  destruct (Main.loadServers conf) as [[[sm a2n] lobby] evs0]. cbn [fst snd] in *.
  rewrite (proj2 (String.eqb_neq _ _) Hlobby).
  pose proof (parse_logs ∅ (Main.disk env)) as Hpl.
  destruct (Main.parse ∅ (Main.disk env)) as [evs1 r]. cbn [fst snd] in *. subst r.
  assert (Hcond : Main.Enabled (Main.Cdn conf) && (0 <? length ps)%nat = false).
  { destruct Hoff as [-> | ->]; [reflexivity | apply andb_false_r]. }
  rewrite Hcond.
  assert (Hreq : (0 <? length ps)%nat = negb (Nat.eqb (length ps) 0)).
  { destruct ps; reflexivity. }
  rewrite Hreq.
  rewrite List.Forall_forall in Hl, Hpl.
  destruct (Main.listenErr env); cbn [fst snd]; (split; [|split; [|reflexivity]]).
  - intros ev Hin. rewrite !in_app_iff in Hin. cbn in Hin.
    destruct Hin as [[H | [H | [<- | []]]] | [<- | []]]; auto. left. exact I.
  - rewrite !in_app_iff. cbn. auto.
  - intros ev Hin. rewrite !in_app_iff in Hin. cbn in Hin.
    destruct Hin as [[H | [H | [<- | []]]] | [<- | [<- | []]]]; auto; left; exact I.
  - rewrite !in_app_iff. cbn. auto.
Qed.

Lemma X25_startup_witness :
  Main.lobbyAddress Samples.defaultConfig <> EmptyString
  /\ (Main.main (Main.mkEnv (Ok Samples.defaultConfig) Samples.packDisk None
                            Samples.downGet Samples.sampleRead None)).2
     = Main.StartupRuns (Main.loadServers Samples.defaultConfig).1.1.1
                        (Main.lobbyAddress Samples.defaultConfig)
                        [Samples.texturePack] None.
Proof.
  assert (H : Main.lobbyAddress Samples.defaultConfig <> EmptyString)
    by (vm_compute; discriminate).
  split; [exact H|].
  exact (proj2 (proj2 (X25_startup_without_pack_server
                         (Main.mkEnv (Ok Samples.defaultConfig) Samples.packDisk None
                                     Samples.downGet Samples.sampleRead None)
                         Samples.defaultConfig [Samples.texturePack]
                         eq_refl H eq_refl (or_introl eq_refl)))).
Defined.

Section OrderFacts.
Import Resource PackServer Main Order.

Lemma noFetch_logs evs : Forall isLog evs -> noFetch evs.
Proof.
  induction 1 as [|ev evs Hev _ IH]; intros url; [intros []|].
  intros [Heq | Hin]; [subst ev; exact Hev | exact (IH url Hin)].
Qed.

Lemma noFetch_app a b : noFetch a -> noFetch b -> noFetch (a ++ b).
Proof.
  intros Ha Hb url Hin. apply in_app_or in Hin as [H | H];
    [exact (Ha url H) | exact (Hb url H)].
Qed.

Lemma noFetch_fold_cacheStep ps : forall pm cc evs,
  noFetch evs -> noFetch (List.fold_left cacheStep ps (pm, cc, evs)).2.
Proof.
  induction ps as [|p ps IH]; intros pm cc evs Hevs; [exact Hevs|].
  cbn [List.fold_left]. unfold cacheStep at 2.
  destruct (ReadAt p); apply IH; (apply noFetch_app; [exact Hevs|]);
    intros url [H | [H | []]]; discriminate.
Qed.

Lemma prefix_before (A B pre post : list Event) x :
  A ++ B = pre ++ x :: post -> ~ In x A -> exists pre', pre = A ++ pre' /\ B = pre' ++ x :: post.
Proof.
  revert pre. induction A as [|a A IH]; intros pre E Hx.
  - exists pre. split; [reflexivity | exact E].
  - destruct pre as [|b pre]; cbn in E.
    + injection E as -> _. exfalso. apply Hx. left. reflexivity.
    + injection E as <- E.
      destruct (IH pre E) as (pre' & -> & HB); [intros H; apply Hx; right; exact H|].
      exists pre'. split; [reflexivity | exact HB].
Qed.

Lemma far_noFetch evs : noFetch evs -> fetchesAfterReady evs.
Proof.
  intros H pre url post E. exfalso. apply (H url). rewrite E.
  apply in_or_app. right. left. reflexivity.
Qed.

Lemma far_app_l A B : noFetch A -> fetchesAfterReady B -> fetchesAfterReady (A ++ B).
Proof.
  intros HA HB pre url post E.
  destruct (prefix_before A B pre post _ E (HA url)) as (pre' & -> & E').
  destruct (HB pre' url post E') as [H1 [addr H2]].
  split; [apply in_or_app; right; exact H1|].
  exists addr. apply in_or_app. right. exact H2.
Qed.

Lemma far_ready A B addr :
  noFetch A -> In EvCloseReady A -> In (EvListen addr true) A ->
  fetchesAfterReady (A ++ B).
Proof.
  intros HA H1 H2 pre url post E.
  destruct (prefix_before A B pre post _ E (HA url)) as (pre' & -> & _).
  split; [apply in_or_app; left; exact H1|].
  exists addr. apply in_or_app. left. exact H2.
Qed.

(** In the pack server part of startup nothing is downloaded before
    the listener is bound and readiness signalled. *)
Lemma startCDN_order env conf ps : fetchesAfterReady (startCDN env conf ps).1.
Proof.
  unfold startCDN, NewResourcePackServer.
  destruct (getwd (disk env)) as [wd|e].
  - pose proof (noFetch_fold_cacheStep ps ∅ ∅ [] (fun _ H => H)) as Hfold.
    destruct (List.fold_left cacheStep ps (∅, ∅, [])) as [[pm cc] evsN].
    cbn [fst snd] in Hfold.
    unfold Start. cbn [ready Addr]. destruct (bindErr env) as [e|].
    + cbn. apply far_noFetch. apply noFetch_app; [exact Hfold|].
      intros url [H | [H | [H | []]]]; discriminate.
    + cbn [WaitForReady closeReady ready].
      match goal with
      | |- context [ModifyResourcePackForCDN ?g ?r ?p ?b] =>
          destruct (ModifyResourcePackForCDN g r p b) as [evs3 [ps'|m]]
      end; cbn [fst]; apply far_app_l; try exact Hfold;
        match goal with
        | |- fetchesAfterReady (?A ++ ?B) =>
            apply (far_ready A B (":" +:+ itoaZ (Port (Cdn conf))))
        end;
        try (intros url [H | [H | [H | [H | []]]]]; discriminate);
        cbn; auto.
  - cbn. apply far_noFetch. intros url [H | []]. discriminate.
Qed.

End OrderFacts.

(** X26 — downloads wait for the pack server.  In the events of
    startup every download of a pack comes after the pack server bound
    its address and after the readiness signal: [main] never fetches a
    pack from a server that is not listening yet. *)
Theorem X26_downloads_follow_readiness :
  forall (env : Main.Env) (pre post : list Event) (url : string),
    (Main.main env).1 = pre ++ EvHttpGet url :: post ->
    In EvCloseReady pre /\ exists addr, In (EvListen addr true) pre.
Proof.
  intros env pre0 post0 url0 E0.
  assert (H : Order.fetchesAfterReady (Main.main env).1);
    [|exact (H pre0 url0 post0 E0)].
  clear pre0 post0 url0 E0.
  unfold Main.main. destruct (Main.readConfig env) as [conf|e];
    [|apply far_noFetch; intros url []].
  pose proof (loadServer_logs conf (Main.Servers conf) ∅ ∅ EmptyString []
                (List.Forall_nil _)) as Hl.
  fold (Main.loadServers conf) in Hl.
  destruct (Main.loadServers conf) as [[[sm a2n] lobby] evs0]. cbn [fst snd] in Hl.
  apply noFetch_logs in Hl.
  assert (Hone : forall ev, isLog ev -> Order.noFetch [ev]).
  { intros ev Hev. apply noFetch_logs. constructor; [exact Hev | constructor]. }
  destruct (String.eqb lobby EmptyString).
  { cbn [fst]. apply far_noFetch. apply noFetch_app; [exact Hl|]. apply Hone. exact I. }
  pose proof (parse_logs ∅ (Main.disk env)) as Hpl. apply noFetch_logs in Hpl.
  destruct (Main.parse ∅ (Main.disk env)) as [evs1 [ps|e]]; cbn [fst snd] in Hpl.
  2:{ cbn [fst]. apply far_noFetch. repeat apply noFetch_app; auto.
      apply Hone. exact I. }
  assert (Hlisten : forall evs ps' rps,
             Order.fetchesAfterReady evs ->
             Order.fetchesAfterReady
               (match Main.listenErr env with
                | Some _ =>
                    (evs ++ [EvProxyListen (List.map Resource.UUID ps')
                                           (0 <? length ps')%nat],
                     Main.StartupReturns)
                | None =>
                    (evs ++ [EvProxyListen (List.map Resource.UUID ps')
                                           (0 <? length ps')%nat;
                             EvLog LevelInfo "Starting spectrum proxy"
                                   [("oomph-enabled",
                                     if Main.OomphEnabled conf then "true" else "false");
                                    ("addr", Main.BindAddr conf)]],
                     Main.StartupRuns sm lobby ps' rps)
                end).1).
  { intros evs ps' rps Hevs pre url post E.
    assert (Htail : forall tl, Order.noFetch tl ->
                               evs ++ tl = pre ++ EvHttpGet url :: post ->
                               In EvCloseReady pre
                               /\ exists addr, In (EvListen addr true) pre).
    { intros tl Htl E'.
      assert (Hcut : exists post', evs = pre ++ EvHttpGet url :: post').
      { clear - E' Htl. revert pre E'.
        induction evs as [|a evs IH]; intros pre E'.
        - exfalso. apply (Htl url). cbn in E'. rewrite E'.
          apply in_or_app. right. left. reflexivity.
        - destruct pre as [|b pre]; cbn in E'.
          + injection E' as -> _. exists evs. reflexivity.
          + injection E' as <- E'. destruct (IH pre E') as [post' ->].
            exists post'. reflexivity. }
      destruct Hcut as [post' Hcut]. exact (Hevs pre url post' Hcut). }
    destruct (Main.listenErr env); cbn [fst] in E;
      (eapply Htail; [|exact E]);
      [intros u [H | []] | intros u [H | [H | []]]]; discriminate. }
  cbv zeta.
  destruct (Main.Enabled (Main.Cdn conf) && (0 <? length ps)%nat).
  - pose proof (startCDN_order env conf ps) as Hcdn.
    assert (Hpre : forall evs3, Order.fetchesAfterReady evs3 ->
                     Order.fetchesAfterReady
                       (evs0 ++ evs1 ++ [EvLog LevelInfo "Loaded resource packs"
                                               [("count", itoa (length ps))]] ++ evs3)).
    { intros evs3 H3. apply far_app_l; [exact Hl|]. apply far_app_l; [exact Hpl|].
      apply far_app_l; [apply Hone; exact I | exact H3]. }
    destruct (Main.startCDN env conf ps) as [evs3 [ | | m | ps' s]]; cbn [fst] in Hcdn;
      try (cbn [fst]; apply Hpre; exact Hcdn).
    apply Hlisten. apply Hpre. exact Hcdn.
  - apply Hlisten. apply far_noFetch. repeat apply noFetch_app; auto.
    apply Hone. exact I.
Qed.

Lemma X26_downloads_witness :
  In EvCloseReady
     [EvLog LevelInfo "Loaded server"
            [("name", "lobby"); ("address", "127.0.0.1:19133")];
      EvLog LevelInfo "Loaded server"
            [("name", "island1"); ("address", "127.0.0.1:19134")];
      EvLog LevelDebug "Loaded pack"
            [("name", "Textures"); ("size", "0.00MB");
             ("uuid", "0b1e7a52-8c3d-4f60-9a11-5d2c7e4f9a01"); ("version", "1.0.0")];
      EvLog LevelInfo "Loaded resource packs" [("count", "1")];
      EvPackRead "0b1e7a52-8c3d-4f60-9a11-5d2c7e4f9a01";
      EvLog LevelDebug "Cached resource pack"
            [("uuid", "0b1e7a52-8c3d-4f60-9a11-5d2c7e4f9a01"); ("size", "4")];
      EvLog LevelInfo "Starting resource pack HTTP server" [("address", ":8080")];
      EvListen ":8080" true; EvCloseReady; EvServe;
      EvLog LevelInfo "Resource pack HTTP server is ready"
            [("baseURL", "http://cdn.example:8080")]].
Proof.
  refine (proj1 (X26_downloads_follow_readiness Samples.cdnEnv _
            [EvLog LevelDebug "Loaded resource pack"
                   [("name", "Textures");
                    ("uuid", "0b1e7a52-8c3d-4f60-9a11-5d2c7e4f9a01");
                    ("url", "http://cdn.example:8080/0b1e7a52-8c3d-4f60-9a11-5d2c7e4f9a01")];
             EvLog LevelInfo "Modified resource packs to use HTTP URLs" [];
             EvProxyListen ["0b1e7a52-8c3d-4f60-9a11-5d2c7e4f9a01"] true;
             EvLog LevelInfo "Starting spectrum proxy"
                   [("oomph-enabled", "false"); ("addr", "0.0.0.0:19132")]]
            "http://cdn.example:8080/0b1e7a52-8c3d-4f60-9a11-5d2c7e4f9a01" _)).
  vm_compute. reflexivity.
Defined.

(** ** The model on sample inputs *)

Example TrimSpace_ex : TrimSpace ("  transfer  Alice " +:+ LF) = "transfer  Alice".
Proof. reflexivity. Qed.

Example Fields_ex :
  Fields (" transfer  Alice" +:+ LF +:+ "lobby ") = ["transfer"; "Alice"; "lobby"].
Proof. reflexivity. Qed.

(** U+00A0 and U+2003 are blanks as well. *)
Example Fields_unicode_ex :
  Fields (String (ascii_of_N 194) (String (ascii_of_N 160) "x y")
          +:+ String (ascii_of_N 226) (String (ascii_of_N 128)
                (String (ascii_of_N 131) "z")))
  = ["x"; "y"; "z"].
Proof. reflexivity. Qed.

Example Split_ex : Split "transfer  Al" " " = ["transfer"; ""; "Al"].
Proof. reflexivity. Qed.

Example itoa_ex : itoa 0 = "0" /\ itoa 1203 = "1203" /\ itoaZ 8080 = "8080".
Proof. repeat split. Qed.

Example Contains_ex : Contains "a..b" ".." = true /\ Contains "a.b" ".." = false.
Proof. split; reflexivity. Qed.

Example Load_ex :
  History.Load (History.empty "command_history.txt" 2)
             (inr (["info"; " "; "players "; "stop"], None))
  = Returns (History.mkHistoryFile "command_history.txt" 2 ["players"; "stop"], None).
Proof. reflexivity. Qed.

Example Append_negative_bound_ex :
  History.Append (History.mkHistoryFile "command_history.txt" (-1) []) "info" None
  = Panics "slice bounds out of range".
Proof. reflexivity. Qed.

Example Complete_player_ex :
  Completer.Complete asciiUpper [Samples.alice; Samples.bob]
    (Main.serverMap Samples.console) (Prompt.mkDocument "transfer ali" 12)
  = ([Prompt.mkSuggest "Alice" "Connected player"], 9%Z, 12%Z).
Proof. reflexivity. Qed.

Example Complete_server_ex :
  Completer.Complete asciiUpper [Samples.alice; Samples.bob]
    (Main.serverMap Samples.console) (Prompt.mkDocument "transfer Alice lo" 17)
  = ([Prompt.mkSuggest "lobby" "Available server"], 15%Z, 17%Z).
Proof. reflexivity. Qed.

Example Complete_after_blank_ex :
  Completer.Complete asciiUpper [Samples.alice; Samples.bob]
    (Main.serverMap Samples.console) (Prompt.mkDocument "transfer " 9)
  = ([], 0%Z, 0%Z).
Proof. reflexivity. Qed.

Example transfer_ex :
  Main.handleCommand "transfer Alice lobby" Samples.console Samples.defaultConfig
  = ([EvTransfer 1 "127.0.0.1:19133" 10; Main.info "Transferred Alice to lobby"],
     Main.Running).
Proof. reflexivity. Qed.

Example transfer_unknown_server_ex :
  Main.handleCommand "transfer Bob nowhere" Samples.console Samples.defaultConfig
  = ([Main.info "Server 'nowhere' not found"], Main.Running).
Proof. reflexivity. Qed.

Example players_ex :
  Main.handleCommand "players" Samples.console Samples.defaultConfig
  = ([Main.info "Players online (2)"; Main.info "- Alice"; Main.info "- Bob"],
     Main.Running).
Proof. reflexivity. Qed.

Example stop_after_append_ex :
  Main.executor " stop " (Some (History.mkHistoryFile "command_history.txt" 100 ["info"]))
                None Samples.console Samples.defaultConfig
  = Returns
      (Some (History.mkHistoryFile "command_history.txt" 100 ["info"; "stop"]),
       [EvWriteFile "command_history.txt" ("info" +:+ LF +:+ "stop" +:+ LF);
        EvServerClose; EvProxyClose; Main.info "Stopped proxy"; EvExit 0],
       Main.Exited 0).
Proof. reflexivity. Qed.

Example main_port_taken_ex :
  Main.main Samples.busyEnv
  = ([EvLog LevelInfo "Loaded server"
            [("name", "lobby"); ("address", "127.0.0.1:19133")];
      EvLog LevelInfo "Loaded server"
            [("name", "island1"); ("address", "127.0.0.1:19134")];
      EvLog LevelDebug "Loaded pack"
            [("name", "Textures"); ("size", "0.00MB");
             ("uuid", "0b1e7a52-8c3d-4f60-9a11-5d2c7e4f9a01"); ("version", "1.0.0")];
      EvLog LevelInfo "Loaded resource packs" [("count", "1")];
      EvPackRead "0b1e7a52-8c3d-4f60-9a11-5d2c7e4f9a01";
      EvLog LevelDebug "Cached resource pack"
            [("uuid", "0b1e7a52-8c3d-4f60-9a11-5d2c7e4f9a01"); ("size", "4")];
      EvLog LevelInfo "Starting resource pack HTTP server" [("address", ":8080")];
      EvListen ":8080" false;
      EvLog LevelError "Resource pack HTTP server error"
            [("error", "bind: address already in use")]],
     Main.StartupBlocked).
Proof. vm_compute. reflexivity. Qed.

Example main_cdn_ex :
  (Main.main Samples.cdnEnv).1
  = [EvLog LevelInfo "Loaded server"
           [("name", "lobby"); ("address", "127.0.0.1:19133")];
     EvLog LevelInfo "Loaded server"
           [("name", "island1"); ("address", "127.0.0.1:19134")];
     EvLog LevelDebug "Loaded pack"
           [("name", "Textures"); ("size", "0.00MB");
            ("uuid", "0b1e7a52-8c3d-4f60-9a11-5d2c7e4f9a01"); ("version", "1.0.0")];
     EvLog LevelInfo "Loaded resource packs" [("count", "1")];
     EvPackRead "0b1e7a52-8c3d-4f60-9a11-5d2c7e4f9a01";
     EvLog LevelDebug "Cached resource pack"
           [("uuid", "0b1e7a52-8c3d-4f60-9a11-5d2c7e4f9a01"); ("size", "4")];
     EvLog LevelInfo "Starting resource pack HTTP server" [("address", ":8080")];
     EvListen ":8080" true; EvCloseReady; EvServe;
     EvLog LevelInfo "Resource pack HTTP server is ready"
           [("baseURL", "http://cdn.example:8080")];
     EvHttpGet "http://cdn.example:8080/0b1e7a52-8c3d-4f60-9a11-5d2c7e4f9a01";
     EvLog LevelDebug "Loaded resource pack"
           [("name", "Textures"); ("uuid", "0b1e7a52-8c3d-4f60-9a11-5d2c7e4f9a01");
            ("url", "http://cdn.example:8080/0b1e7a52-8c3d-4f60-9a11-5d2c7e4f9a01")];
     EvLog LevelInfo "Modified resource packs to use HTTP URLs" [];
     EvProxyListen ["0b1e7a52-8c3d-4f60-9a11-5d2c7e4f9a01"] true;
     EvLog LevelInfo "Starting spectrum proxy"
           [("oomph-enabled", "false"); ("addr", "0.0.0.0:19132")]].
Proof. vm_compute. reflexivity. Qed.
